(** * Interactive acquisition workflow: Selenium services of the scraper

    A shallow embedding of [Utilities.py] ([DatePickerUtil]),
    [DatasSelectionService.py] ([DataSelectionService]) and
    [DownloadService.py] ([DownloadService]).  The browser is an interface
    ([WebDriver]); the services are written against it in a small
    state-and-exception monad, and two browsers implement it: a
    bootstrap-style date picker and a paginated page of elements. *)

From Stdlib Require Import ZArith Ascii String DecimalString Lia.
From stdpp Require Import gmap strings list.

Local Open Scope Z_scope.

(** ** Python [str] operations

    Texts are [string]s of ASCII characters; a byte above 127 is neither a
    digit, nor white space, nor an upper-case letter. *)

Module Text.

(** The double-quote character, for the XPath literals of the source. *)
Definition dq : string := String (ascii_of_nat 34) EmptyString.

Definition is_digit (c : ascii) : bool :=
  let n := nat_of_ascii c in ((48 <=? n) && (n <=? 57))%nat.

(** [str.isspace] on ASCII: TAB, LF, VT, FF, CR, FS, GS, RS, US, space. *)
Definition is_space (c : ascii) : bool :=
  let n := nat_of_ascii c in
  (((9 <=? n) && (n <=? 13)) || ((28 <=? n) && (n <=? 32)))%nat.

Definition is_upper (c : ascii) : bool :=
  let n := nat_of_ascii c in ((65 <=? n) && (n <=? 90))%nat.

Definition lower_char (c : ascii) : ascii :=
  if is_upper c then ascii_of_nat (nat_of_ascii c + 32) else c.

(** [s.lower()] *)
Fixpoint lower (s : string) : string :=
  match s with
  | EmptyString => EmptyString
  | String c s' => String (lower_char c) (lower s')
  end.

Fixpoint lstrip (s : string) : string :=
  match s with
  | EmptyString => EmptyString
  | String c s' => if is_space c then lstrip s' else s
  end.

Fixpoint rstrip (s : string) : string :=
  match s with
  | EmptyString => EmptyString
  | String c s' =>
      match rstrip s' with
      | EmptyString => if is_space c then EmptyString else String c EmptyString
      | r => String c r
      end
  end.

(** [s.strip()] *)
Definition strip (s : string) : string := rstrip (lstrip s).

(** Truth value of a [str]: non-empty. *)
Definition truthy (s : string) : bool :=
  match s with EmptyString => false | _ => true end.

(** [sub in s] *)
Fixpoint str_in (sub s : string) : bool :=
  String.prefix sub s
  || match s with
     | EmptyString => false
     | String _ s' => str_in sub s'
     end.

Definition digit_value (c : ascii) : Z := Z.of_nat (nat_of_ascii c) - 48.

(** [int(m.group(1))] for a match of decimal digits. *)
Definition int_of_digits (s : string) : Z :=
  fold_left (fun acc c => 10 * acc + digit_value c) (list_ascii_of_string s) 0.

(** [re.search(r'(\d{4})', s)]: the leftmost four consecutive digits. *)
Fixpoint re_search_4digits (s : string) : option string :=
  match s with
  | EmptyString => None
  | String a s' =>
      match s' with
      | String b (String c (String d _)) =>
          if is_digit a && is_digit b && is_digit c && is_digit d
          then Some (String a (String b (String c (String d EmptyString))))
          else re_search_4digits s'
      | _ => None
      end
  end.

(** [str(n)] for an [int]. *)
Definition str_of_int (n : Z) : string := NilZero.string_of_int (Z.to_int n).

Fixpoint all_chars (P : ascii -> bool) (s : string) : bool :=
  match s with
  | EmptyString => true
  | String c s' => P c && all_chars P s'
  end.

(** Neither a digit nor a space: what a month name is made of. *)
Definition is_word_char (c : ascii) : bool :=
  negb (is_digit c) && negb (Ascii.eqb c " ").

(** [str(y)] is four digits that read back as [y]. *)
Definition four_digit_year (y : Z) : bool :=
  match str_of_int y with
  | String a (String b (String c (String d EmptyString))) =>
      is_digit a && is_digit b && is_digit c && is_digit d
      && (int_of_digits (str_of_int y) =? y)
  | _ => false
  end.

End Text.

(** ** Exceptions, events and the monad of the services *)

(** The Python exceptions the services raise, catch or let through; all are
    subclasses of [Exception]. *)
Inductive exn :=
| TimeoutException
| NoSuchElementException
| ElementNotInteractableException
| StaleElementReferenceException
| UnexpectedTagNameException
| NotImplementedError
| KeyError (key : string)
| TypeError
| ValueError
| FileNotFoundError
| FileExistsError
| PermissionError
| OSError.

(** [By.XPATH] and [By.CLASS_NAME]. *)
Inductive By := XPATH | CLASS_NAME.

Abbreviation locator := (By * string)%type.

(** The expected conditions handed to [WebDriverWait.until]. *)
Inductive condition :=
| element_to_be_clickable
| presence_of_element_located
| visibility_of_element_located.

(** Records written with [logging.warning] and [logging.error]; the
    [logging.info] records carry no behaviour and are left out, except the
    one that replaces a swallowed exception. *)
Inductive log_record :=
| WarnNoXPathElement (element_name : string)
| WarnNoXPathParameter (param_name : string)
| ErrorSelectData
| ErrorCheckedClick
| ErrorCheckedClickDownload
| ErrorSelectDate
| ErrorDownloadData
| ErrorRenameFile
| InfoNoConfirmButton.

(** What a run leaves behind besides the browser state: the clicks that
    went through, in order, and the log. *)
Inductive event (E : Type) :=
| Clicked (element : E)
| Logged (record : log_record)
| ToExcel (file_name : string) (columns : option (list string))
          (data : list (list string)).
Arguments Clicked {E} element.
Arguments Logged {E} record.
Arguments ToExcel {E} file_name columns data.

Record session (W E : Type) := Session { world : W; trace : list (event E) }.
Arguments Session {W E} world trace.
Arguments world {W E} s.
Arguments trace {W E} s.

(** A call returns, raises, or exhausts the iteration budget of a [while]
    loop ([OutOfFuel], which no [except] clause catches). *)
Inductive outcome (W E A : Type) :=
| Ok (a : A) (s : session W E)
| Exn (e : exn) (s : session W E)
| OutOfFuel.
Arguments Ok {W E A} a s.
Arguments Exn {W E A} e s.
Arguments OutOfFuel {W E A}.

Definition M (W E A : Type) : Type := session W E -> outcome W E A.

(** What a caller sees of an outcome, the browser left aside. *)
Inductive verdict (A : Type) :=
| Returned (a : A)
| Raised (e : exn)
| Exhausted.
Arguments Returned {A} a.
Arguments Raised {A} e.
Arguments Exhausted {A}.

Definition verdict_of {W E A} (o : outcome W E A) : verdict A :=
  match o with
  | Ok a _ => Returned a
  | Exn e _ => Raised e
  | OutOfFuel => Exhausted
  end.

Definition trace_of {W E A} (o : outcome W E A) : list (event E) :=
  match o with
  | Ok _ s | Exn _ s => trace s
  | OutOfFuel => []
  end.

Definition ret {W E A} (a : A) : M W E A := fun s => Ok a s.

Definition bind {W E A B} (m : M W E A) (k : A -> M W E B) : M W E B :=
  fun s =>
    match m s with
    | Ok a s' => k a s'
    | Exn e s' => Exn e s'
    | OutOfFuel => OutOfFuel
    end.

Definition raise {W E A} (e : exn) : M W E A := fun s => Exn e s.

Definition out_of_fuel {W E A} : M W E A := fun _ => OutOfFuel.

(** [try: body  except Exception as e: handler e] *)
Definition try_except {W E A} (body : M W E A) (handler : exn -> M W E A) : M W E A :=
  fun s =>
    match body s with
    | Exn e s' => handler e s'
    | r => r
    end.

Definition log {W E} (r : log_record) : M W E unit :=
  fun s => Ok tt (Session (world s) (trace s ++ [Logged r])).

Declare Scope py_scope.
Delimit Scope py_scope with py.
Notation "x <- m ;; k" := (bind m (fun x => k))
  (at level 100, m at next level, right associativity) : py_scope.
Notation "m ;; k" := (bind m (fun _ => k))
  (at level 100, right associativity) : py_scope.
Local Open Scope py_scope.

(** [for x in xs: body x] *)
Fixpoint for_each {W E A} (xs : list A) (body : A -> M W E unit) : M W E unit :=
  match xs with
  | [] => ret tt
  | x :: xs' => body x ;; for_each xs' body
  end.

(** [[f x for x in xs]] *)
Fixpoint comprehension {W E A B} (f : A -> M W E B) (xs : list A) : M W E (list B) :=
  match xs with
  | [] => ret []
  | x :: xs' => y <- f x ;; ys <- comprehension f xs' ;; ret (y :: ys)
  end.

(** ** The automation session

    The calls the services make on Selenium's [WebDriver], [WebElement],
    [WebDriverWait] and [Select].  [W] is the state of the browser and [E]
    the type of element handles.  A wait only observes: it returns the
    element or times out. *)
Class WebDriver (W E : Type) := {
  (** [driver.get(url)] *)
  drv_get : string -> W -> exn + W;
  (** [WebDriverWait(driver, t).until(cond((by, value)))]; [None] when the
      wait times out. *)
  drv_until : condition -> locator -> W -> option E;
  (** [driver.find_element(by, value)]; [None] when there is no such
      element. *)
  drv_find_element : locator -> W -> option E;
  (** [element.find_elements(By.XPATH, xpath)] *)
  drv_find_elements : E -> string -> W -> exn + list E;
  (** [element.text] *)
  drv_text : E -> W -> exn + string;
  (** [element.get_attribute(name)] *)
  drv_get_attribute : E -> string -> W -> exn + option string;
  (** [element.is_selected()] *)
  drv_is_selected : E -> W -> exn + bool;
  (** [element.click()] *)
  drv_click : E -> W -> exn + W;
  (** [Select(element).select_by_visible_text(text)] *)
  drv_select_by_visible_text : E -> string -> W -> exn + W;
  (** [time.sleep], in milliseconds *)
  drv_sleep : nat -> W -> W
}.

Section Calls.
Context {W E : Type} `{WebDriver W E}.

Definition observe {A} (f : W -> exn + A) : M W E A :=
  fun s => match f (world s) with inr a => Ok a s | inl e => Exn e s end.

Definition update (f : W -> exn + W) : M W E unit :=
  fun s =>
    match f (world s) with
    | inr w => Ok tt (Session w (trace s))
    | inl e => Exn e s
    end.

Definition driver_get (url : string) : M W E unit := update (drv_get url).

Definition until (c : condition) (l : locator) : M W E E :=
  fun s =>
    match drv_until c l (world s) with
    | Some e => Ok e s
    | None => Exn TimeoutException s
    end.

Definition find_element (l : locator) : M W E E :=
  fun s =>
    match drv_find_element l (world s) with
    | Some e => Ok e s
    | None => Exn NoSuchElementException s
    end.

Definition find_elements (e : E) (xpath : string) : M W E (list E) :=
  observe (drv_find_elements e xpath).

Definition text (e : E) : M W E string := observe (drv_text e).

Definition get_attribute (e : E) (name : string) : M W E (option string) :=
  observe (drv_get_attribute e name).

Definition is_selected (e : E) : M W E bool := observe (drv_is_selected e).

(** A click that goes through is recorded in the trace. *)
Definition click (e : E) : M W E unit :=
  fun s =>
    match drv_click e (world s) with
    | inr w => Ok tt (Session w (trace s ++ [Clicked e]))
    | inl x => Exn x s
    end.

Definition select_by_visible_text (e : E) (t : string) : M W E unit :=
  update (drv_select_by_visible_text e t).

Definition sleep (ms : nat) : M W E unit :=
  fun s => Ok tt (Session (drv_sleep ms (world s)) (trace s)).

End Calls.

(** ** [Utilities.DatePickerUtil] *)

Module DatePickerUtil.

Import Text.

(** Default values of the keyword parameters of [select_date]. *)
Definition input_datapicker_xpath_default : string :=
  "//input[@class=" +:+ dq +:+ "form-control form-control-sm" +:+ dq +:+ "]".
Definition datepicker_container_class_name_default : string := "datepicker-dropdown".
Definition datepicker_switch_xpath_default : string :=
  "//th[@class=" +:+ dq +:+ "datepicker-switch" +:+ dq +:+ "]".
Definition prev_button_xpath_default : string :=
  "//th[@class=" +:+ dq +:+ "prev" +:+ dq +:+ "]".

(** [f'//td[@class="day" and text()="{day}"]'] *)
Definition day_xpath (day : Z) : string :=
  "//td[@class=" +:+ dq +:+ "day" +:+ dq +:+ " and text()=" +:+ dq
  +:+ str_of_int day +:+ dq +:+ "]".

(** The year read from a header text: [int] of the first four-digit match,
    [None] when [re.search] finds none. *)
Definition year_in (current_text : string) : option Z :=
  int_of_digits <$> re_search_4digits current_text.

Section select_date.
Context {W E : Type} `{WebDriver W E}.
Variables (day : Z) (month : string) (year : Z).
Variables (input_datapicker_xpath datepicker_container_class_name
           datepicker_switch_xpath prev_button_xpath : string).

(** The widget opens and its header reads [t]: the steps of [select_date]
    before the year is looked for. *)
Definition opens (s : session W E) (input : E) (w1 : W) (t : string) : Prop :=
  drv_until visibility_of_element_located (XPATH, input_datapicker_xpath) (world s)
    = Some input
  /\ drv_click input (world s) = inr w1
  /\ (exists container,
        drv_until visibility_of_element_located
          (CLASS_NAME, datepicker_container_class_name) w1 = Some container)
  /\ (exists switch,
        drv_until visibility_of_element_located (XPATH, datepicker_switch_xpath) w1
          = Some switch
        /\ drv_text switch w1 = inr t).

(** Re-read the header: wait for the switch to be visible and take its
    lower-cased text. *)
Definition read_switch : M W E string :=
  datepicker_switch <- until visibility_of_element_located (XPATH, datepicker_switch_xpath) ;;
  t <- text datepicker_switch ;;
  ret (lower t).

(** [while current_year != year: ...].  The budget [fuel] counts loop
    bodies that reach the previous-control; the source has no such cap.
    Returns the last header text and the budget left. *)
Fixpoint year_loop (fuel : nat) (current_year : Z) (current_text : string)
  : M W E (string * nat) :=
  if current_year =? year then ret (current_text, fuel)
  else if current_year >? year then
    match fuel with
    | O => out_of_fuel
    | S fuel' =>
        prev_button <- find_element (XPATH, prev_button_xpath) ;;
        click prev_button ;;
        sleep 500 ;;
        current_text' <- read_switch ;;
        let current_year' :=
          match year_in current_text' with
          | Some y => y
          | None => current_year
          end in
        year_loop fuel' current_year' current_text'
    end
  else raise NotImplementedError.

(** [while month.lower() not in current_text: ...] *)
Fixpoint month_loop (fuel : nat) (current_text : string) : M W E unit :=
  if str_in (lower month) current_text then ret tt
  else
    match fuel with
    | O => out_of_fuel
    | S fuel' =>
        prev_button <- find_element (XPATH, prev_button_xpath) ;;
        click prev_button ;;
        sleep 500 ;;
        current_text' <- read_switch ;;
        month_loop fuel' current_text'
    end.

(** Month alignment followed by the click on the day cell. *)
Definition month_then_day (fuel : nat) (current_text : string) : M W E unit :=
  month_loop fuel current_text ;;
  day_element <- until element_to_be_clickable (XPATH, day_xpath day) ;;
  click day_element.

(** [DatePickerUtil.select_date]; [fuel] bounds the number of times the two
    loops together activate the previous-control. *)
Definition select_date (fuel : nat) : M W E unit :=
  try_except
    (input <- until visibility_of_element_located (XPATH, input_datapicker_xpath) ;;
     click input ;;
     until visibility_of_element_located (CLASS_NAME, datepicker_container_class_name) ;;
     current_text <- read_switch ;;
     let current_year :=
       match year_in current_text with
       | Some y => y
       | None => year
       end in
     r <- year_loop fuel current_year current_text ;;
     month_then_day (snd r) (fst r))
    (fun e => log ErrorSelectDate ;; raise e).

End select_date.

End DatePickerUtil.

(** ** [DatasSelectionService] *)

Record DataSelectionConfig := {
  url_analysis : string;
  daily_button_xpath : string;
  date_picker_xpath : string;
  typology_select_xpath : string;
  next_button_xpath : string;
  confirm_button_xpath : string;
  table_xpath : string;
  pagination_next_xpath : string
}.

Module DataSelectionService.

Import Text.

(** The attributes of a [DataSelectionService] but the driver, which is the
    [WebDriver] instance.  [typology_dict] maps a typology to its
    ['Elements'] and ['Parameters'] tables, each from a name to an XPath. *)
Record t := {
  config : DataSelectionConfig;
  typology_dict : gmap string (gmap string (gmap string string));
  wait_time : Z;
  day : Z;
  month : string;
  year : Z;
  elements : list string;
  parameters : list string;
  typology_key : string
}.

(** The service configured with other names to toggle. *)
Definition with_elements (self : t) (names : list string) : t :=
  {| config := config self; typology_dict := typology_dict self;
     wait_time := wait_time self; day := day self; month := month self;
     year := year self; elements := names; parameters := parameters self;
     typology_key := typology_key self |}.

Definition with_parameters (self : t) (names : list string) : t :=
  {| config := config self; typology_dict := typology_dict self;
     wait_time := wait_time self; day := day self; month := month self;
     year := year self; elements := elements self; parameters := names;
     typology_key := typology_key self |}.

Section methods.
Context {W E : Type} `{WebDriver W E}.

(** [d[k]] on a [dict] *)
Definition getitem {V} (d : gmap string V) (k : string) : M W E V :=
  match d !! k with
  | Some v => ret v
  | None => raise (KeyError k)
  end.

(** [not xpath] for the result of [dict.get]: [None] or the empty string. *)
Definition not_xpath (xpath : option string) : bool :=
  match xpath with
  | Some x => negb (truthy x)
  | None => true
  end.

(** [checked_click]: every [WebElement] has [is_selected], so the [hasattr]
    test is true. *)
Definition checked_click (element : E) : M W E unit :=
  try_except
    (selected <- is_selected element ;;
     if selected then ret tt else click element)
    (fun e => log ErrorCheckedClick ;; raise e).

(** The body of the loop of [_select_elements]. *)
Definition select_element (self : t) (element_name : string) : M W E unit :=
  by_typology <- getitem (typology_dict self) (typology_key self) ;;
  table <- getitem by_typology "Elements" ;;
  let xpath := table !! element_name in
  if not_xpath xpath then log (WarnNoXPathElement element_name)
  else
    elem_checkbox <- until presence_of_element_located (XPATH, default "" xpath) ;;
    checked_click elem_checkbox ;;
    sleep 500.

Definition _select_elements (self : t) : M W E unit :=
  if bool_decide (elements self = []) then ret tt
  else for_each (elements self) (select_element self).

(** The body of the loop of [_select_parameters]. *)
Definition select_parameter (self : t) (param_name : string) : M W E unit :=
  by_typology <- getitem (typology_dict self) (typology_key self) ;;
  table <- getitem by_typology "Parameters" ;;
  let xpath := table !! param_name in
  if not_xpath xpath then log (WarnNoXPathParameter param_name)
  else
    param_checkbox <- until presence_of_element_located (XPATH, default "" xpath) ;;
    checked_click param_checkbox ;;
    sleep 500.

Definition _select_parameters (self : t) : M W E unit :=
  if bool_decide (parameters self = []) then ret tt
  else for_each (parameters self) (select_parameter self).

(** [[header.text.strip() for header in header_elements if header.text.strip()]] *)
Fixpoint header_texts (header_elements : list E) : M W E (list string) :=
  match header_elements with
  | [] => ret []
  | header :: rest =>
      t <- text header ;;
      if truthy (strip t)
      then t' <- text header ;; hs <- header_texts rest ;; ret (strip t' :: hs)
      else header_texts rest
  end.

(** [for row in rows: ... data.append(values)] *)
Fixpoint read_rows (rows : list E) (data : list (list string))
  : M W E (list (list string)) :=
  match rows with
  | [] => ret data
  | row :: rest =>
      cells <- find_elements row "./td" ;;
      values <- comprehension (fun cell => t <- text cell ;; ret (strip t)) cells ;;
      read_rows rest (data ++ [values])
  end.

(** The [try] block that ends an iteration of the page loop: [false] stands
    for [break], [true] for falling through to the next iteration.
    ['disabled' in None] raises [TypeError]. *)
Definition next_page (pagination_next_xpath : string) : M W E bool :=
  try_except
    (next_button <- find_element (XPATH, pagination_next_xpath) ;;
     class <- get_attribute next_button "class" ;;
     match class with
     | None => raise TypeError
     | Some c =>
         if str_in "disabled" c then ret false
         else checked_click next_button ;; sleep 1000 ;; ret true
     end)
    (fun _ => ret false).

(** [while True: ...]; [fuel] bounds the number of pages read. *)
Fixpoint page_loop (fuel : nat) (pagination_next_xpath table_xpath : string)
    (data : list (list string)) : M W E (list (list string)) :=
  match fuel with
  | O => out_of_fuel
  | S fuel' =>
      table_element <- until presence_of_element_located (XPATH, table_xpath) ;;
      rows <- find_elements table_element ".//tbody/tr" ;;
      data' <- read_rows rows data ;;
      again <- next_page pagination_next_xpath ;;
      if again then page_loop fuel' pagination_next_xpath table_xpath data'
      else ret data'
  end.

(** [_extract_table] up to the hand-over to pandas: the values of [headers]
    and [data] when the loop is left. *)
Definition table_contents (fuel : nat) (pagination_next_xpath table_xpath : string)
  : M W E (list string * list (list string)) :=
  table_element <- until presence_of_element_located (XPATH, table_xpath) ;;
  header_elements <- find_elements table_element ".//thead//th" ;;
  headers <- header_texts header_elements ;;
  data <- page_loop fuel pagination_next_xpath table_xpath [] ;;
  ret (headers, data).

(** [f"Data_{self.typology_key}_{self.day}_{self.month}_{self.year}.xlsx"] *)
Definition file_name (self : t) : string :=
  "Data_" +:+ typology_key self +:+ "_" +:+ str_of_int (day self) +:+ "_"
  +:+ month self +:+ "_" +:+ str_of_int (year self) +:+ ".xlsx".

(** The number of columns [pd.DataFrame] gives a list of rows: the length
    of the longest row, the shorter ones being padded. *)
Definition frame_width (data : list (list string)) : nat :=
  foldr (fun row => Nat.max (length row)) 0%nat data.

(** [pd.DataFrame(data, columns=columns)] builds a frame, or raises
    [ValueError]: with [columns] given and [data] not empty, the number of
    columns has to be the width of the data. *)
Definition data_frame (data : list (list string)) (columns : option (list string))
  : bool :=
  match columns, data with
  | Some names, _ :: _ => Nat.eqb (length names) (frame_width data)
  | _, _ => true
  end.

(** [_extract_table(self, wait, pagination_next_xpath, table_xpath)]: the
    parameters in the order of the [def].  The frame is built from [data]
    with [columns=headers if headers else None]; what [to_excel] writes is
    the persistence library's business, the hand-over of the frame is
    recorded as a [ToExcel] event. *)
Definition _extract_table (self : t) (fuel : nat)
    (pagination_next_xpath table_xpath : string) : M W E unit :=
  r <- table_contents fuel pagination_next_xpath table_xpath ;;
  let headers := fst r in
  let data := snd r in
  let columns := match headers with [] => None | _ => Some headers end in
  if data_frame data columns
  then fun s =>
         Ok tt (Session (world s)
                  (trace s ++ [ToExcel (file_name self) columns data]))
  else raise ValueError.

(** The steps of [select_data] before the check boxes are toggled. *)
Definition select_data_open (self : t) (fuel : nat) : M W E unit :=
  driver_get (url_analysis (config self)) ;;
  day_button <- until element_to_be_clickable (XPATH, daily_button_xpath (config self)) ;;
  checked_click day_button ;;
  DatePickerUtil.select_date (day self) (month self) (year self)
    DatePickerUtil.input_datapicker_xpath_default
    DatePickerUtil.datepicker_container_class_name_default
    DatePickerUtil.datepicker_switch_xpath_default
    DatePickerUtil.prev_button_xpath_default fuel ;;
  sleep 2000 ;;
  typology_element <- until presence_of_element_located
                        (XPATH, typology_select_xpath (config self)) ;;
  select_by_visible_text typology_element (typology_key self) ;;
  sleep 2000.

(** The steps of [select_data] after the check boxes are toggled.  The call
    of [_extract_table] passes its arguments by position, as the source
    does. *)
Definition select_data_finish (self : t) (fuel : nat) : M W E unit :=
  next_button <- until element_to_be_clickable (XPATH, next_button_xpath (config self)) ;;
  checked_click next_button ;;
  sleep 2000 ;;
  _extract_table self fuel (table_xpath (config self))
                           (pagination_next_xpath (config self)) ;;
  try_except
    (confirm_button <- until element_to_be_clickable
                         (XPATH, confirm_button_xpath (config self)) ;;
     checked_click confirm_button)
    (fun _ => log InfoNoConfirmButton).

(** The two toggling steps of [select_data], one after the other. *)
Definition toggling (self : t) : M W E unit :=
  _select_elements self ;; _select_parameters self.

(** [select_data]; [fuel] is the iteration budget of each loop it runs. *)
Definition select_data (self : t) (fuel : nat) : M W E unit :=
  try_except
    (select_data_open self fuel ;;
     toggling self ;;
     select_data_finish self fuel)
    (fun e => log ErrorSelectData ;; raise e).

End methods.

End DataSelectionService.

(** ** The file system seen by [DownloadService] and [FileManagerUtil] *)

(** What one poll finds at the expected path: [os.path.exists] is false;
    or the file is there and [open(path, 'ab')] raises [PermissionError],
    succeeds, or raises another error. *)
Inductive file_state :=
| Absent
| BeingWritten
| Released
| Unopenable (e : exn).

(** [host_disk path t] is the state of [path] [t] seconds after the wait
    began; [host_rename old new] is the error [os.rename] raises, if any;
    the [strftime] fields are the current date. *)
Record Host := {
  host_home : string;
  host_disk : string -> nat -> file_state;
  host_rename : string -> string -> option exn;
  strftime_d : string;
  strftime_B : string;
  strftime_Y : string
}.

Module Path.

(** [os.path.isabs] on POSIX *)
Definition isabs (p : string) : bool := String.prefix "/" p.

Fixpoint ends_with_slash (p : string) : bool :=
  match p with
  | EmptyString => false
  | String c EmptyString => Ascii.eqb c "/"
  | String _ p' => ends_with_slash p'
  end.

(** [os.path.join(a, b)] on POSIX *)
Definition join (a b : string) : string :=
  if isabs b then b
  else if negb (Text.truthy a) || ends_with_slash a then a +:+ b
  else a +:+ "/" +:+ b.

End Path.

Module FileManagerUtil.

Section rename_file.
Context {W E : Type}.

(** [FileManagerUtil.rename_file(old_name, new_name, directory)]; each
    [except] clause logs and re-raises. *)
Definition rename_file (host : Host) (old_name new_name : string)
    (directory : option string) : M W E unit :=
  let directory :=
    match directory with
    | Some d => d
    | None => Path.join (host_home host) "Downloads"
    end in
  let old_file_path := Path.join directory old_name in
  let new_file_path :=
    if Path.isabs new_name then new_name else Path.join directory new_name in
  match host_rename host old_file_path new_file_path with
  | None => ret tt
  | Some e => log ErrorRenameFile ;; raise e
  end.

End rename_file.

End FileManagerUtil.

(** ** [DownloadService] *)

Module DownloadService.

Import Text.

Record DownloadConfig := {
  table_check_xpath : string;
  download_button_xpath : string;
  default_filename : string;
  renamed_filename_pattern : string;
  download_directory : option string;
  wait_time : Z;
  max_download_wait : Z
}.

(** [x or y] for an optional [str] *)
Definition or_else (x : option string) (y : string) : string :=
  match x with
  | Some v => if truthy v then v else y
  | None => y
  end.

(** [pattern.format(day=day, month=month, year=year)] for a pattern whose
    replacement fields are [{day}], [{month}] and [{year}]; doubled braces
    are escapes.  Any other brace raises, as it does in Python (there with
    [KeyError], [IndexError] or [ValueError]; field conversions and format
    specifications are outside the model).  [skip] characters of a field
    already replaced are dropped. *)
Fixpoint format (day month year : string) (skip : nat) (pattern : string)
  : exn + string :=
  match pattern with
  | EmptyString => inr EmptyString
  | String c rest =>
      match skip with
      | S k => format day month year k rest
      | O =>
          let continue (piece : string) (k : nat) :=
            match format day month year k rest with
            | inr r => inr (piece +:+ r)
            | inl e => inl e
            end in
          if String.prefix "{day}" pattern then continue day 4%nat
          else if String.prefix "{month}" pattern then continue month 6%nat
          else if String.prefix "{year}" pattern then continue year 5%nat
          else if String.prefix "{{" pattern then continue "{" 1%nat
          else if String.prefix "}}" pattern then continue "}" 1%nat
          else if Ascii.eqb c "{" || Ascii.eqb c "}" then inl ValueError
          else continue (String c EmptyString) 0%nat
      end
  end.

(** The polling loop of [_wait_for_downloaded_file]: [elapsed] grows by one
    second with every poll that does not return, so [remaining], the
    number of seconds left until [timeout], is the number of polls left. *)
Fixpoint poll (host : Host) (full_path : string) (remaining elapsed : nat)
  : exn + option string :=
  match remaining with
  | O => inr None
  | S remaining' =>
      match host_disk host full_path elapsed with
      | Released => inr (Some full_path)
      | BeingWritten => poll host full_path remaining' (S elapsed)
      | Absent => poll host full_path remaining' (S elapsed)
      | Unopenable e => inl e
      end
  end.

Definition download_dir (host : Host) (config : DownloadConfig) : string :=
  match download_directory config with
  | Some d => if truthy d then d else Path.join (host_home host) "Downloads"
  | None => Path.join (host_home host) "Downloads"
  end.

(** [_wait_for_downloaded_file(filename, timeout)]: the path, or [None]. *)
Definition _wait_for_downloaded_file (host : Host) (config : DownloadConfig)
    (filename : string) (timeout : Z) : exn + option string :=
  let full_path := Path.join (download_dir host config) filename in
  poll host full_path (Z.to_nat timeout) 0%nat.

Definition _generate_filename (host : Host) (config : DownloadConfig)
    (day month year : option string) : exn + string :=
  let day := or_else day (strftime_d host) in
  let month := or_else month (strftime_B host) in
  let year := or_else year (strftime_Y host) in
  format day month year 0%nat (renamed_filename_pattern config).

Section methods.
Context {W E : Type} `{WebDriver W E}.

Definition lift {A} (r : exn + A) : M W E A :=
  match r with
  | inr a => ret a
  | inl e => raise e
  end.

Definition checked_click (element : E) : M W E unit :=
  try_except
    (selected <- is_selected element ;;
     if selected then ret tt else click element)
    (fun e => log ErrorCheckedClickDownload ;; raise e).

(** [if not downloaded_file] *)
Definition not_file (downloaded_file : option string) : bool :=
  match downloaded_file with
  | Some f => negb (truthy f)
  | None => true
  end.

(** The steps of [download_data] in the browser. *)
Definition press_download (config : DownloadConfig) : M W E unit :=
  until presence_of_element_located (XPATH, table_check_xpath config) ;;
  download_button <- until element_to_be_clickable
                       (XPATH, download_button_xpath config) ;;
  checked_click download_button.

Definition download_data (host : Host) (config : DownloadConfig)
    (day month year : option string) : M W E unit :=
  try_except
    (press_download config ;;
     downloaded_file <- lift (_wait_for_downloaded_file host config
                                (default_filename config) (max_download_wait config)) ;;
     if not_file downloaded_file then raise FileNotFoundError
     else
       final_name <- lift (_generate_filename host config day month year) ;;
       FileManagerUtil.rename_file host (default "" downloaded_file) final_name
         (download_directory config))
    (fun e => log ErrorDownloadData ;; raise e).

End methods.

End DownloadService.

(** ** A browser showing a bootstrap-style date picker

    The widget the docstring of [select_date] assumes: an input that opens
    a drop-down whose header (the switch) shows the month name and the year,
    a previous-control that goes back one month, and one cell per day of
    the month shown.  A cell that carries a class besides [day] (today's
    date, the active date, a disabled date) does not match the XPath of
    [select_date]; such cells are listed in [decorated]. *)

Module Datepicker.

Import Text.

Record calendar := Calendar {
  shown_year : Z;
  shown_month : nat;
  opened : bool;
  decorated : list (Z * nat * Z);
  picked : option (Z * nat * Z)
}.

Inductive handle := Input | Container | Switch | Prev | DayCell (d : Z).

Definition month_names : list string :=
  ["Enero"; "Febrero"; "Marzo"; "Abril"; "Mayo"; "Junio"; "Julio"; "Agosto";
   "Septiembre"; "Octubre"; "Noviembre"; "Diciembre"].

Definition month_name (m : nat) : string := nth m month_names "".

Definition header (y : Z) (m : nat) : string :=
  month_name m +:+ " " +:+ str_of_int y.

Definition leap (y : Z) : bool :=
  ((y mod 4 =? 0) && negb (y mod 100 =? 0)) || (y mod 400 =? 0).

Definition days_in_month (y : Z) (m : nat) : Z :=
  match m with
  | 1%nat => if leap y then 29 else 28
  | 3%nat | 5%nat | 8%nat | 10%nat => 30
  | _ => 31
  end.

Definition same_date (a b : Z * nat * Z) : bool :=
  (a.1.1 =? b.1.1) && Nat.eqb a.1.2 b.1.2 && (a.2 =? b.2).

(** The cell of day [d] has the class [day] and nothing else. *)
Definition plain_day (c : calendar) (d : Z) : bool :=
  (1 <=? d) && (d <=? days_in_month (shown_year c) (shown_month c))
  && negb (existsb (same_date (shown_year c, shown_month c, d)) (decorated c)).

(** The day whose cell the XPath [x] selects, if [x] is such an XPath. *)
Definition day_of_xpath (x : string) : option Z :=
  find (fun d => String.eqb x (DatePickerUtil.day_xpath d))
       (map Z.of_nat (seq 1 31)).

(** The XPath of the cell of day [d] is none of the other locators and
    selects day [d]. *)
Definition day_locator_ok (d : Z) : bool :=
  negb (String.eqb (DatePickerUtil.day_xpath d) DatePickerUtil.input_datapicker_xpath_default)
  && negb (String.eqb (DatePickerUtil.day_xpath d) DatePickerUtil.datepicker_switch_xpath_default)
  && negb (String.eqb (DatePickerUtil.day_xpath d) DatePickerUtil.prev_button_xpath_default)
  && match day_of_xpath (DatePickerUtil.day_xpath d) with
     | Some d' => d' =? d
     | None => false
     end.

Definition go_back (c : calendar) : calendar :=
  match shown_month c with
  | O => Calendar (shown_year c - 1) 11 (opened c) (decorated c) (picked c)
  | S m => Calendar (shown_year c) m (opened c) (decorated c) (picked c)
  end.

Definition locate (l : locator) (c : calendar) : option handle :=
  match l with
  | (XPATH, x) =>
      if String.eqb x DatePickerUtil.input_datapicker_xpath_default then Some Input
      else if negb (opened c) then None
      else if String.eqb x DatePickerUtil.datepicker_switch_xpath_default then Some Switch
      else if String.eqb x DatePickerUtil.prev_button_xpath_default then Some Prev
      else
        match day_of_xpath x with
        | Some d => if plain_day c d then Some (DayCell d) else None
        | None => None
        end
  | (CLASS_NAME, n) =>
      if opened c && String.eqb n DatePickerUtil.datepicker_container_class_name_default
      then Some Container else None
  end.

Definition press (h : handle) (c : calendar) : exn + calendar :=
  match h with
  | Input => inr (Calendar (shown_year c) (shown_month c) true (decorated c) (picked c))
  | Prev => if opened c then inr (go_back c) else inl ElementNotInteractableException
  | DayCell d =>
      if opened c && plain_day c d
      then inr (Calendar (shown_year c) (shown_month c) false (decorated c)
                  (Some (shown_year c, shown_month c, d)))
      else inl StaleElementReferenceException
  | Container | Switch => inr c
  end.

#[global] Instance driver : WebDriver calendar handle := {
  drv_get _ c := inr c;
  drv_until _ l c := locate l c;
  drv_find_element l c := locate l c;
  drv_find_elements _ _ _ := inr [];
  drv_text h c :=
    match h with
    | Switch => inr (header (shown_year c) (shown_month c))
    | DayCell d => inr (str_of_int d)
    | _ => inr ""
    end;
  drv_get_attribute _ _ _ := inr None;
  drv_is_selected _ _ := inr false;
  drv_click := press;
  drv_select_by_visible_text _ _ _ := inl UnexpectedTagNameException;
  drv_sleep _ c := c
}.

(** [select_date] with the default locators. *)
Definition select_date (day : Z) (month : string) (year : Z) (fuel : nat)
  : M calendar handle unit :=
  DatePickerUtil.select_date day month year
    DatePickerUtil.input_datapicker_xpath_default
    DatePickerUtil.datepicker_container_class_name_default
    DatePickerUtil.datepicker_switch_xpath_default
    DatePickerUtil.prev_button_xpath_default fuel.

(** The target month is the month shown or an earlier one: it is reached
    by going back only. *)
Definition reachable_backward (c : calendar) (year : Z) (month : nat) : Prop :=
  year < shown_year c \/ (year = shown_year c /\ (month <= shown_month c)%nat).

(** The number of months between [(year, month)] and the later month the
    widget shows (months count from 0). *)
Definition months_back (c : calendar) (year : Z) (month : nat) : nat :=
  Z.to_nat (12 * (shown_year c - year) + Z.of_nat (shown_month c) - Z.of_nat month).

End Datepicker.

(** ** A browser showing pages of elements

    A page maps locators to elements; the browser holds the page shown and
    the pages that follow it.  An element has a text, a [class] attribute
    (for an HTML element [get_attribute('class')] is the [className]
    property, a string), a selected flag, and what a click on it does.  A
    table element has header cells and body rows. *)

#[export] Instance By_eq_dec : EqDecision By.
Proof. solve_decision. Defined.

#[export] Instance By_countable : Countable By.
Proof.
  refine (inj_countable' (fun b => match b with XPATH => true | CLASS_NAME => false end)
            (fun b : bool => if b then XPATH else CLASS_NAME) _).
  intros []; reflexivity.
Defined.

Module Dom.

Inductive click_effect :=
| NotInteractable   (* the click raises *)
| NoEffect
| Toggle            (* flips the selected flag: a check box *)
| NextPage.         (* shows the following page, if there is one *)

Record element := Element {
  el_text : string;
  el_class : string;
  el_selected : bool;
  el_displayed : bool;
  el_enabled : bool;
  el_click : click_effect;
  el_options : option (list string);   (* the labels of a [select] *)
  el_th : list string;                 (* texts of [.//thead//th] *)
  el_rows : list (list string)         (* texts of [./td] per [.//tbody/tr] *)
}.

Abbreviation page := (gmap locator element).

Definition browser : Type := list page.

Inductive handle :=
| Located (l : locator)
| HeaderCell (t : string)
| Row (cells : list string)
| Cell (t : string).

Definition lookup_element (l : locator) (w : browser) : option element :=
  match w with
  | p :: _ => p !! l
  | [] => None
  end.

Definition holds (c : condition) (e : element) : bool :=
  match c with
  | presence_of_element_located => true
  | visibility_of_element_located => el_displayed e
  | element_to_be_clickable => el_displayed e && el_enabled e
  end.

Definition toggled (e : element) : element :=
  Element (el_text e) (el_class e) (negb (el_selected e)) (el_displayed e)
    (el_enabled e) (el_click e) (el_options e) (el_th e) (el_rows e).

Definition press (h : handle) (w : browser) : exn + browser :=
  match h with
  | Located l =>
      match w with
      | p :: rest =>
          match p !! l with
          | Some e =>
              match el_click e with
              | NotInteractable => inl ElementNotInteractableException
              | NoEffect => inr w
              | Toggle => inr (<[l := toggled e]> p :: rest)
              | NextPage => match rest with [] => inr w | _ => inr rest end
              end
          | None => inl StaleElementReferenceException
          end
      | [] => inl StaleElementReferenceException
      end
  | _ => inr w
  end.

Definition of_element {A} (l : locator) (w : browser) (f : element -> A) : exn + A :=
  match lookup_element l w with
  | Some e => inr (f e)
  | None => inl StaleElementReferenceException
  end.

#[global] Instance driver : WebDriver browser handle := {
  drv_get _ w := inr w;
  drv_until c l w :=
    match lookup_element l w with
    | Some e => if holds c e then Some (Located l) else None
    | None => None
    end;
  drv_find_element l w :=
    match lookup_element l w with
    | Some _ => Some (Located l)
    | None => None
    end;
  drv_find_elements h xpath w :=
    match h with
    | Located l =>
        of_element l w (fun e =>
          if String.eqb xpath ".//thead//th" then map HeaderCell (el_th e)
          else if String.eqb xpath ".//tbody/tr" then map Row (el_rows e)
          else [])
    | Row cells => inr (if String.eqb xpath "./td" then map Cell cells else [])
    | _ => inr []
    end;
  drv_text h w :=
    match h with
    | Located l => of_element l w el_text
    | HeaderCell t => inr t
    | Row cells => inr (String.concat " " cells)
    | Cell t => inr t
    end;
  drv_get_attribute h name w :=
    match h with
    | Located l =>
        of_element l w (fun e =>
          if String.eqb name "class" then Some (el_class e) else None)
    | _ => inr None
    end;
  drv_is_selected h w :=
    match h with
    | Located l => of_element l w el_selected
    | _ => inr false
    end;
  drv_click := press;
  drv_select_by_visible_text h t w :=
    match h with
    | Located l =>
        match lookup_element l w with
        | Some e =>
            match el_options e with
            | Some labels =>
                if existsb (String.eqb t) labels then inr w
                else inl NoSuchElementException
            | None => inl UnexpectedTagNameException
            end
        | None => inl StaleElementReferenceException
        end
    | _ => inl UnexpectedTagNameException
    end;
  drv_sleep _ w := w
}.

(** Some elements. *)
Definition plain (t class : string) (effect : click_effect) : element :=
  Element t class false true true effect None [] [].
Definition checkbox (selected : bool) : element :=
  Element "" "form-check-input" selected true true Toggle None [] [].
Definition button (t : string) : element := plain t "btn" NoEffect.
Definition table (th : list string) (rows : list (list string)) : element :=
  Element "" "table" false true true NoEffect None th rows.
Definition next_link (class : string) : element := plain "" class NextPage.

(** The texts a table element holds for the cells of its body rows, as
    [_extract_table] records them. *)
Definition rows_at (table_xpath : string) (p : page) : list (list string) :=
  match p !! (XPATH, table_xpath) with
  | Some e => map (map Text.strip) (el_rows e)
  | None => []
  end.

(** The stripped, non-empty texts of header cells, in their order. *)
Definition stripped_nonempty (texts : list string) : list string :=
  List.filter Text.truthy (map Text.strip texts).

Definition headers_at (table_xpath : string) (p : page) : list string :=
  match p !! (XPATH, table_xpath) with
  | Some e => stripped_nonempty (el_th e)
  | None => []
  end.

Definition has_table (table_xpath : string) (p : page) : Prop :=
  is_Some (p !! (XPATH, table_xpath)).

(** The next-page control of a page lets the loop go on to the following
    page: it is there, its class has no [disabled], it does not report
    itself selected, and a click on it shows the following page. *)
Definition advances (pagination_next_xpath : string) (p : page) : bool :=
  match p !! (XPATH, pagination_next_xpath) with
  | Some e =>
      negb (Text.str_in "disabled" (el_class e)) && negb (el_selected e)
      && match el_click e with NextPage => true | _ => false end
  | None => false
  end.

Definition absent (pagination_next_xpath : string) (p : page) : Prop :=
  p !! (XPATH, pagination_next_xpath) = None.

Definition disabled (pagination_next_xpath : string) (p : page) : Prop :=
  exists e, p !! (XPATH, pagination_next_xpath) = Some e
            /\ Text.str_in "disabled" (el_class e) = true.

Definition unclickable (pagination_next_xpath : string) (p : page) : Prop :=
  exists e, p !! (XPATH, pagination_next_xpath) = Some e
            /\ el_click e = NotInteractable.

(** The control, if there, does not report itself selected (a link or a
    button, not a check box that is ticked). *)
Definition unselected (pagination_next_xpath : string) (p : page) : Prop :=
  forall e, p !! (XPATH, pagination_next_xpath) = Some e -> el_selected e = false.

End Dom.

(** ** [WebDriverManager] *)

Module WebDriverManager.

Import Text.

Inductive browser_kind := Edge | Chrome | Firefox.

(** What [_create_driver] hands to [webdriver.Edge], [webdriver.Chrome] or
    [webdriver.Firefox]: the arguments added to the options, in order; the
    [headless] attribute set on Firefox options; and the executable path of
    the service ([None] for a service built without one). *)
Record launch := Launch {
  kind : browser_kind;
  arguments : list string;
  options_headless : bool;
  executable_path : option string
}.

(** The exceptions [init_driver] tells apart: [SessionNotCreatedException],
    any other [WebDriverException], the [ValueError] of [_create_driver],
    and any other [Exception]. *)
Inductive error :=
| SessionNotCreatedException
| WebDriverException
| ValueError (browser : string)
| OtherException.

Inductive log_record :=
| WarnEdgeOnJetson
| ErrorSessionNotCreated
| ErrorWebDriver
| ErrorUnexpected.

(** What the manager does to the outside: log records but the [info] ones,
    browsers it tries to start, drivers it quits. *)
Inductive event (D : Type) :=
| Logged (r : log_record)
| Started (l : launch)
| Quit (d : D).
Arguments Logged {D} r.
Arguments Started {D} l.
Arguments Quit {D} d.

(** The machine: [platform.machine()], whether a path exists and is
    executable ([os.path.exists(p) and os.access(p, os.X_OK)]), and what
    starting a browser gives. *)
Record Machine (D : Type) := {
  machine : string;
  executable : string -> bool;
  start : launch -> error + D
}.
Arguments machine {D} _.
Arguments executable {D} _ _.
Arguments start {D} _ _.

(** The attributes of a [WebDriverManager]. *)
Record t (D : Type) := Manager {
  browser : string;
  headless : bool;
  driver_path : option string;
  _is_jetson : bool;
  driver : option D
}.
Arguments Manager {D} browser headless driver_path _is_jetson driver.
Arguments browser {D} _.
Arguments headless {D} _.
Arguments driver_path {D} _.
Arguments _is_jetson {D} _.
Arguments driver {D} _.

Section methods.
Context {D : Type}.
Variable env : Machine D.

(** [__init__(browser, headless, driver_path)] *)
Definition init (browser : string) (headless : bool) (driver_path : option string)
  : t D :=
  Manager (strip (lower browser)) headless driver_path
    (String.eqb (machine env) "aarch64") None.

(** [if driver_path:] for an optional [str] *)
Definition given (driver_path : option string) : bool :=
  match driver_path with
  | Some p => truthy p
  | None => false
  end.

Definition _create_edge_service (self : t D) : option string :=
  if given (driver_path self) then driver_path self else None.

(** The [for path in possible_paths: ... break] of the Chrome and Firefox
    services. *)
Definition search (possible_paths : list string) : option string :=
  List.find (executable env) possible_paths.

Definition _create_chrome_service (self : t D) : option string :=
  let driver_path :=
    if negb (given (driver_path self)) && _is_jetson self
    then match search ["/usr/bin/chromedriver"; "/usr/local/bin/chromedriver"] with
         | Some path => Some path
         | None => driver_path self
         end
    else driver_path self in
  if given driver_path then driver_path else None.

Definition _create_firefox_service (self : t D) : option string :=
  let driver_path :=
    if negb (given (driver_path self)) && _is_jetson self
    then match search ["/usr/bin/geckodriver"; "/usr/local/bin/geckodriver"] with
         | Some path => Some path
         | None => driver_path self
         end
    else driver_path self in
  if given driver_path then driver_path else None.

(** The arguments of Edge and Chrome options. *)
Definition chromium_arguments (self : t D) : list string :=
  (if headless self then ["--headless"; "--disable-gpu"] else [])
  ++ (if _is_jetson self then ["--no-sandbox"; "--disable-dev-shm-usage"] else []).

(** Starting a browser is recorded, whether it succeeds or not. *)
Definition launch_browser (l : launch) : list (event D) * (error + D) :=
  ([Started l], start env l).

Definition _create_driver (self : t D) : list (event D) * (error + D) :=
  if String.eqb (browser self) "edge" then
    let warned := if _is_jetson self then [Logged WarnEdgeOnJetson] else [] in
    let r := launch_browser
               (Launch Edge (chromium_arguments self) false (_create_edge_service self)) in
    (warned ++ fst r, snd r)
  else if String.eqb (browser self) "chrome" then
    launch_browser
      (Launch Chrome (chromium_arguments self) false (_create_chrome_service self))
  else if String.eqb (browser self) "firefox" then
    launch_browser (Launch Firefox [] (headless self) (_create_firefox_service self))
  else ([], inl (ValueError (browser self))).

(** [init_driver]: the manager afterwards, what happened, and the driver
    returned or the exception raised. *)
Definition init_driver (self : t D) : t D * list (event D) * (error + D) :=
  match _create_driver self with
  | (events, inr d) =>
      (Manager (browser self) (headless self) (driver_path self) (_is_jetson self)
         (Some d),
       events, inr d)
  | (events, inl SessionNotCreatedException) =>
      (self, events ++ [Logged ErrorSessionNotCreated], inl SessionNotCreatedException)
  | (events, inl WebDriverException) =>
      (self, events ++ [Logged ErrorWebDriver], inl WebDriverException)
  | (events, inl e) => (self, events ++ [Logged ErrorUnexpected], inl e)
  end.

Definition close_driver (self : t D) : t D * list (event D) :=
  match driver self with
  | Some d =>
      (Manager (browser self) (headless self) (driver_path self) (_is_jetson self) None,
       [Quit d])
  | None => (self, [])
  end.

(** [__enter__]: [init_driver], then the [driver] attribute. *)
Definition __enter__ (self : t D) : t D * list (event D) * (error + option D) :=
  match init_driver self with
  | (self', events, inr _) => (self', events, inr (driver self'))
  | (self', events, inl e) => (self', events, inl e)
  end.

Definition __exit__ (self : t D) : t D * list (event D) := close_driver self.

(** [with WebDriverManager(...) as driver: body]: when [__enter__] raises,
    neither the body nor [__exit__] runs; otherwise [__exit__] runs after
    the body, however the body ends.  The body is given by the events it
    leaves. *)
Definition with_manager (self : t D) (body : option D -> list (event D))
  : t D * list (event D) :=
  match __enter__ self with
  | (self', events, inr d) =>
      let closed := __exit__ self' in
      (fst closed, events ++ body d ++ snd closed)
  | (self', events, inl _) => (self', events)
  end.

End methods.

End WebDriverManager.

(** ** Check boxes on a page *)

Module Panel.

Import Dom.

(** The name resolves to the XPath [x] in a table of the typology
    dictionary. *)
Definition resolves (table : gmap string string) (name x : string) : Prop :=
  table !! name = Some x /\ Text.truthy x = true.

(** The element at [x] is a check box: a click flips its selected flag. *)
Definition toggles (p : page) (x : string) : Prop :=
  exists e : element, p !! (XPATH, x) = Some e /\ el_click e = Toggle.

Definition ticked (p : page) (x : string) : Prop :=
  exists e : element,
    p !! (XPATH, x) = Some e /\ el_click e = Toggle /\ el_selected e = true.

(** From [p] to [p'] elements are left as they are or, for check boxes that
    were not ticked, ticked. *)
Definition only_ticks (p p' : page) : Prop :=
  forall k : locator,
    p' !! k = p !! k
    \/ exists e : element,
         p !! k = Some e /\ el_selected e = false /\ el_click e = Toggle
         /\ p' !! k = Some (toggled e).

(** The log records of a trace, and the elements clicked, in order. *)
Definition logged {E : Type} (tr : list (event E)) : list log_record :=
  flat_map (fun ev => match ev with Logged r => [r] | _ => [] end) tr.

Definition clicked {E : Type} (tr : list (event E)) : list E :=
  flat_map (fun ev => match ev with Clicked e => [e] | _ => [] end) tr.

(** The names of [names] for which [dict.get] gives no usable XPath. *)
Definition unresolved (table : gmap string string) (names : list string)
  : list string :=
  List.filter (fun name => DataSelectionService.not_xpath (table !! name)) names.

End Panel.

(** ** Templates of file names *)

Module Template.

(** Neither brace: a character that [str.format] copies. *)
Definition no_brace (c : ascii) : bool :=
  negb (Ascii.eqb c "{" || Ascii.eqb c "}").

(** A text without braces. *)
Definition literal (s : string) : Prop := Text.all_chars no_brace s = true.

End Template.

(** ** What a poll of the download directory sees *)

Module Disk.

(** The file is not ready at second [t]: absent, or still being written. *)
Definition busy (host : Host) (path : string) (t : nat) : Prop :=
  host_disk host path t = Absent \/ host_disk host path t = BeingWritten.

(** Second [t] is the first at which the file is neither absent nor being
    written. *)
Definition first_settled (host : Host) (path : string) (t : nat) : Prop :=
  forall u : nat, (u < t)%nat -> busy host path u.

End Disk.

(** ** Browsers, services and hosts to run the model on *)

Module Fixtures.

Import Dom.

Definition calendar_march_2025 : Datepicker.calendar :=
  Datepicker.Calendar 2025 2 false [] None.

Definition calendar_january_2024 : Datepicker.calendar :=
  Datepicker.Calendar 2024 0 false [] None.

(** A header without a four-digit year. *)
Definition calendar_may_999 : Datepicker.calendar :=
  Datepicker.Calendar 999 4 false [] None.

(** Three result pages; the second has ragged rows and repeats a row of
    the first. *)
Definition results_1 : page :=
  {[ (XPATH, "//table") := table ["Fecha"; " "; "Potencia "] [["1"; " 2"]; ["3"]];
     (XPATH, "//next") := next_link "page-link" ]}.
Definition results_2 : page :=
  {[ (XPATH, "//table") := table ["Fecha"; "Potencia"] [["1"; " 2"]; ["4"; "5"; "6"]];
     (XPATH, "//next") := next_link "page-link" ]}.
Definition results_3 : page :=
  {[ (XPATH, "//table") := table ["Fecha"; "Potencia"] [["7"; "8"]];
     (XPATH, "//next") := next_link "page-link disabled" ]}.

(** A panel with a check box, a ticked check box and a button. *)
Definition panel : page :=
  {[ (XPATH, "//cb") := checkbox false;
     (XPATH, "//ticked") := checkbox true;
     (XPATH, "//btn") := button "OK" ]}.

Definition config : DataSelectionConfig :=
  {| url_analysis := "https://portal/analysis";
     daily_button_xpath := "//daily";
     date_picker_xpath := "//datepicker";
     typology_select_xpath := "//typology";
     next_button_xpath := "//ok";
     confirm_button_xpath := "//confirm";
     table_xpath := "//table";
     pagination_next_xpath := "//next" |}.

Definition inversor_elements : gmap string string :=
  {[ "UP1 INV1.1-01" := "//inv01"; "UP1 INV1.1-02" := "//inv02";
     "UP1 INV1.1-03" := "" ]}.

Definition inversor_tables : gmap string (gmap string string) :=
  {[ "Elements" := inversor_elements;
     "Parameters" := {[ "POTENCIA DC" := "//potencia" ]} ]}.

Definition typology : gmap string (gmap string (gmap string string)) :=
  {[ "Inversor - (INVERSOR)" := inversor_tables ]}.

Definition service : DataSelectionService.t :=
  {| DataSelectionService.config := config;
     DataSelectionService.typology_dict := typology;
     DataSelectionService.wait_time := 10;
     DataSelectionService.day := 15;
     DataSelectionService.month := "febrero";
     DataSelectionService.year := 2025;
     DataSelectionService.elements := ["UP1 INV1.1-01"; "UP1 INV9"; "UP1 INV1.1-02"];
     DataSelectionService.parameters := ["POTENCIA DC"];
     DataSelectionService.typology_key := "Inversor - (INVERSOR)" |}.

(** A service as the constructor's defaults leave it, but for a typology
    key that the dictionary does not have. *)
Definition service_unknown_typology : DataSelectionService.t :=
  {| DataSelectionService.config := config;
     DataSelectionService.typology_dict := typology;
     DataSelectionService.wait_time := 10;
     DataSelectionService.day := 15;
     DataSelectionService.month := "febrero";
     DataSelectionService.year := 2025;
     DataSelectionService.elements := [];
     DataSelectionService.parameters := [];
     DataSelectionService.typology_key := "Dominicana" |}.

(** The analysis page with everything [select_data] touches before the
    table, the date picker already showing the target month. *)
Definition analysis_controls : page :=
  {[ (XPATH, "//daily") := button "Diario";
     (XPATH, DatePickerUtil.input_datapicker_xpath_default) :=
       plain "" "form-control form-control-sm" NoEffect;
     (CLASS_NAME, DatePickerUtil.datepicker_container_class_name_default) :=
       plain "" "datepicker-dropdown" NoEffect;
     (XPATH, DatePickerUtil.datepicker_switch_xpath_default) :=
       plain "Febrero 2025" "datepicker-switch" NoEffect;
     (XPATH, DatePickerUtil.prev_button_xpath_default) := plain "" "prev" NoEffect;
     (XPATH, DatePickerUtil.day_xpath 15) := plain "15" "day" NoEffect;
     (XPATH, "//typology") :=
       Element "" "form-select" false true true NoEffect
         (Some ["Inversor - (INVERSOR)"; "Dominicana"]) [] [];
     (XPATH, "//inv01") := checkbox false;
     (XPATH, "//inv02") := checkbox false;
     (XPATH, "//potencia") := checkbox false;
     (XPATH, "//ok") := button "OK" ]}.

(** The result table fits one page, so there is no next-page control. *)
Definition analysis_page : page :=
  <[ (XPATH, "//table") :=
       table ["Fecha"; "Potencia"] [["00:00"; "0"]; ["00:15"; "1"]] ]>
    analysis_controls.

(** No table, but a next-page control. *)
Definition analysis_page_without_table : page :=
  <[ (XPATH, "//next") := next_link "page-link disabled" ]> analysis_controls.

Definition download_config : DownloadService.DownloadConfig :=
  {| DownloadService.table_check_xpath := "//table";
     DownloadService.download_button_xpath := "//download";
     DownloadService.default_filename := "QuickAnalysis.xlsx";
     DownloadService.renamed_filename_pattern := "QuickAnalysis_{day}_{month}_{year}.xlsx";
     DownloadService.download_directory := None;
     DownloadService.wait_time := 30;
     DownloadService.max_download_wait := 60 |}.

Definition download_page : page :=
  {[ (XPATH, "//table") := table ["Fecha"] [["1"]];
     (XPATH, "//download") := button "Descargar" ]}.

Definition host_with (disk : string -> nat -> file_state) : Host :=
  {| host_home := "/home/user";
     host_disk := disk;
     host_rename := fun _ _ => None;
     strftime_d := "03";
     strftime_B := "November";
     strftime_Y := "2026" |}.

(** The file never appears. *)
Definition host_without_file : Host := host_with (fun _ _ => Absent).

(** The file is there from the start and stays locked by its writer. *)
Definition host_with_locked_file : Host := host_with (fun _ _ => BeingWritten).

(** The file appears after three seconds, locked, and is released at the
    fifth. *)
Definition host_with_slow_file : Host :=
  host_with (fun _ t => if (t <? 3)%nat then Absent
                        else if (t <? 5)%nat then BeingWritten else Released).

End Fixtures.

(** ** More calendars, services, hosts and machines *)

Module Cases.

Import Dom Fixtures.

Definition calendar_february_2025 : Datepicker.calendar :=
  Datepicker.Calendar 2025 1 false [] None.

Definition calendar_may_2025 : Datepicker.calendar :=
  Datepicker.Calendar 2025 4 false [] None.

(** April 2025 is shown; the widget marks 15 March 2025 as today. *)
Definition calendar_april_2025_today : Datepicker.calendar :=
  Datepicker.Calendar 2025 3 false [(2025, 2%nat, 15)] None.

(** A table with a column whose header cell is blank. *)
Definition results_blank_header : page :=
  {[ (XPATH, "//table") :=
       table ["Fecha"; " "; "Potencia"] [["00:00"; "x"; "0"]; ["00:15"; ""; "1"]] ]}.

(** The typology is in the dictionary, its table of elements is not. *)
Definition typology_without_elements : gmap string (gmap string (gmap string string)) :=
  {[ "Inversor - (INVERSOR)" :=
       {[ "Parameters" := {[ "POTENCIA DC" := "//potencia" ]} ]} ]}.

Definition service_without_elements : DataSelectionService.t :=
  {| DataSelectionService.config := config;
     DataSelectionService.typology_dict := typology_without_elements;
     DataSelectionService.wait_time := 10;
     DataSelectionService.day := 15;
     DataSelectionService.month := "febrero";
     DataSelectionService.year := 2025;
     DataSelectionService.elements := ["UP1 INV1.1-01"];
     DataSelectionService.parameters := [];
     DataSelectionService.typology_key := "Inversor - (INVERSOR)" |}.

(** No second is left for the download. *)
Definition download_config_no_wait : DownloadService.DownloadConfig :=
  {| DownloadService.table_check_xpath := "//table";
     DownloadService.download_button_xpath := "//download";
     DownloadService.default_filename := "QuickAnalysis.xlsx";
     DownloadService.renamed_filename_pattern := "QuickAnalysis_{day}_{month}_{year}.xlsx";
     DownloadService.download_directory := None;
     DownloadService.wait_time := 30;
     DownloadService.max_download_wait := 0 |}.

(** The download directory is relative to the working directory. *)
Definition download_config_relative : DownloadService.DownloadConfig :=
  {| DownloadService.table_check_xpath := "//table";
     DownloadService.download_button_xpath := "//download";
     DownloadService.default_filename := "QuickAnalysis.xlsx";
     DownloadService.renamed_filename_pattern := "QuickAnalysis_{day}_{month}_{year}.xlsx";
     DownloadService.download_directory := Some "descargas";
     DownloadService.wait_time := 30;
     DownloadService.max_download_wait := 60 |}.

(** The file is there and released from the start. *)
Definition host_with_ready_file : Host := host_with (fun _ _ => Released).

(** The only file there is, ready from the start, is
    [descargas/QuickAnalysis.xlsx]; renaming any other path raises
    [FileNotFoundError]. *)
Definition host_with_one_file : Host :=
  {| host_home := "/home/user";
     host_disk := fun path _ =>
       if String.eqb path "descargas/QuickAnalysis.xlsx" then Released else Absent;
     host_rename := fun old_name _ =>
       if String.eqb old_name "descargas/QuickAnalysis.xlsx" then None
       else Some FileNotFoundError;
     strftime_d := "03";
     strftime_B := "November";
     strftime_Y := "2026" |}.

(** A Jetson board with geckodriver installed under [/usr/local/bin], on
    which every browser asked for starts. *)
Definition jetson : WebDriverManager.Machine nat :=
  {| WebDriverManager.machine := "aarch64";
     WebDriverManager.executable := fun path => String.eqb path "/usr/local/bin/geckodriver";
     WebDriverManager.start := fun _ => inr 7%nat |}.

(** A desktop on which no session can be created. *)
Definition desktop_without_browser : WebDriverManager.Machine nat :=
  {| WebDriverManager.machine := "x86_64";
     WebDriverManager.executable := fun _ => false;
     WebDriverManager.start := fun _ => inl WebDriverManager.SessionNotCreatedException |}.

End Cases.

(** * Properties *)

(** ** The monad *)

Lemma bind_ok {W E A B} (m : M W E A) (k : A -> M W E B) s a s' :
  m s = Ok a s' -> bind m k s = k a s'.
Proof. unfold bind. intros ->. reflexivity. Qed.

Lemma bind_exn {W E A B} (m : M W E A) (k : A -> M W E B) s e s' :
  m s = Exn e s' -> bind m k s = Exn e s'.
Proof. unfold bind. intros ->. reflexivity. Qed.

Lemma bind_assoc {W E A B C} (m : M W E A) (k : A -> M W E B) (h : B -> M W E C) s :
  bind (bind m k) h s = bind m (fun a => bind (k a) h) s.
Proof. unfold bind. destruct (m s); reflexivity. Qed.

Lemma try_except_ok {W E A} (m : M W E A) h s a s' :
  m s = Ok a s' -> try_except m h s = Ok a s'.
Proof. unfold try_except. intros ->. reflexivity. Qed.

Lemma try_except_exn {W E A} (m : M W E A) h s e s' :
  m s = Exn e s' -> try_except m h s = h e s'.
Proof. unfold try_except. intros ->. reflexivity. Qed.

Lemma for_each_app {W E A} (xs ys : list A) (body : A -> M W E unit) s :
  for_each (xs ++ ys) body s = bind (for_each xs body) (fun _ => for_each ys body) s.
Proof.
  revert s. induction xs as [|x xs IH]; intros s; simpl.
  - reflexivity.
  - unfold bind in *. destruct (body x s) as [[] s'| |]; auto.
Qed.

(** Unfolds the calls on the driver down to the methods of the instance. *)
Ltac calls :=
  unfold until, find_element, find_elements, text, get_attribute, is_selected,
    click, select_by_visible_text, sleep, driver_get, observe, update, log,
    raise, ret, out_of_fuel.

(** ** Calendar navigation, for every browser *)

Section select_date_facts.
Context {W E : Type} `{WebDriver W E}.
Variables (day : Z) (month : string) (year : Z).
Variables (input_datapicker_xpath datepicker_container_class_name
           datepicker_switch_xpath prev_button_xpath : string).

Local Abbreviation year_loop :=
  (DatePickerUtil.year_loop year datepicker_switch_xpath prev_button_xpath).
Local Abbreviation month_then_day :=
  (DatePickerUtil.month_then_day day month datepicker_switch_xpath prev_button_xpath).
Local Abbreviation select_date :=
  (DatePickerUtil.select_date day month year input_datapicker_xpath
     datepicker_container_class_name datepicker_switch_xpath prev_button_xpath).

Lemma year_loop_step fuel current_year current_text :
  year_loop (S fuel) current_year current_text
  = if current_year =? year then ret (current_text, S fuel)
    else if current_year >? year then
      bind (find_element (XPATH, prev_button_xpath)) (fun prev_button =>
      bind (click prev_button) (fun _ =>
      bind (sleep 500) (fun _ =>
      bind (DatePickerUtil.read_switch datepicker_switch_xpath) (fun current_text' =>
        year_loop fuel
          (match DatePickerUtil.year_in current_text' with
           | Some y => y
           | None => current_year
           end) current_text'))))
    else raise NotImplementedError.
Proof. reflexivity. Qed.

Lemma month_loop_step fuel current_text :
  DatePickerUtil.month_loop month datepicker_switch_xpath prev_button_xpath
    (S fuel) current_text
  = if Text.str_in (Text.lower month) current_text then ret tt
    else
      bind (find_element (XPATH, prev_button_xpath)) (fun prev_button =>
      bind (click prev_button) (fun _ =>
      bind (sleep 500) (fun _ =>
      bind (DatePickerUtil.read_switch datepicker_switch_xpath) (fun current_text' =>
        DatePickerUtil.month_loop month datepicker_switch_xpath prev_button_xpath
          fuel current_text')))).
Proof. reflexivity. Qed.

Lemma month_loop_found fuel current_text s :
  Text.str_in (Text.lower month) current_text = true ->
  DatePickerUtil.month_loop month datepicker_switch_xpath prev_button_xpath
    fuel current_text s = Ok tt s.
Proof. intros Hin. destruct fuel; simpl; rewrite Hin; reflexivity. Qed.

Lemma year_loop_same fuel current_text s :
  year_loop fuel year current_text s = Ok (current_text, fuel) s.
Proof. destruct fuel; simpl; rewrite Z.eqb_refl; reflexivity. Qed.

Lemma year_loop_forward fuel current_year current_text s :
  current_year < year ->
  year_loop fuel current_year current_text s = Exn NotImplementedError s.
Proof.
  intros Hlt.
  assert ((current_year =? year) = false) as Hne by (apply Z.eqb_neq; lia).
  assert ((current_year >? year) = false) as Hgt by (rewrite Z.gtb_ltb; apply Z.ltb_ge; lia).
  destruct fuel; simpl; rewrite Hne, Hgt; reflexivity.
Qed.

Lemma select_date_opened fuel s input w1 t :
  DatePickerUtil.opens input_datapicker_xpath datepicker_container_class_name
    datepicker_switch_xpath s input w1 t ->
  select_date fuel s
  = try_except
      (bind (year_loop fuel
               (match DatePickerUtil.year_in (Text.lower t) with
                | Some y => y
                | None => year
                end) (Text.lower t))
            (fun r => month_then_day (snd r) (fst r)))
      (fun e => bind (log ErrorSelectDate) (fun _ => raise e))
      (Session w1 (trace s ++ [Clicked input])).
Proof.
  intros (Hin & Hclick & [container Hcont] & [switch [Hsw Htext]]).
  unfold DatePickerUtil.select_date, DatePickerUtil.read_switch, try_except, bind.
  calls. rewrite Hin, Hclick. simpl. rewrite Hcont. simpl. rewrite Hsw. simpl.
  rewrite Htext. reflexivity.
Qed.

(** C2.  Whenever the year loop finds the year read from the header before
    the target year, it raises [NotImplementedError] at once, for every
    iteration budget, with nothing clicked.  So when the header first read
    shows such a year, the only click of [select_date] is the one that
    opened the widget: the previous-control is not activated, and the error
    is logged and re-raised. *)
Theorem select_date_forward_year_raises fuel s current_year current_text :
  current_year < year ->
  year_loop fuel current_year current_text s = Exn NotImplementedError s
  /\ forall input w1 t,
       DatePickerUtil.opens input_datapicker_xpath datepicker_container_class_name
         datepicker_switch_xpath s input w1 t ->
       DatePickerUtil.year_in (Text.lower t) = Some current_year ->
       select_date fuel s
       = Exn NotImplementedError
           (Session w1 (trace s ++ [Clicked input] ++ [Logged ErrorSelectDate])).
Proof.
  intros Hlt. split; [apply year_loop_forward; exact Hlt|].
  intros input w1 t Hopen Hyear.
  rewrite (select_date_opened _ _ _ _ _ Hopen), Hyear.
  unfold try_except, bind. rewrite year_loop_forward by assumption.
  calls. simpl. rewrite <- app_assoc. reflexivity.
Qed.

(** C9.  When the header holds no four digits in a row, the current year is
    taken to be the target year: the year loop does nothing and raises
    nothing, and [select_date] goes on with month alignment from the header
    as read, with the whole budget. *)
Theorem select_date_without_year fuel s input w1 t :
  DatePickerUtil.opens input_datapicker_xpath datepicker_container_class_name
    datepicker_switch_xpath s input w1 t ->
  Text.re_search_4digits (Text.lower t) = None ->
  year_loop fuel
    (match DatePickerUtil.year_in (Text.lower t) with Some y => y | None => year end)
    (Text.lower t) (Session w1 (trace s ++ [Clicked input]))
  = Ok (Text.lower t, fuel) (Session w1 (trace s ++ [Clicked input]))
  /\ select_date fuel s
     = try_except (month_then_day fuel (Text.lower t))
         (fun e => bind (log ErrorSelectDate) (fun _ => raise e))
         (Session w1 (trace s ++ [Clicked input])).
Proof.
  intros Hopen Hnone.
  assert (DatePickerUtil.year_in (Text.lower t) = None) as Hyear
    by (unfold DatePickerUtil.year_in; rewrite Hnone; reflexivity).
  rewrite (select_date_opened _ _ _ _ _ Hopen), Hyear.
  split; [apply year_loop_same|].
  unfold try_except, bind. rewrite year_loop_same. reflexivity.
Qed.

End select_date_facts.

(** ** Toggling, for every browser *)

Section selection_facts.
Context {W E : Type} `{WebDriver W E}.
Import DataSelectionService.

Lemma select_elements_for_each self (s : session W E) :
  _select_elements self s = for_each (elements self) (select_element self) s.
Proof.
  unfold _select_elements. case_bool_decide as Hnil; [rewrite Hnil|]; reflexivity.
Qed.

Lemma select_parameters_for_each self (s : session W E) :
  _select_parameters self s = for_each (parameters self) (select_parameter self) s.
Proof.
  unfold _select_parameters. case_bool_decide as Hnil; [rewrite Hnil|]; reflexivity.
Qed.

Lemma select_elements_with self names (s : session W E) :
  _select_elements (with_elements self names) s
  = for_each names (select_element self) s.
Proof. rewrite select_elements_for_each. reflexivity. Qed.

Lemma select_parameters_with self names (s : session W E) :
  _select_parameters (with_parameters self names) s
  = for_each names (select_parameter self) s.
Proof. rewrite select_parameters_for_each. reflexivity. Qed.

Lemma select_element_unresolved self by_typology table name (s : session W E) :
  typology_dict self !! typology_key self = Some by_typology ->
  by_typology !! "Elements" = Some table ->
  not_xpath (table !! name) = true ->
  select_element self name s = log (WarnNoXPathElement name) s.
Proof.
  intros Hkey Htable Hnot. unfold select_element, getitem, bind.
  rewrite Hkey. cbn [ret]. rewrite Htable. cbn [ret]. rewrite Hnot. reflexivity.
Qed.

Lemma select_parameter_unresolved self by_typology table name (s : session W E) :
  typology_dict self !! typology_key self = Some by_typology ->
  by_typology !! "Parameters" = Some table ->
  not_xpath (table !! name) = true ->
  select_parameter self name s = log (WarnNoXPathParameter name) s.
Proof.
  intros Hkey Htable Hnot. unfold select_parameter, getitem, bind.
  rewrite Hkey. cbn [ret]. rewrite Htable. cbn [ret]. rewrite Hnot. reflexivity.
Qed.

Lemma for_each_skip {A} (body : A -> M W E unit) pre bad post r (s : session W E) :
  (forall s', body bad s' = log r s') ->
  for_each (pre ++ bad :: post) body s
  = bind (for_each pre body) (fun _ => bind (log r) (fun _ => for_each post body)) s.
Proof.
  intros Hbad. rewrite for_each_app. unfold bind.
  destruct (for_each pre body s) as [[] s'| |]; try reflexivity.
  cbn [for_each]. unfold bind. rewrite Hbad. reflexivity.
Qed.

(** For every driver, a name whose XPath lookup yields nothing ([None] or
    the empty string) costs a warning and nothing else: the loop does with
    the names before it and the names after it what it does without it. *)
Lemma unresolved_name_costs_a_warning self by_typology pre bad post (s : session W E) :
  typology_dict self !! typology_key self = Some by_typology ->
  (forall table,
      by_typology !! "Elements" = Some table ->
      not_xpath (table !! bad) = true ->
      _select_elements (with_elements self (pre ++ bad :: post)) s
      = bind (_select_elements (with_elements self pre)) (fun _ =>
        bind (log (WarnNoXPathElement bad)) (fun _ =>
        _select_elements (with_elements self post))) s)
  /\ (forall table,
      by_typology !! "Parameters" = Some table ->
      not_xpath (table !! bad) = true ->
      _select_parameters (with_parameters self (pre ++ bad :: post)) s
      = bind (_select_parameters (with_parameters self pre)) (fun _ =>
        bind (log (WarnNoXPathParameter bad)) (fun _ =>
        _select_parameters (with_parameters self post))) s).
Proof.
  intros Hkey. split; intros table Htable Hnot.
  - rewrite select_elements_with.
    rewrite (for_each_skip _ pre bad post (WarnNoXPathElement bad)).
    + unfold bind. rewrite select_elements_with.
      destruct (for_each pre _ s) as [[] s'| |]; try reflexivity.
      unfold log. rewrite select_elements_with. reflexivity.
    + intros s'. apply (select_element_unresolved _ by_typology table); assumption.
  - rewrite select_parameters_with.
    rewrite (for_each_skip _ pre bad post (WarnNoXPathParameter bad)).
    + unfold bind. rewrite select_parameters_with.
      destruct (for_each pre _ s) as [[] s'| |]; try reflexivity.
      unfold log. rewrite select_parameters_with. reflexivity.
    + intros s'. apply (select_parameter_unresolved _ by_typology table); assumption.
Qed.

Lemma select_elements_no_typology self (s : session W E) :
  typology_dict self !! typology_key self = None ->
  _select_elements self s
  = match elements self with
    | [] => Ok tt s
    | _ => Exn (KeyError (typology_key self)) s
    end.
Proof.
  intros Hkey. rewrite select_elements_for_each.
  destruct (elements self) as [|name names]; [reflexivity|].
  cbn [for_each]. unfold bind at 1. unfold select_element, getitem, bind.
  rewrite Hkey. reflexivity.
Qed.

Lemma select_parameters_no_typology self (s : session W E) :
  typology_dict self !! typology_key self = None ->
  _select_parameters self s
  = match parameters self with
    | [] => Ok tt s
    | _ => Exn (KeyError (typology_key self)) s
    end.
Proof.
  intros Hkey. rewrite select_parameters_for_each.
  destruct (parameters self) as [|name names]; [reflexivity|].
  cbn [for_each]. unfold bind at 1. unfold select_parameter, getitem, bind.
  rewrite Hkey. reflexivity.
Qed.

(** C10, amended.  With the typology key absent from the dictionary and at
    least one element or parameter name configured, toggling raises
    [KeyError] for the key before anything is clicked, and [select_data]
    logs the error and raises it: the run is aborted.  With no name
    configured, nothing is looked up and toggling returns. *)
Theorem absent_typology_aborts self fuel (s : session W E) :
  typology_dict self !! typology_key self = None ->
  (elements self = [] -> parameters self = [] -> toggling self s = Ok tt s)
  /\ (elements self <> [] \/ parameters self <> [] ->
      toggling self s = Exn (KeyError (typology_key self)) s
      /\ forall s0 : session W E,
           select_data_open self fuel s0 = Ok tt s ->
           select_data self fuel s0
           = Exn (KeyError (typology_key self))
               (Session (world s) (trace s ++ [Logged ErrorSelectData]))).
Proof.
  intros Hkey.
  assert (elements self <> [] \/ parameters self <> [] ->
          toggling self s = Exn (KeyError (typology_key self)) s) as Hraise.
  { intros Hnames. unfold toggling, bind.
    rewrite select_elements_no_typology by assumption.
    destruct (elements self) as [|e es]; [|reflexivity].
    rewrite select_parameters_no_typology by assumption.
    destruct (parameters self) as [|q qs]; [|reflexivity].
    destruct Hnames; congruence. }
  split.
  - intros He Hp. unfold toggling, bind.
    rewrite select_elements_no_typology, He by assumption.
    rewrite select_parameters_no_typology, Hp by assumption. reflexivity.
  - intros Hnames. split; [auto|]. intros s0 Hopen.
    unfold select_data. unfold try_except, bind at 1. rewrite Hopen.
    unfold bind at 1. rewrite (Hraise Hnames). reflexivity.
Qed.

(** C5, amended.  On a control that reports itself selected,
    [checked_click] clicks nothing and changes nothing.  Hence on a control
    that reports itself selected once it has been clicked, two calls in a
    row click once and leave what one call leaves.  A control that goes on
    reporting itself unselected is clicked by each call. *)
Theorem checked_click_twice (element : E) (s : session W E) :
  (drv_is_selected element (world s) = inr true -> checked_click element s = Ok tt s)
  /\ (forall w1,
        drv_is_selected element (world s) = inr false ->
        drv_click element (world s) = inr w1 ->
        drv_is_selected element w1 = inr true ->
        bind (checked_click element) (fun _ => checked_click element) s
        = Ok tt (Session w1 (trace s ++ [Clicked element]))
        /\ checked_click element s = Ok tt (Session w1 (trace s ++ [Clicked element])))
  /\ (forall w1 w2,
        drv_is_selected element (world s) = inr false ->
        drv_click element (world s) = inr w1 ->
        drv_is_selected element w1 = inr false ->
        drv_click element w1 = inr w2 ->
        bind (checked_click element) (fun _ => checked_click element) s
        = Ok tt (Session w2 (trace s ++ [Clicked element] ++ [Clicked element]))).
Proof.
  assert (forall s' : session W E,
             drv_is_selected element (world s') = inr true ->
             checked_click element s' = Ok tt s') as Hselected.
  { intros s' Hsel. unfold checked_click, try_except, bind. calls.
    rewrite Hsel. reflexivity. }
  assert (forall (s' : session W E) w,
             drv_is_selected element (world s') = inr false ->
             drv_click element (world s') = inr w ->
             checked_click element s' = Ok tt (Session w (trace s' ++ [Clicked element])))
    as Hclick.
  { intros s' w Hsel Hw. unfold checked_click, try_except, bind. calls.
    rewrite Hsel, Hw. reflexivity. }
  split; [apply Hselected|]. split.
  - intros w1 Hsel Hw1 Hsel1. split; [|apply Hclick; assumption].
    unfold bind. rewrite (Hclick s w1) by assumption. apply Hselected. exact Hsel1.
  - intros w1 w2 Hsel Hw1 Hsel1 Hw2.
    unfold bind. rewrite (Hclick s w1) by assumption.
    rewrite (Hclick _ w2) by assumption. cbn [trace].
    rewrite <- app_assoc. reflexivity.
Qed.

End selection_facts.

(** ** Texts *)

Section text_facts.
Import Text.

Example lower_ex : lower "Febrero 2025" = "febrero 2025".
Proof. reflexivity. Qed.
Example strip_ex : strip "  a b  " = "a b" /\ strip "   " = "".
Proof. split; reflexivity. Qed.
Example re_ex : re_search_4digits "marzo 12025x" = Some "1202"
  /\ re_search_4digits "marzo 202" = None
  /\ int_of_digits "2025" = 2025
  /\ str_of_int 15 = "15" /\ str_of_int (-3) = "-3" /\ str_of_int 0 = "0".
Proof. repeat split; reflexivity. Qed.
Example in_ex : str_in "marzo" "12 marzo 2025" = true /\ str_in "" "" = true
  /\ str_in "mayo" "marzo" = false.
Proof. repeat split; reflexivity. Qed.


Lemma lower_app s1 s2 : lower (s1 +:+ s2) = lower s1 +:+ lower s2.
Proof. induction s1 as [|c s1 IH]; simpl; [reflexivity | rewrite IH; reflexivity]. Qed.

Lemma lower_cons c s : lower (String c s) = String (lower_char c) (lower s).
Proof. reflexivity. Qed.

Lemma lower_digit c : is_digit c = true -> lower_char c = c.
Proof. destruct c as [[] [] [] [] [] [] [] []]; vm_compute; congruence. Qed.

Lemma digit_not_word c : is_digit c = true -> is_word_char c = false.
Proof. unfold is_word_char. intros ->. reflexivity. Qed.

Lemma re_search_skip a s :
  is_digit a = false -> re_search_4digits (String a s) = re_search_4digits s.
Proof.
  intros Ha. destruct s as [|b [|c [|d s]]]; simpl; rewrite ?Ha; reflexivity.
Qed.

Lemma re_search_skip_all s1 s2 :
  all_chars (fun c => negb (is_digit c)) s1 = true ->
  re_search_4digits (s1 +:+ s2) = re_search_4digits s2.
Proof.
  induction s1 as [|a s1 IH]; intros Hall; [reflexivity|].
  simpl in Hall. apply andb_true_iff in Hall as [Ha Hall].
  change (String a s1 +:+ s2) with (String a (s1 +:+ s2)).
  rewrite re_search_skip by (apply negb_true_iff; exact Ha). auto.
Qed.

Lemma prefix_cons c sub d s :
  String.prefix (String c sub) (String d s)
  = if Ascii.eqb c d then String.prefix sub s else false.
Proof.
  simpl. destruct (ascii_dec c d) as [->|Hne].
  - rewrite Ascii.eqb_refl. reflexivity.
  - apply Ascii.eqb_neq in Hne. rewrite Hne. reflexivity.
Qed.

(** A word is not found across the border to a text without word
    characters. *)
Lemma prefix_word sub s1 s2 :
  all_chars is_word_char sub = true ->
  all_chars (fun c => negb (is_word_char c)) s2 = true ->
  sub <> EmptyString ->
  String.prefix sub (s1 +:+ s2) = String.prefix sub s1.
Proof.
  revert sub. induction s1 as [|d s1 IH]; intros sub Hsub Hs2 Hne.
  - destruct sub as [|c sub]; [congruence|]. simpl in Hsub.
    apply andb_true_iff in Hsub as [Hc _].
    change (EmptyString +:+ s2) with s2.
    destruct s2 as [|d s2]; [reflexivity|]. simpl in Hs2.
    apply andb_true_iff in Hs2 as [Hd _]. apply negb_true_iff in Hd.
    rewrite prefix_cons. destruct (Ascii.eqb_spec c d) as [->|]; [congruence|].
    reflexivity.
  - destruct sub as [|c sub]; [congruence|].
    change (String d s1 +:+ s2) with (String d (s1 +:+ s2)).
    rewrite !prefix_cons. destruct (Ascii.eqb c d); [|reflexivity].
    destruct sub as [|c' sub']; [destruct (s1 +:+ s2), s1; reflexivity|].
    simpl in Hsub. apply andb_true_iff in Hsub as [_ Hsub].
    apply IH; [exact Hsub | exact Hs2 | congruence].
Qed.

Lemma str_in_word sub s1 s2 :
  all_chars is_word_char sub = true ->
  all_chars (fun c => negb (is_word_char c)) s2 = true ->
  sub <> EmptyString ->
  str_in sub (s1 +:+ s2) = str_in sub s1.
Proof.
  intros Hsub Hs2 Hne. induction s1 as [|d s1 IH].
  - change (EmptyString +:+ s2) with s2.
    transitivity false.
    + induction s2 as [|d s2 IH2].
      * destruct sub; [congruence | reflexivity].
      * pose proof (prefix_word sub EmptyString (String d s2) Hsub Hs2 Hne) as Hp.
        change (EmptyString +:+ String d s2) with (String d s2) in Hp.
        simpl in Hs2. apply andb_true_iff in Hs2 as [_ Hs2].
        change (str_in sub (String d s2))
          with (String.prefix sub (String d s2) || str_in sub s2).
        rewrite Hp, (IH2 Hs2). destruct sub; [congruence | reflexivity].
    + destruct sub; [congruence | reflexivity].
  - change (String d s1 +:+ s2) with (String d (s1 +:+ s2)).
    change (str_in sub (String d (s1 +:+ s2)))
      with (String.prefix sub (String d (s1 +:+ s2)) || str_in sub (s1 +:+ s2)).
    change (str_in sub (String d s1))
      with (String.prefix sub (String d s1) || str_in sub s1).
    rewrite IH.
    pose proof (prefix_word sub (String d s1) s2 Hsub Hs2 Hne) as Hp.
    change (String d s1 +:+ s2) with (String d (s1 +:+ s2)) in Hp.
    rewrite Hp. reflexivity.
Qed.

(** The years of four digits, by enumeration. *)
Lemma four_digit_years :
  forallb four_digit_year
    (map (fun n => 1000 + Z.of_nat n) (seq 0 (Z.to_nat 9000))) = true.
Proof. vm_compute. reflexivity. Qed.

Lemma four_digit_year_spec y :
  1000 <= y <= 9999 ->
  exists a b c d,
    str_of_int y = String a (String b (String c (String d EmptyString)))
    /\ is_digit a = true /\ is_digit b = true /\ is_digit c = true
    /\ is_digit d = true
    /\ int_of_digits (String a (String b (String c (String d EmptyString)))) = y.
Proof.
  intros Hy.
  assert (four_digit_year y = true) as Hok.
  { pose proof four_digit_years as Hall. rewrite forallb_forall in Hall.
    apply Hall. apply in_map_iff. exists (Z.to_nat (y - 1000)). split; [lia|].
    apply in_seq. lia. }
  unfold four_digit_year in Hok.
  destruct (str_of_int y) as [|a [|b [|c [|d [|? ?]]]]] eqn:Hs; try discriminate.
  destruct (andb_prop _ _ Hok) as [Habcd Hint].
  destruct (andb_prop _ _ Habcd) as [Habc Hd].
  destruct (andb_prop _ _ Habc) as [Hab Hc].
  destruct (andb_prop _ _ Hab) as [Ha Hb].
  exists a, b, c, d. apply Z.eqb_eq in Hint. auto 10.
Qed.

End text_facts.

(** ** The date picker *)

Section datepicker_facts.
Import Text Datepicker.

(** Case analysis on a month number below twelve. *)
Ltac months_rec n m H :=
  lazymatch n with
  | O => exfalso; clear - H; lia
  | S ?k => destruct m as [|m]; [ | months_rec k m H ]
  end.
Tactic Notation "months" ident(m) ident(H) := months_rec 12%nat m H.

Lemma month_name_word m :
  (m < 12)%nat ->
  all_chars is_word_char (lower (month_name m)) = true
  /\ all_chars (fun c => negb (is_digit c)) (lower (month_name m)) = true
  /\ lower (month_name m) <> EmptyString.
Proof. intros Hm. months m Hm; (split; [|split]); solve [reflexivity | discriminate]. Qed.

Lemma month_names_apart i m :
  (i < 12)%nat -> (m < 12)%nat ->
  str_in (lower (month_name i)) (lower (month_name m)) = Nat.eqb i m.
Proof. intros Hi Hm. months i Hi; months m Hm; vm_compute; reflexivity. Qed.

Lemma header_lower y m :
  1000 <= y <= 9999 ->
  exists a b c d,
    lower (header y m)
    = lower (month_name m) +:+ String " " (String a (String b (String c (String d EmptyString))))
    /\ is_digit a = true /\ is_digit b = true /\ is_digit c = true
    /\ is_digit d = true
    /\ int_of_digits (String a (String b (String c (String d EmptyString)))) = y.
Proof.
  intros Hy. destruct (four_digit_year_spec y Hy) as (a & b & c & d & Hs & Ha & Hb & Hc & Hd & Hint).
  exists a, b, c, d. unfold header. rewrite Hs, lower_app.
  change (" " +:+ String a (String b (String c (String d EmptyString))))
    with (String " " (String a (String b (String c (String d EmptyString))))).
  rewrite !lower_cons, !(lower_digit _ Ha), !(lower_digit _ Hb),
    !(lower_digit _ Hc), !(lower_digit _ Hd).
  auto 10.
Qed.

Lemma header_year y m :
  1000 <= y <= 9999 -> (m < 12)%nat ->
  DatePickerUtil.year_in (lower (header y m)) = Some y.
Proof.
  intros Hy Hm.
  destruct (header_lower y m Hy) as (a & b & c & d & -> & Ha & Hb & Hc & Hd & Hint).
  destruct (month_name_word m Hm) as (_ & Hnd & _).
  unfold DatePickerUtil.year_in. rewrite re_search_skip_all by exact Hnd.
  rewrite re_search_skip by reflexivity. simpl. rewrite Ha, Hb, Hc, Hd. simpl.
  f_equal. exact Hint.
Qed.

Lemma header_month y m i :
  1000 <= y <= 9999 -> (m < 12)%nat -> (i < 12)%nat ->
  str_in (lower (month_name i)) (lower (header y m)) = Nat.eqb i m.
Proof.
  intros Hy Hm Hi.
  destruct (header_lower y m Hy) as (a & b & c & d & -> & Ha & Hb & Hc & Hd & Hint).
  destruct (month_name_word i Hi) as (Hw & _ & Hne).
  rewrite str_in_word; [apply month_names_apart; assumption | exact Hw | | exact Hne].
  simpl. rewrite !digit_not_word by assumption. reflexivity.
Qed.

Lemma locate_input c : locate (XPATH, DatePickerUtil.input_datapicker_xpath_default) c = Some Input.
Proof. reflexivity. Qed.

Lemma locate_container c :
  opened c = true ->
  locate (CLASS_NAME, DatePickerUtil.datepicker_container_class_name_default) c
  = Some Container.
Proof. unfold locate. intros ->. reflexivity. Qed.

Lemma locate_switch c :
  opened c = true ->
  locate (XPATH, DatePickerUtil.datepicker_switch_xpath_default) c = Some Switch.
Proof. unfold locate. intros ->. reflexivity. Qed.

Lemma locate_prev c :
  opened c = true ->
  locate (XPATH, DatePickerUtil.prev_button_xpath_default) c = Some Prev.
Proof. unfold locate. intros ->. reflexivity. Qed.

Lemma day_locators : forallb day_locator_ok (map Z.of_nat (seq 1 31)) = true.
Proof. vm_compute. reflexivity. Qed.

Lemma days_in_month_le y m : days_in_month y m <= 31.
Proof.
  unfold days_in_month.
  destruct m as [|[|[|[|[|[|[|[|[|[|[|?]]]]]]]]]]]; try destruct (leap y); lia.
Qed.

Lemma locate_day c d :
  opened c = true -> plain_day c d = true ->
  locate (XPATH, DatePickerUtil.day_xpath d) c = Some (DayCell d).
Proof.
  intros Ho Hp.
  assert (day_locator_ok d = true) as Hok.
  { pose proof day_locators as Hall. rewrite forallb_forall in Hall. apply Hall.
    unfold plain_day in Hp. apply andb_true_iff in Hp as [Hp _].
    apply andb_true_iff in Hp as [H1 H2].
    apply Z.leb_le in H1. apply Z.leb_le in H2.
    pose proof (days_in_month_le (shown_year c) (shown_month c)).
    apply in_map_iff. exists (Z.to_nat d). split; [lia|]. apply in_seq. lia. }
  unfold day_locator_ok in Hok.
  destruct (andb_prop _ _ Hok) as [H123 Hday].
  destruct (andb_prop _ _ H123) as [H12 H3].
  destruct (andb_prop _ _ H12) as [H1 H2].
  apply negb_true_iff in H1, H2, H3.
  unfold locate. rewrite H1, Ho, H2, H3. simpl negb. cbv iota.
  destruct (day_of_xpath (DatePickerUtil.day_xpath d)) as [d'|]; [|discriminate].
  apply Z.eqb_eq in Hday. subst d'. rewrite Hp. reflexivity.
Qed.

Lemma go_back_opened c : opened (go_back c) = opened c.
Proof. unfold go_back. destruct (shown_month c); reflexivity. Qed.

Lemma go_back_decorated c : decorated (go_back c) = decorated c.
Proof. unfold go_back. destruct (shown_month c); reflexivity. Qed.

Lemma go_back_picked c : picked (go_back c) = picked c.
Proof. unfold go_back. destruct (shown_month c); reflexivity. Qed.

Local Abbreviation switch_xpath := DatePickerUtil.datepicker_switch_xpath_default.
Local Abbreviation prev_xpath := DatePickerUtil.prev_button_xpath_default.

Lemma read_switch_open c tr :
  opened c = true ->
  DatePickerUtil.read_switch switch_xpath (Session c tr)
  = Ok (lower (header (shown_year c) (shown_month c))) (Session c tr).
Proof.
  intros Ho. unfold DatePickerUtil.read_switch, bind. calls.
  cbn [world drv_until driver]. rewrite (locate_switch _ Ho). reflexivity.
Qed.

(** One activation of the previous-control and the header read after it. *)
Lemma prev_step {A} c tr (k : string -> M calendar handle A) :
  opened c = true ->
  bind (find_element (XPATH, prev_xpath)) (fun prev_button =>
  bind (click prev_button) (fun _ =>
  bind (sleep 500) (fun _ =>
  bind (DatePickerUtil.read_switch switch_xpath) k))) (Session c tr)
  = k (lower (header (shown_year (go_back c)) (shown_month (go_back c))))
      (Session (go_back c) (tr ++ [Clicked Prev])).
Proof.
  intros Ho. unfold bind at 1. unfold find_element.
  cbn [world drv_find_element driver]. rewrite (locate_prev _ Ho).
  unfold bind at 1. unfold click. cbn [world drv_click driver press]. rewrite Ho.
  unfold bind at 1. unfold sleep. cbn [world trace drv_sleep driver].
  unfold bind at 1. rewrite read_switch_open by (rewrite go_back_opened; exact Ho).
  reflexivity.
Qed.

Lemma repeat_snoc {A} (x : A) (l : list A) k :
  (l ++ [x]) ++ repeat x k = l ++ repeat x (S k).
Proof. rewrite <- app_assoc. reflexivity. Qed.

(** Year alignment: from a later year the loop goes back to December of
    the target year, one month per activation. *)
Lemma year_loop_back year k :
  forall fuel y m dec pk tr current_text,
    (m < 12)%nat -> 1000 <= year -> year < y <= 9999 ->
    Z.of_nat k = 12 * (y - year - 1) + Z.of_nat m + 1 ->
    (k <= fuel)%nat ->
    DatePickerUtil.year_loop year switch_xpath prev_xpath fuel y current_text
      (Session (Calendar y m true dec pk) tr)
    = Ok (lower (header year 11), (fuel - k)%nat)
        (Session (Calendar year 11 true dec pk) (tr ++ repeat (Clicked Prev) k)).
Proof.
  induction k as [|k IH]; intros fuel y m dec pk tr current_text Hm Hyear Hy Hk Hfuel;
    [lia|].
  destruct fuel as [|fuel]; [lia|].
  rewrite year_loop_step.
  replace (y =? year) with false by (symmetry; apply Z.eqb_neq; lia).
  replace (y >? year) with true by (symmetry; rewrite Z.gtb_ltb; apply Z.ltb_lt; lia).
  rewrite prev_step by reflexivity.
  destruct m as [|m]; cbn [go_back shown_month shown_year opened decorated picked].
  - rewrite header_year by lia.
    destruct (Z.eq_dec (y - 1) year) as [Heq|Hne].
    + rewrite Heq, year_loop_same.
      assert (k = 0%nat) as -> by lia.
      replace (S fuel - 1)%nat with fuel by lia. reflexivity.
    + rewrite (IH fuel (y - 1) 11%nat dec pk) by lia.
      rewrite repeat_snoc. reflexivity.
  - rewrite header_year by lia.
    rewrite (IH fuel y m dec pk) by lia.
    rewrite repeat_snoc. reflexivity.
Qed.

(** Month alignment: within the target year the loop goes back to the
    target month. *)
Lemma month_loop_back month year mi k :
  forall fuel m dec pk tr,
    (mi < 12)%nat -> lower month = lower (month_name mi) ->
    1000 <= year <= 9999 -> (m < 12)%nat ->
    (m = mi + k)%nat -> (k <= fuel)%nat ->
    DatePickerUtil.month_loop month switch_xpath prev_xpath fuel
      (lower (header year m)) (Session (Calendar year m true dec pk) tr)
    = Ok tt (Session (Calendar year mi true dec pk) (tr ++ repeat (Clicked Prev) k)).
Proof.
  induction k as [|k IH]; intros fuel m dec pk tr Hmi Hmonth Hyear Hm Hk Hfuel.
  - rewrite month_loop_found.
    + simpl. rewrite app_nil_r. replace m with mi by lia. reflexivity.
    + rewrite Hmonth, header_month by assumption. apply Nat.eqb_eq. lia.
  - destruct fuel as [|fuel]; [lia|].
    rewrite month_loop_step.
    rewrite Hmonth, header_month by assumption.
    replace (Nat.eqb mi m) with false by (symmetry; apply Nat.eqb_neq; lia).
    rewrite prev_step by reflexivity.
    destruct m as [|m]; [lia|].
    cbn [go_back shown_month shown_year opened decorated picked].
    rewrite (IH fuel m dec pk) by (assumption || lia).
    rewrite repeat_snoc. reflexivity.
Qed.

Lemma month_then_day_back day month year mi k fuel m dec pk tr :
  (mi < 12)%nat -> lower month = lower (month_name mi) ->
  1000 <= year <= 9999 -> (m < 12)%nat ->
  (m = mi + k)%nat -> (k <= fuel)%nat ->
  plain_day (Calendar year mi true dec pk) day = true ->
  DatePickerUtil.month_then_day day month switch_xpath prev_xpath fuel
    (lower (header year m)) (Session (Calendar year m true dec pk) tr)
  = Ok tt (Session (Calendar year mi false dec (Some (year, mi, day)))
             (tr ++ repeat (Clicked Prev) k ++ [Clicked (DayCell day)])).
Proof.
  intros Hmi Hmonth Hyear Hm Hk Hfuel Hday.
  unfold DatePickerUtil.month_then_day.
  rewrite (bind_ok _ _ _ _ _ (month_loop_back month year mi k fuel m dec pk tr
                                Hmi Hmonth Hyear Hm Hk Hfuel)).
  unfold bind, until, click. cbn [world trace drv_until drv_click driver].
  rewrite locate_day by (reflexivity || exact Hday).
  cbn [press world trace opened shown_year shown_month decorated picked].
  rewrite Hday.
  cbn [andb]. rewrite <- app_assoc. reflexivity.
Qed.

(** The day is committed when the month reached has a cell of class [day]
    alone for it. *)
Lemma select_date_backward_commits c day month year mi fuel tr :
  (mi < 12)%nat -> lower month = lower (month_name mi) ->
  (shown_month c < 12)%nat -> 1000 <= year -> shown_year c <= 9999 ->
  reachable_backward c year mi ->
  plain_day (Calendar year mi true (decorated c) (picked c)) day = true ->
  (months_back c year mi <= fuel)%nat ->
  Datepicker.select_date day month year fuel (Session c tr)
  = Ok tt (Session (Calendar year mi false (decorated c) (Some (year, mi, day)))
             (tr ++ [Clicked Input]
                 ++ repeat (Clicked Prev) (months_back c year mi)
                 ++ [Clicked (DayCell day)])).
Proof.
  intros Hmi Hmonth Hm Hyear Hy Hreach Hday Hfuel.
  destruct c as [y m o dec pk]. unfold reachable_backward, months_back in *.
  cbn [shown_year shown_month decorated picked] in *.
  unfold Datepicker.select_date.
  rewrite (select_date_opened _ _ _ _ _ _ _ _ _ Input (Calendar y m true dec pk)
             (header y m)).
  2:{ repeat split; try reflexivity; eexists; try split; reflexivity. }
  cbn [world trace]. rewrite header_year by lia.
  apply try_except_ok.
  destruct Hreach as [Hlt | [-> Hle]].
  - set (k1 := Z.to_nat (12 * (y - year - 1) + Z.of_nat m + 1)).
    rewrite (bind_ok _ _ _ _ _
               (year_loop_back year k1 fuel y m dec pk (tr ++ [Clicked Input])
                  (lower (header y m)) Hm Hyear ltac:(lia) ltac:(lia) ltac:(lia))).
    cbn [fst snd].
    rewrite (month_then_day_back day month year mi (11 - mi) (fuel - k1) 11 dec pk)
      by (assumption || lia).
    rewrite <- !app_assoc, (app_assoc (repeat _ k1)), <- repeat_app.
    replace (k1 + (11 - mi))%nat
      with (Z.to_nat (12 * (y - year) + Z.of_nat m - Z.of_nat mi))
      by (subst k1; lia).
    reflexivity.
  - rewrite (bind_ok _ _ _ _ _ (year_loop_same _ _ _ _ _ _)).
    cbn [fst snd].
    rewrite (month_then_day_back day month y mi (m - mi) fuel m dec pk)
      by (assumption || lia).
    rewrite <- !app_assoc.
    replace (Z.to_nat (12 * (y - y) + Z.of_nat m - Z.of_nat mi)) with (m - mi)%nat
      by lia.
    reflexivity.
Qed.

End datepicker_facts.

(** ** Pages of elements *)

Section dom_facts.
Import Text Dom DataSelectionService.

Lemma cell_texts cells (s : session browser handle) :
  comprehension (fun cell => bind (text cell) (fun t => ret (strip t)))
    (map Cell cells) s
  = Ok (map strip cells) s.
Proof.
  induction cells as [|c cells IH]; [reflexivity|].
  cbn [map comprehension].
  rewrite (bind_ok _ _ s (strip c) s) by reflexivity.
  rewrite (bind_ok _ _ _ _ _ IH). reflexivity.
Qed.

Lemma read_rows_cells rows data (s : session browser handle) :
  read_rows (map Row rows) data s = Ok (data ++ map (map strip) rows) s.
Proof.
  revert data. induction rows as [|r rows IH]; intros data.
  - cbn. rewrite app_nil_r. reflexivity.
  - cbn [map read_rows].
    rewrite (bind_ok _ _ s (map Cell r) s) by reflexivity.
    rewrite (bind_ok _ _ _ _ _ (cell_texts r s)).
    rewrite IH, <- app_assoc. reflexivity.
Qed.

Lemma header_texts_cells ths (s : session browser handle) :
  header_texts (map HeaderCell ths) s = Ok (stripped_nonempty ths) s.
Proof.
  unfold stripped_nonempty. induction ths as [|t ths IH]; [reflexivity|].
  cbn [map header_texts List.filter].
  rewrite (bind_ok _ _ s t s) by reflexivity.
  destruct (truthy (strip t)); [|exact IH].
  rewrite (bind_ok _ _ s t s) by reflexivity.
  rewrite (bind_ok _ _ _ _ _ IH). reflexivity.
Qed.

(** Reading the rows of the page shown. *)
Lemma read_page {A : Type} (tx : string) (p : page) (rest : browser)
    (tr : list (event handle)) (data : list (list string)) (e : element)
    (k : list (list string) -> M browser handle A) :
  p !! (XPATH, tx) = Some e ->
  bind (until presence_of_element_located (XPATH, tx)) (fun table_element =>
  bind (find_elements table_element ".//tbody/tr") (fun rows =>
  bind (read_rows rows data) k)) (Session (p :: rest) tr)
  = k (data ++ rows_at tx p) (Session (p :: rest) tr).
Proof.
  intros He.
  rewrite (bind_ok _ _ _ (Located (XPATH, tx)) (Session (p :: rest) tr)).
  2:{ unfold until. cbn [world drv_until driver lookup_element]. rewrite He. reflexivity. }
  rewrite (bind_ok _ _ _ (map Row (el_rows e)) (Session (p :: rest) tr)).
  2:{ unfold find_elements, observe.
      cbn [world drv_find_elements driver]. unfold of_element, lookup_element.
      rewrite He. reflexivity. }
  rewrite (bind_ok _ _ _ _ _ (read_rows_cells _ _ _)).
  unfold rows_at. rewrite He. reflexivity.
Qed.

(** Runs the calls on elements of the page shown, rewriting with the
    lookup [Hp]. *)
Ltac dom_run Hp :=
  repeat (progress
            (cbn [world trace drv_find_element drv_until drv_get_attribute
                  drv_is_selected drv_click drv_sleep drv_text drv_find_elements
                  driver press holds String.eqb Ascii.eqb Bool.eqb];
             unfold of_element, lookup_element; rewrite ?Hp)).

Lemma next_page_absent (nx : string) (p : page) (rest : browser)
    (tr : list (event handle)) :
  p !! (XPATH, nx) = None ->
  next_page nx (Session (p :: rest) tr) = Ok false (Session (p :: rest) tr).
Proof.
  intros Hp. unfold next_page, try_except, bind, find_element.
  cbn [world drv_find_element driver]. unfold lookup_element. rewrite Hp. reflexivity.
Qed.

(** What the [try] block does with a next-page control that is there. *)
Lemma next_page_present (nx : string) (p : page) (rest : browser)
    (tr : list (event handle)) (e : element) :
  p !! (XPATH, nx) = Some e ->
  next_page nx (Session (p :: rest) tr)
  = if str_in "disabled" (el_class e) then Ok false (Session (p :: rest) tr)
    else if el_selected e then Ok true (Session (p :: rest) tr)
    else
      match el_click e with
      | NotInteractable =>
          Ok false (Session (p :: rest) (tr ++ [Logged ErrorCheckedClick]))
      | NoEffect =>
          Ok true (Session (p :: rest) (tr ++ [Clicked (Located (XPATH, nx))]))
      | Toggle =>
          Ok true (Session (<[(XPATH, nx) := toggled e]> p :: rest)
                     (tr ++ [Clicked (Located (XPATH, nx))]))
      | NextPage =>
          Ok true (Session (match rest with [] => p :: rest | _ => rest end)
                     (tr ++ [Clicked (Located (XPATH, nx))]))
      end.
Proof.
  intros Hp. unfold next_page, try_except, bind, find_element, get_attribute,
    checked_click, try_except, bind, is_selected, click, sleep, observe, log, raise, ret.
  dom_run Hp.
  destruct (str_in "disabled" (el_class e)); [reflexivity|].
  dom_run Hp.
  destruct (el_selected e); [reflexivity|].
  dom_run Hp.
  destruct (el_click e); try reflexivity.
  destruct rest; reflexivity.
Qed.

(** The page loop over pages linked by their next-page controls: it reads
    every page up to the first whose control stops it. *)
Lemma page_loop_pages (nx tx : string) (ps : list page) :
  forall (last : page) (rest : browser) (fuel : nat) (data : list (list string))
         (tr : list (event handle)),
    Forall (has_table tx) (ps ++ [last]) ->
    Forall (fun p => advances nx p = true) ps ->
    unselected nx last ->
    absent nx last \/ unclickable nx last \/ disabled nx last ->
    (length ps < fuel)%nat ->
    exists tr',
      page_loop fuel nx tx data (Session (ps ++ last :: rest) tr)
      = Ok (data ++ concat (map (rows_at tx) (ps ++ [last])))
          (Session (last :: rest) tr').
Proof.
  induction ps as [|p ps IH]; intros last rest fuel data tr Htab Hadv Hunsel Hstop Hfuel;
    (destruct fuel as [|fuel]; [cbn in Hfuel; lia|]).
  - apply Forall_cons in Htab as [[e He] _].
    cbn [app page_loop]. rewrite (read_page tx last rest tr data e) by exact He.
    cbn [map concat]. rewrite app_nil_r.
    destruct (last !! (XPATH, nx)) as [c|] eqn:Hc.
    + unfold bind. rewrite (next_page_present nx last rest _ c) by exact Hc.
      destruct (str_in "disabled" (el_class c)) eqn:Hdis; [eauto|].
      rewrite (Hunsel c Hc).
      destruct Hstop as [Habs | [(c' & Hc' & Hun) | (c' & Hc' & Hd)]].
      * unfold absent in Habs. congruence.
      * assert (c' = c) as -> by congruence. rewrite Hun. eauto.
      * assert (c' = c) as -> by congruence. congruence.
    + unfold bind. rewrite next_page_absent by exact Hc. eauto.
  - cbn [app] in Htab. apply Forall_cons in Htab as [[e He] Htab].
    apply Forall_cons in Hadv as [Hp Hadv].
    cbn [app page_loop]. rewrite (read_page tx p _ tr data e) by exact He.
    unfold advances in Hp. destruct (p !! (XPATH, nx)) as [c|] eqn:Hc; [|discriminate].
    destruct (andb_prop _ _ Hp) as [Hds Hclick].
    destruct (andb_prop _ _ Hds) as [Hdis Hsel].
    apply negb_true_iff in Hdis, Hsel.
    unfold bind. rewrite (next_page_present nx p _ _ c) by exact Hc.
    rewrite Hdis, Hsel. destruct (el_click c); try discriminate.
    destruct (ps ++ last :: rest) as [|q qs] eqn:Hq; [destruct ps; discriminate|].
    rewrite <- Hq.
    destruct (IH last rest fuel (data ++ rows_at tx p)
                (tr ++ [Clicked (Located (XPATH, nx))]) Htab Hadv Hunsel Hstop)
      as [tr' Hrun]; [cbn in Hfuel; lia|].
    exists tr'. rewrite Hrun. cbn [map concat]. rewrite <- app_assoc. reflexivity.
Qed.

Lemma table_contents_headers (fuel : nat) (nx tx : string) (p : page)
    (rest : browser) (tr : list (event handle)) (e : element) :
  p !! (XPATH, tx) = Some e ->
  table_contents fuel nx tx (Session (p :: rest) tr)
  = bind (page_loop fuel nx tx []) (fun data => ret (headers_at tx p, data))
      (Session (p :: rest) tr).
Proof.
  intros He. unfold table_contents.
  rewrite (bind_ok _ _ _ (Located (XPATH, tx)) (Session (p :: rest) tr)).
  2:{ unfold until. dom_run He. reflexivity. }
  rewrite (bind_ok _ _ _ (map HeaderCell (el_th e)) (Session (p :: rest) tr)).
  2:{ unfold find_elements, observe. dom_run He. reflexivity. }
  rewrite (bind_ok _ _ _ _ _ (header_texts_cells _ _)).
  unfold headers_at. rewrite He. reflexivity.
Qed.

Lemma next_page_returns (nx : string) (p : page) (rest : browser)
    (tr : list (event handle)) :
  exists b s', next_page nx (Session (p :: rest) tr) = Ok b s'.
Proof.
  destruct (p !! (XPATH, nx)) as [c|] eqn:Hc.
  - rewrite (next_page_present nx p rest tr c Hc).
    destruct (str_in "disabled" (el_class c)); [eauto|].
    destruct (el_selected c); [eauto|]. destruct (el_click c); eauto.
  - rewrite (next_page_absent nx p rest tr Hc). eauto.
Qed.

Lemma next_page_stops (nx : string) (p : page) (rest : browser)
    (tr : list (event handle)) :
  unselected nx p ->
  (exists s', next_page nx (Session (p :: rest) tr) = Ok false s')
  <-> absent nx p \/ unclickable nx p \/ disabled nx p.
Proof.
  intros Hunsel. unfold absent, unclickable, disabled.
  destruct (p !! (XPATH, nx)) as [c|] eqn:Hc.
  - rewrite (next_page_present nx p rest tr c Hc), (Hunsel c Hc).
    destruct (str_in "disabled" (el_class c)) eqn:Hdis.
    + split; [intros _; right; right; eauto | eauto].
    + destruct (el_click c) eqn:Hclick.
      * split; [intros _; right; left; eauto | eauto].
      * split; [intros [s' Hs']; discriminate|].
        intros [?|[(c' & Hc' & ?)|(c' & Hc' & ?)]]; congruence.
      * split; [intros [s' Hs']; discriminate|].
        intros [?|[(c' & Hc' & ?)|(c' & Hc' & ?)]]; congruence.
      * split; [intros [s' Hs']; discriminate|].
        intros [?|[(c' & Hc' & ?)|(c' & Hc' & ?)]]; congruence.
  - rewrite (next_page_absent nx p rest tr Hc). split; eauto.
Qed.

Lemma single_page_contents (nx tx : string) (p : page) (rest : browser)
    (fuel : nat) (tr : list (event handle)) :
  has_table tx p -> absent nx p -> (0 < fuel)%nat ->
  table_contents fuel nx tx (Session (p :: rest) tr)
  = Ok (headers_at tx p, rows_at tx p) (Session (p :: rest) tr).
Proof.
  intros [e He] Habs Hfuel.
  rewrite (table_contents_headers fuel nx tx p rest tr e He).
  destruct fuel as [|fuel]; [lia|]. unfold bind at 1. cbn [page_loop].
  rewrite (read_page tx p rest tr [] e) by exact He. unfold bind.
  rewrite (next_page_absent nx p rest tr Habs). reflexivity.
Qed.

(** C4.  Over pages linked by their next-page controls, the rows handed
    over are the rows of the first page, then of the second, and so on up
    to the page whose control stops the loop, each page's rows in document
    order and each row as wide as it is, repeated rows included.  The
    [try] block always returns, and it stops the loop at a page exactly
    when the next-page control is absent, cannot be clicked, or has
    [disabled] in its class (the control being a link or a button, which
    does not report itself selected).  A first page without a next-page
    control yields the rows of that page alone. *)
Theorem extraction_is_ordered_and_exhaustive (nx tx : string) :
  (forall (ps : list page) (last : page) (rest : browser) (fuel : nat)
          (tr : list (event handle)),
      Forall (has_table tx) (ps ++ [last]) ->
      Forall (fun p => advances nx p = true) ps ->
      unselected nx last ->
      absent nx last \/ unclickable nx last \/ disabled nx last ->
      (length ps < fuel)%nat ->
      exists tr',
        table_contents fuel nx tx (Session (ps ++ last :: rest) tr)
        = Ok (headers_at tx (hd last ps), concat (map (rows_at tx) (ps ++ [last])))
            (Session (last :: rest) tr'))
  /\ (forall (p : page) (rest : browser) (tr : list (event handle)),
        (exists b s', next_page nx (Session (p :: rest) tr) = Ok b s')
        /\ (unselected nx p ->
            (exists s', next_page nx (Session (p :: rest) tr) = Ok false s')
            <-> absent nx p \/ unclickable nx p \/ disabled nx p))
  /\ (forall (p : page) (rest : browser) (fuel : nat) (tr : list (event handle)),
        has_table tx p -> absent nx p -> (0 < fuel)%nat ->
        table_contents fuel nx tx (Session (p :: rest) tr)
        = Ok (headers_at tx p, rows_at tx p) (Session (p :: rest) tr)).
Proof.
  split; [|split].
  - intros ps last rest fuel tr Htab Hadv Hunsel Hstop Hfuel.
    destruct (page_loop_pages nx tx ps last rest fuel [] tr Htab Hadv Hunsel Hstop Hfuel)
      as [tr' Hrun].
    exists tr'.
    assert (exists e, hd last ps !! (XPATH, tx) = Some e) as [e He].
    { destruct ps as [|p ps]; cbn [app hd] in *; apply Forall_cons in Htab as [Hp _];
        exact Hp. }
    assert (ps ++ last :: rest = hd last ps :: tl (ps ++ last :: rest)) as Hsite
      by (destruct ps; reflexivity).
    rewrite Hsite, (table_contents_headers fuel nx tx _ _ tr e He), <- Hsite.
    unfold bind. rewrite Hrun. reflexivity.
  - intros p rest tr. split; [apply next_page_returns | apply next_page_stops].
  - intros p rest fuel tr. apply single_page_contents.
Qed.

Lemma stripped_nonempty_app (xs ys : list string) :
  stripped_nonempty (xs ++ ys) = stripped_nonempty xs ++ stripped_nonempty ys.
Proof. unfold stripped_nonempty. rewrite map_app. apply List.filter_app. Qed.

(** C8.  The headers are the stripped texts of the header cells that are
    not empty once stripped, in the order of the cells: a cell that strips
    to the empty text adds nothing, any other cell adds its stripped text.
    So there are at most as many headers as header cells, and a table can
    have fewer headers than its body rows have cells. *)
Theorem headers_are_stripped_nonempty (nx tx : string) :
  (forall (ths : list string) (s : session browser handle),
      header_texts (map HeaderCell ths) s = Ok (stripped_nonempty ths) s)
  /\ (forall (fuel : nat) (p : page) (rest : browser) (tr : list (event handle)) r s',
        table_contents fuel nx tx (Session (p :: rest) tr) = Ok r s' ->
        fst r = headers_at tx p)
  /\ (forall (pre post : list string) (t : string),
        stripped_nonempty (pre ++ t :: post)
        = stripped_nonempty pre
          ++ (if truthy (strip t) then [strip t] else [])
          ++ stripped_nonempty post)
  /\ (forall ths : list string,
        (length (stripped_nonempty ths) <= length ths)%nat)
  /\ (exists e : element,
        (length (stripped_nonempty (el_th e)) < length (el_th e))%nat
        /\ Forall (fun row => length (stripped_nonempty (el_th e)) < length row)%nat
             (el_rows e)
        /\ el_rows e <> []).
Proof.
  split; [|split; [|split; [|split]]].
  - apply header_texts_cells.
  - intros fuel p rest tr r s' Hrun.
    destruct (p !! (XPATH, tx)) as [e|] eqn:He.
    + rewrite (table_contents_headers fuel nx tx p rest tr e He) in Hrun.
      unfold bind in Hrun.
      destruct (page_loop fuel nx tx [] _) as [data s1| |]; try discriminate.
      unfold ret in Hrun. injection Hrun as <- _. reflexivity.
    + unfold table_contents in Hrun.
      rewrite (bind_exn _ _ _ TimeoutException (Session (p :: rest) tr)) in Hrun;
        [discriminate|].
      unfold until. dom_run He. reflexivity.
  - intros pre post t. rewrite stripped_nonempty_app. f_equal.
    unfold stripped_nonempty. cbn [map List.filter].
    destruct (truthy (strip t)); reflexivity.
  - intros ths. unfold stripped_nonempty.
    rewrite <- (length_map strip ths). apply List.filter_length_le.
  - exists (table ["Fecha"; "  "; "Potencia"] [["1"; "x"; "2"]; ["3"; "y"; "4"]]).
    split; [vm_compute; lia|]. split; [|discriminate].
    repeat constructor.
Qed.

End dom_facts.

(** ** Waiting for the download *)

Section download_facts.
Context {W E : Type} `{WebDriver W E}.
Import DownloadService.

Lemma poll_times_out (host : Host) (full_path : string) (remaining : nat) :
  forall elapsed : nat,
    (forall t : nat, (elapsed <= t < elapsed + remaining)%nat ->
       host_disk host full_path t = Absent
       \/ host_disk host full_path t = BeingWritten) ->
    poll host full_path remaining elapsed = inr None.
Proof.
  induction remaining as [|remaining IH]; intros elapsed Hbusy; [reflexivity|].
  cbn [poll].
  assert (poll host full_path remaining (S elapsed) = inr None) as Hrest
    by (apply IH; intros t Ht; apply Hbusy; lia).
  destruct (Hbusy elapsed ltac:(lia)) as [-> | ->]; exact Hrest.
Qed.

(** C7, amended.  When no poll before the timeout finds the file released
    by its writer, [_wait_for_downloaded_file] returns [None], whether the
    file was absent at every poll, locked at every poll, or absent at some
    and locked at others; [download_data] then raises the same
    [FileNotFoundError] in each case. *)
Theorem download_timeout_is_not_found (host : Host) (config : DownloadConfig)
    (day month year : option string) (s s1 : session W E) :
  (forall t : nat, (t < Z.to_nat (max_download_wait config))%nat ->
     host_disk host (Path.join (download_dir host config) (default_filename config)) t
       = Absent
     \/ host_disk host (Path.join (download_dir host config) (default_filename config)) t
       = BeingWritten) ->
  _wait_for_downloaded_file host config (default_filename config)
    (max_download_wait config) = inr None
  /\ (press_download config s = Ok tt s1 ->
      download_data host config day month year s
      = Exn FileNotFoundError
          (Session (world s1) (trace s1 ++ [Logged ErrorDownloadData]))).
Proof.
  intros Hbusy.
  assert (_wait_for_downloaded_file host config (default_filename config)
            (max_download_wait config) = inr None) as Hwait.
  { unfold _wait_for_downloaded_file. apply poll_times_out.
    intros t Ht. apply Hbusy. lia. }
  split; [exact Hwait|]. intros Hpress.
  unfold download_data, try_except, bind. rewrite Hpress, Hwait. reflexivity.
Qed.

End download_facts.

(** ** The properties on the fixtures *)

Section runs.
Import Text Fixtures.

(** C1.  [select_data] hands [config.table_xpath] to the parameter
    [pagination_next_xpath] of [_extract_table] and
    [config.pagination_next_xpath] to its parameter [table_xpath].  On a
    page with the result table and no next-page control the run times out
    waiting for the next-page locator, where [_extract_table] with the two
    locators in their roles returns the table; on a page with a next-page
    control and no table the run saves an empty table. *)
Theorem select_data_swaps_table_locators :
  let run := DataSelectionService.select_data service 5 (Session [analysis_page] []) in
  let intended :=
    DataSelectionService.table_contents 5
      (pagination_next_xpath config) (table_xpath config) (Session [analysis_page] []) in
  let run_without_table :=
    DataSelectionService.select_data service 5
      (Session [analysis_page_without_table] []) in
  verdict_of run = Raised TimeoutException
  /\ trace_of run
     = [Clicked (Dom.Located (XPATH, "//daily"));
        Clicked (Dom.Located (XPATH, DatePickerUtil.input_datapicker_xpath_default));
        Clicked (Dom.Located (XPATH, DatePickerUtil.day_xpath 15));
        Clicked (Dom.Located (XPATH, "//inv01"));
        Logged (WarnNoXPathElement "UP1 INV9");
        Clicked (Dom.Located (XPATH, "//inv02"));
        Clicked (Dom.Located (XPATH, "//potencia"));
        Clicked (Dom.Located (XPATH, "//ok"));
        Logged ErrorSelectData]
  /\ verdict_of intended
     = Returned (["Fecha"; "Potencia"], [["00:00"; "0"]; ["00:15"; "1"]])
  /\ verdict_of run_without_table = Returned tt
  /\ trace_of run_without_table
     = [Clicked (Dom.Located (XPATH, "//daily"));
        Clicked (Dom.Located (XPATH, DatePickerUtil.input_datapicker_xpath_default));
        Clicked (Dom.Located (XPATH, DatePickerUtil.day_xpath 15));
        Clicked (Dom.Located (XPATH, "//inv01"));
        Logged (WarnNoXPathElement "UP1 INV9");
        Clicked (Dom.Located (XPATH, "//inv02"));
        Clicked (Dom.Located (XPATH, "//potencia"));
        Clicked (Dom.Located (XPATH, "//ok"));
        ToExcel "Data_Inversor - (INVERSOR)_15_febrero_2025.xlsx" None [];
        Logged InfoNoConfirmButton].
Proof. repeat split; vm_compute; reflexivity. Qed.

(** The date picker. *)

Lemma select_date_forward_year_raises_witness :
  Datepicker.select_date 1 "enero" 2025 3 (Session calendar_january_2024 [])
  = Exn NotImplementedError
      (Session (Datepicker.Calendar 2024 0 true [] None)
         ([] ++ [Clicked Datepicker.Input] ++ [Logged ErrorSelectDate])).
Proof.
  unfold Datepicker.select_date.
  destruct (select_date_forward_year_raises 1 "enero" 2025
              DatePickerUtil.input_datapicker_xpath_default
              DatePickerUtil.datepicker_container_class_name_default
              DatePickerUtil.datepicker_switch_xpath_default
              DatePickerUtil.prev_button_xpath_default 3
              (Session calendar_january_2024 []) 2024 "enero 2024") as [_ Hraise].
  - lia.
  - apply (Hraise Datepicker.Input (Datepicker.Calendar 2024 0 true [] None) "Enero 2024").
    + split; [reflexivity|]. split; [reflexivity|].
      split; [eexists; reflexivity | eexists; split; reflexivity].
    + reflexivity.
Defined.

Lemma select_date_without_year_witness :
  verdict_of (Datepicker.select_date 5 "mayo" 2025 3 (Session calendar_may_999 []))
  = Returned tt
  /\ trace_of (Datepicker.select_date 5 "mayo" 2025 3 (Session calendar_may_999 []))
     = [Clicked Datepicker.Input; Clicked (Datepicker.DayCell 5)].
Proof.
  unfold Datepicker.select_date.
  destruct (select_date_without_year 5 "mayo" 2025
              DatePickerUtil.input_datapicker_xpath_default
              DatePickerUtil.datepicker_container_class_name_default
              DatePickerUtil.datepicker_switch_xpath_default
              DatePickerUtil.prev_button_xpath_default 3
              (Session calendar_may_999 []) Datepicker.Input
              (Datepicker.Calendar 999 4 true [] None) "Mayo 999") as [_ Hrun].
  - split; [reflexivity|]. split; [reflexivity|].
    split; [eexists; reflexivity | eexists; split; reflexivity].
  - reflexivity.
  - rewrite Hrun. split; vm_compute; reflexivity.
Defined.

(** Scenario A of the specification, with months that can be reached:
    from March 2025 to 15 February 2025 is one activation. *)
Example one_month_back :
  Datepicker.select_date 15 "febrero" 2025 240 (Session calendar_march_2025 [])
  = Ok tt
      (Session (Datepicker.Calendar 2025 1 false [] (Some (2025, 1%nat, 15)))
         [Clicked Datepicker.Input; Clicked Datepicker.Prev;
          Clicked (Datepicker.DayCell 15)]).
Proof. vm_compute. reflexivity. Qed.

(** A cap below the number of months to go back is hit. *)
Example cap_too_small :
  Datepicker.select_date 15 "febrero" 2024 12 (Session calendar_march_2025 [])
  = OutOfFuel.
Proof. vm_compute. reflexivity. Qed.

(** Extraction. *)

Lemma extraction_is_ordered_and_exhaustive_witness :
  exists tr',
    DataSelectionService.table_contents 5 "//next" "//table"
      (Session ([results_1; results_2] ++ results_3 :: []) [])
    = Ok (Dom.headers_at "//table" (hd results_3 [results_1; results_2]),
          concat (map (Dom.rows_at "//table") ([results_1; results_2] ++ [results_3])))
        (Session (results_3 :: []) tr').
Proof.
  destruct (extraction_is_ordered_and_exhaustive "//next" "//table") as [Hpages _].
  apply Hpages.
  - repeat constructor; eexists; vm_compute; reflexivity.
  - repeat constructor; vm_compute; reflexivity.
  - intros e He. vm_compute in He. injection He as <-. reflexivity.
  - right. right. eexists. split; vm_compute; reflexivity.
  - simpl. lia.
Defined.

(** Scenario B: three pages, rows in page order, ragged and repeated rows
    kept, the loop left at the disabled control of the third page. *)
Example three_pages :
  let run :=
    DataSelectionService.table_contents 5 "//next" "//table"
      (Session [results_1; results_2; results_3] []) in
  verdict_of run
  = Returned (["Fecha"; "Potencia"],
              [["1"; "2"]; ["3"]; ["1"; "2"]; ["4"; "5"; "6"]; ["7"; "8"]])
  /\ trace_of run
     = [Clicked (Dom.Located (XPATH, "//next")); Clicked (Dom.Located (XPATH, "//next"))].
Proof. split; vm_compute; reflexivity. Qed.

Lemma headers_are_stripped_nonempty_witness :
  fst (Dom.headers_at "//table" results_1, Dom.rows_at "//table" results_1)
  = Dom.headers_at "//table" results_1
  /\ Dom.headers_at "//table" results_1 = ["Fecha"; "Potencia"]
  /\ Dom.rows_at "//table" results_1 = [["1"; "2"]; ["3"]].
Proof.
  destruct (headers_are_stripped_nonempty "//absent" "//table") as (_ & Hheaders & _).
  split; [|split; vm_compute; reflexivity].
  apply (Hheaders 1%nat results_1 [] []
           (Dom.headers_at "//table" results_1, Dom.rows_at "//table" results_1)
           (Session [results_1] [])).
  apply single_page_contents.
  - eexists. vm_compute. reflexivity.
  - vm_compute. reflexivity.
  - lia.
Defined.

(** Toggling. *)

(** Against C5 as stated: a button never reports itself selected, so each
    of two calls in a row clicks it. *)
Lemma checked_click_twice_clicks_button_twice :
  let twice :=
    bind (DataSelectionService.checked_click (Dom.Located (XPATH, "//btn")))
      (fun _ => DataSelectionService.checked_click (Dom.Located (XPATH, "//btn")))
      (Session [panel] []) in
  verdict_of twice = Returned tt
  /\ trace_of twice
     = [Clicked (Dom.Located (XPATH, "//btn")); Clicked (Dom.Located (XPATH, "//btn"))].
Proof. split; vm_compute; reflexivity. Qed.

Lemma checked_click_twice_witness :
  bind (DataSelectionService.checked_click (Dom.Located (XPATH, "//cb")))
    (fun _ => DataSelectionService.checked_click (Dom.Located (XPATH, "//cb")))
    (Session [panel] [])
  = Ok tt
      (Session [<[(XPATH, "//cb") := Dom.toggled (Dom.checkbox false)]> panel]
         ([] ++ [Clicked (Dom.Located (XPATH, "//cb"))])).
Proof.
  destruct (checked_click_twice (Dom.Located (XPATH, "//cb")) (Session [panel] []))
    as (_ & Hcheckbox & _).
  apply Hcheckbox.
  - vm_compute. reflexivity.
  - reflexivity.
  - vm_compute. reflexivity.
Defined.

(** A ticked check box is left alone. *)
Example ticked_checkbox_is_not_clicked :
  DataSelectionService.checked_click (Dom.Located (XPATH, "//ticked")) (Session [panel] [])
  = Ok tt (Session [panel] []).
Proof. reflexivity. Qed.

(** Scenario D: the unknown element costs a warning, the elements around
    it are toggled; an element whose XPath is empty is skipped alike. *)
Example unknown_element_is_skipped :
  trace_of (DataSelectionService._select_elements service (Session [analysis_page] []))
  = [Clicked (Dom.Located (XPATH, "//inv01"));
     Logged (WarnNoXPathElement "UP1 INV9");
     Clicked (Dom.Located (XPATH, "//inv02"))]
  /\ trace_of (DataSelectionService._select_elements
                 (DataSelectionService.with_elements service ["UP1 INV1.1-03"])
                 (Session [analysis_page] []))
     = [Logged (WarnNoXPathElement "UP1 INV1.1-03")].
Proof. split; vm_compute; reflexivity. Qed.

(** Against C10 as stated: with no element and no parameter configured, as
    the constructor's defaults have it, an unknown typology key raises
    nothing in the toggling steps, and the run goes on to its end. *)
Lemma unknown_typology_without_names_passes :
  DataSelectionService.typology_dict service_unknown_typology
    !! DataSelectionService.typology_key service_unknown_typology = None
  /\ DataSelectionService.toggling service_unknown_typology (Session [analysis_page] [])
     = Ok tt (Session [analysis_page] [])
  /\ verdict_of (DataSelectionService.select_data service_unknown_typology 5
                   (Session [analysis_page_without_table] []))
     = Returned tt.
Proof.
  split; [vm_compute; reflexivity|]. split; [reflexivity|]. vm_compute. reflexivity.
Qed.

Lemma absent_typology_aborts_witness :
  DataSelectionService.toggling
    (DataSelectionService.with_elements service_unknown_typology ["UP1 INV1.1-01"])
    (Session [analysis_page] [])
  = Exn (KeyError "Dominicana") (Session [analysis_page] []).
Proof.
  destruct (absent_typology_aborts
              (DataSelectionService.with_elements service_unknown_typology ["UP1 INV1.1-01"])
              5 (Session [analysis_page] [])) as [_ Habort].
  - vm_compute. reflexivity.
  - destruct Habort as [Htoggling _]; [left; discriminate|]. exact Htoggling.
Defined.

(** The run as a whole is aborted by the unknown typology key. *)
Example unknown_typology_aborts_run :
  let run :=
    DataSelectionService.select_data
      (DataSelectionService.with_elements service_unknown_typology ["UP1 INV1.1-01"])
      5 (Session [analysis_page] []) in
  verdict_of run = Raised (KeyError "Dominicana")
  /\ trace_of run
     = [Clicked (Dom.Located (XPATH, "//daily"));
        Clicked (Dom.Located (XPATH, DatePickerUtil.input_datapicker_xpath_default));
        Clicked (Dom.Located (XPATH, DatePickerUtil.day_xpath 15));
        Logged ErrorSelectData].
Proof. split; vm_compute; reflexivity. Qed.

(** Downloads. *)

(** Against C7 as stated: a file that never appears and a file that stays
    locked until the timeout give the same result, and the same error of
    [download_data]. *)
Lemma download_timeouts_are_not_distinct :
  DownloadService._wait_for_downloaded_file host_without_file download_config
    "QuickAnalysis.xlsx" 60
  = DownloadService._wait_for_downloaded_file host_with_locked_file download_config
      "QuickAnalysis.xlsx" 60
  /\ DownloadService._wait_for_downloaded_file host_with_locked_file download_config
       "QuickAnalysis.xlsx" 60 = inr None
  /\ DownloadService.download_data host_without_file download_config None None None
       (Session [download_page] [])
     = DownloadService.download_data host_with_locked_file download_config None None None
         (Session [download_page] [])
  /\ verdict_of (DownloadService.download_data host_with_locked_file download_config
                   None None None (Session [download_page] []))
     = Raised FileNotFoundError.
Proof. repeat split; vm_compute; reflexivity. Qed.

Lemma download_timeout_is_not_found_witness :
  DownloadService.download_data host_with_locked_file download_config None None None
    (Session [download_page] [])
  = Exn FileNotFoundError
      (Session [download_page]
         ([Clicked (Dom.Located (XPATH, "//download"))] ++ [Logged ErrorDownloadData])).
Proof.
  destruct (download_timeout_is_not_found host_with_locked_file download_config
              None None None (Session [download_page] [])
              (Session [download_page] [Clicked (Dom.Located (XPATH, "//download"))]))
    as [_ Hraise].
  - intros t Ht. right. reflexivity.
  - apply Hraise. reflexivity.
Defined.

(** Scenario C: the file shows up late and locked, is released before the
    timeout, and is renamed after the pattern. *)
Example slow_download_is_renamed :
  DownloadService._wait_for_downloaded_file host_with_slow_file download_config
    "QuickAnalysis.xlsx" 60
  = inr (Some "/home/user/Downloads/QuickAnalysis.xlsx")
  /\ DownloadService._generate_filename host_with_slow_file download_config
       (Some "15") (Some "marzo") (Some "2025")
     = inr "QuickAnalysis_15_marzo_2025.xlsx"
  /\ verdict_of (DownloadService.download_data host_with_slow_file download_config
                   (Some "15") (Some "marzo") (Some "2025") (Session [download_page] []))
     = Returned tt.
Proof. repeat split; vm_compute; reflexivity. Qed.

End runs.

(** * Further properties *)

(** ** The date picker, off the beaten path *)

Section datepicker_edges.
Import Text Datepicker.

Local Abbreviation switch_xpath := DatePickerUtil.datepicker_switch_xpath_default.
Local Abbreviation prev_xpath := DatePickerUtil.prev_button_xpath_default.

(** The wait for the day cell and the click on it, in an open widget. *)
Lemma commit_day (c : calendar) (day : Z) (tr : list (event handle)) :
  opened c = true -> plain_day c day = true ->
  bind (until element_to_be_clickable (XPATH, DatePickerUtil.day_xpath day))
    (fun day_element => click day_element) (Session c tr)
  = Ok tt
      (Session (Calendar (shown_year c) (shown_month c) false (decorated c)
                  (Some (shown_year c, shown_month c, day)))
         (tr ++ [Clicked (DayCell day)])).
Proof.
  intros Hopen Hday. unfold bind, until, click.
  cbn [world trace drv_until drv_click driver].
  rewrite locate_day by assumption.
  cbn [press world trace]. rewrite Hopen, Hday. reflexivity.
Qed.

Lemma locate_day_none (c : calendar) (d : Z) :
  opened c = true -> 1 <= d <= 31 -> plain_day c d = false ->
  locate (XPATH, DatePickerUtil.day_xpath d) c = None.
Proof.
  intros Ho Hd Hp.
  assert (day_locator_ok d = true) as Hok.
  { pose proof day_locators as Hall. rewrite forallb_forall in Hall. apply Hall.
    apply in_map_iff. exists (Z.to_nat d). split; [lia|]. apply in_seq. lia. }
  unfold day_locator_ok in Hok.
  destruct (andb_prop _ _ Hok) as [H123 Hday].
  destruct (andb_prop _ _ H123) as [H12 H3].
  destruct (andb_prop _ _ H12) as [H1 H2].
  apply negb_true_iff in H1, H2, H3.
  unfold locate. rewrite H1, Ho, H2, H3. simpl negb. cbv iota.
  destruct (day_of_xpath (DatePickerUtil.day_xpath d)) as [d'|]; [|reflexivity].
  apply Z.eqb_eq in Hday. subst d'. rewrite Hp. reflexivity.
Qed.

(** Month alignment across the turn of the year: from a month before the
    target month, the loop goes back through January into the year before. *)
Lemma month_loop_wrap (month : string) (mi m : nat) :
  forall (fuel : nat) (y : Z) dec pk (tr : list (event handle)),
    (mi < 12)%nat -> lower month = lower (month_name mi) ->
    1000 <= y - 1 -> y <= 9999 -> (m < mi)%nat ->
    (m + 1 + (11 - mi) <= fuel)%nat ->
    DatePickerUtil.month_loop month switch_xpath prev_xpath fuel
      (lower (header y m)) (Session (Calendar y m true dec pk) tr)
    = Ok tt (Session (Calendar (y - 1) mi true dec pk)
               (tr ++ repeat (Clicked Prev) (m + 1 + (11 - mi)))).
Proof.
  induction m as [|m IH]; intros fuel y dec pk tr Hmi Hmonth Hy1 Hy Hm Hfuel;
    (destruct fuel as [|fuel]; [lia|]);
    rewrite month_loop_step, Hmonth, header_month by lia.
  - replace (Nat.eqb mi 0) with false by (symmetry; apply Nat.eqb_neq; lia).
    rewrite prev_step by reflexivity.
    cbn [go_back shown_month shown_year opened decorated picked].
    rewrite (month_loop_back month (y - 1) mi (11 - mi) fuel 11 dec pk) by (assumption || lia).
    rewrite repeat_snoc. reflexivity.
  - replace (Nat.eqb mi (S m)) with false by (symmetry; apply Nat.eqb_neq; lia).
    rewrite prev_step by reflexivity.
    cbn [go_back shown_month shown_year opened decorated picked].
    rewrite (IH fuel y dec pk) by (assumption || lia).
    rewrite repeat_snoc. reflexivity.
Qed.

(** X1.  When the target year is the year shown and the target month comes
    later in the year than the month shown, [select_date] never selects a
    date of the target year: the month loop, which only goes back, passes
    January and stops at the target month of the year before.  There the
    day is clicked when the view has a cell of class [day] alone for it;
    when it has none, no day is clicked and [TimeoutException] is logged
    and raised. *)
Theorem select_date_wraps_to_previous_year (c : calendar) (day : Z) (month : string)
    (mi fuel : nat) (tr : list (event handle)) :
  (mi < 12)%nat -> lower month = lower (month_name mi) ->
  (shown_month c < mi)%nat -> 1001 <= shown_year c <= 9999 ->
  1 <= day <= 31 ->
  (shown_month c + 1 + (11 - mi) <= fuel)%nat ->
  Datepicker.select_date day month (shown_year c) fuel (Session c tr)
  = if plain_day (Calendar (shown_year c - 1) mi true (decorated c) (picked c)) day
    then Ok tt
           (Session (Calendar (shown_year c - 1) mi false (decorated c)
                       (Some (shown_year c - 1, mi, day)))
              (tr ++ [Clicked Input]
                  ++ repeat (Clicked Prev) (shown_month c + 1 + (11 - mi))
                  ++ [Clicked (DayCell day)]))
    else Exn TimeoutException
           (Session (Calendar (shown_year c - 1) mi true (decorated c) (picked c))
              (tr ++ [Clicked Input]
                  ++ repeat (Clicked Prev) (shown_month c + 1 + (11 - mi))
                  ++ [Logged ErrorSelectDate])).
Proof.
  intros Hmi Hmonth Hm Hy Hday Hfuel.
  destruct c as [y m o dec pk]. cbn [shown_year shown_month decorated picked] in *.
  unfold Datepicker.select_date.
  rewrite (select_date_opened _ _ _ _ _ _ _ _ _ Input (Calendar y m true dec pk)
             (header y m)).
  2:{ repeat split; try reflexivity; eexists; try split; reflexivity. }
  cbn [world trace]. rewrite header_year by lia.
  assert (bind (DatePickerUtil.year_loop y switch_xpath prev_xpath fuel y
                  (lower (header y m)))
            (fun r => DatePickerUtil.month_loop month switch_xpath prev_xpath
                        (snd r) (fst r))
            (Session (Calendar y m true dec pk) (tr ++ [Clicked Input]))
          = Ok tt (Session (Calendar (y - 1) mi true dec pk)
                     ((tr ++ [Clicked Input])
                        ++ repeat (Clicked Prev) (m + 1 + (11 - mi))))) as Halign.
  { rewrite (bind_ok _ _ _ _ _ (year_loop_same _ _ _ _ _ _)). cbn [fst snd].
    apply month_loop_wrap; assumption || lia. }
  unfold try_except, DatePickerUtil.month_then_day.
  rewrite <- bind_assoc, (bind_ok _ _ _ _ _ Halign).
  destruct (plain_day (Calendar (y - 1) mi true dec pk) day) eqn:Hplain.
  - rewrite commit_day by (reflexivity || exact Hplain).
    cbn [shown_year shown_month decorated]. rewrite <- !app_assoc. reflexivity.
  - unfold bind, until. cbn [world trace drv_until driver].
    rewrite locate_day_none by (reflexivity || assumption).
    unfold log, raise. cbn [world trace]. rewrite <- !app_assoc. reflexivity.
Qed.

(** Year and month alignment for a target that is reached going back. *)
Lemma align_back (c : calendar) (month : string) (year : Z) (mi fuel : nat)
    (tr : list (event handle)) (current_text : string) :
  opened c = true ->
  (mi < 12)%nat -> lower month = lower (month_name mi) ->
  (shown_month c < 12)%nat -> 1000 <= year -> shown_year c <= 9999 ->
  reachable_backward c year mi ->
  (months_back c year mi <= fuel)%nat ->
  current_text = lower (header (shown_year c) (shown_month c)) ->
  bind (DatePickerUtil.year_loop year switch_xpath prev_xpath fuel (shown_year c)
          current_text)
    (fun r => DatePickerUtil.month_loop month switch_xpath prev_xpath (snd r) (fst r))
    (Session c tr)
  = Ok tt (Session (Calendar year mi true (decorated c) (picked c))
             (tr ++ repeat (Clicked Prev) (months_back c year mi))).
Proof.
  intros Hopen Hmi Hmonth Hm Hyear Hy Hreach Hfuel ->.
  destruct c as [y m o dec pk]. unfold reachable_backward, months_back in *.
  cbn [shown_year shown_month decorated picked opened] in *. subst o.
  destruct Hreach as [Hlt | [-> Hle]].
  - set (k1 := Z.to_nat (12 * (y - year - 1) + Z.of_nat m + 1)).
    rewrite (bind_ok _ _ _ _ _
               (year_loop_back year k1 fuel y m dec pk tr
                  (lower (header y m)) Hm Hyear ltac:(lia) ltac:(lia) ltac:(lia))).
    cbn [fst snd].
    rewrite (month_loop_back month year mi (11 - mi) (fuel - k1) 11 dec pk)
      by (assumption || lia).
    rewrite <- app_assoc, <- repeat_app.
    replace (k1 + (11 - mi))%nat
      with (Z.to_nat (12 * (y - year) + Z.of_nat m - Z.of_nat mi))
      by (subst k1; lia).
    reflexivity.
  - rewrite (bind_ok _ _ _ _ _ (year_loop_same _ _ _ _ _ _)). cbn [fst snd].
    rewrite (month_loop_back month y mi (m - mi) fuel m dec pk) by (assumption || lia).
    replace (Z.to_nat (12 * (y - y) + Z.of_nat m - Z.of_nat mi)) with (m - mi)%nat
      by lia.
    reflexivity.
Qed.

(** X2.  When the month of the target is reached but the view has no cell
    of class [day] for the day (the month is shorter, or the cell carries
    another class such as today's), [select_date] has gone back all the
    months, commits nothing, leaves the widget open, and raises the
    [TimeoutException] of the last wait after logging it. *)
Theorem select_date_day_unavailable (c : calendar) (day : Z) (month : string)
    (year : Z) (mi fuel : nat) (tr : list (event handle)) :
  (mi < 12)%nat -> lower month = lower (month_name mi) ->
  (shown_month c < 12)%nat -> 1000 <= year -> shown_year c <= 9999 ->
  reachable_backward c year mi ->
  1 <= day <= 31 ->
  plain_day (Calendar year mi true (decorated c) (picked c)) day = false ->
  (months_back c year mi <= fuel)%nat ->
  Datepicker.select_date day month year fuel (Session c tr)
  = Exn TimeoutException
      (Session (Calendar year mi true (decorated c) (picked c))
         (tr ++ [Clicked Input]
             ++ repeat (Clicked Prev) (months_back c year mi)
             ++ [Logged ErrorSelectDate])).
Proof.
  intros Hmi Hmonth Hm Hyear Hy Hreach Hday Hplain Hfuel.
  unfold Datepicker.select_date.
  rewrite (select_date_opened _ _ _ _ _ _ _ _ _ Input
             (Calendar (shown_year c) (shown_month c) true (decorated c) (picked c))
             (header (shown_year c) (shown_month c))).
  2:{ destruct c. repeat split; try reflexivity; eexists; try split; reflexivity. }
  cbn [world trace].
  assert (1000 <= shown_year c) as Hlow
    by (unfold reachable_backward in Hreach; lia).
  rewrite header_year by lia.
  pose proof (align_back
                (Calendar (shown_year c) (shown_month c) true (decorated c) (picked c))
                month year mi fuel (tr ++ [Clicked Input])
                (lower (header (shown_year c) (shown_month c)))
                eq_refl Hmi Hmonth Hm Hyear Hy Hreach Hfuel eq_refl) as Halign.
  cbn [shown_year shown_month decorated picked] in Halign.
  unfold try_except, DatePickerUtil.month_then_day.
  rewrite <- bind_assoc, (bind_ok _ _ _ _ _ Halign).
  unfold bind, until. cbn [world trace drv_until driver].
  rewrite locate_day_none by (reflexivity || assumption).
  unfold log, raise. cbn [world trace]. unfold months_back.
  cbn [shown_year shown_month]. rewrite <- !app_assoc. reflexivity.
Qed.

(** C3, amended.  For a target whose month is the month shown or an
    earlier one, [select_date] reaches the month of the target after exactly
    as many activations of the previous-control as there are months in
    between, under every iteration cap that allows that many (the source
    sets no cap).  There it ends with the click on the day cell when the
    view has a cell of class [day] alone for the day; when it has none (the
    month is shorter, or the cell carries another class such as today's) no
    day is clicked and the [TimeoutException] of the wait for the cell is
    logged and raised. *)
Theorem select_date_backward_terminates (c : calendar) (day : Z) (month : string)
    (year : Z) (mi fuel : nat) (tr : list (event handle)) :
  (mi < 12)%nat -> lower month = lower (month_name mi) ->
  (shown_month c < 12)%nat -> 1000 <= year -> shown_year c <= 9999 ->
  reachable_backward c year mi ->
  1 <= day <= 31 ->
  (months_back c year mi <= fuel)%nat ->
  Datepicker.select_date day month year fuel (Session c tr)
  = if plain_day (Calendar year mi true (decorated c) (picked c)) day
    then Ok tt
           (Session (Calendar year mi false (decorated c) (Some (year, mi, day)))
              (tr ++ [Clicked Input]
                  ++ repeat (Clicked Prev) (months_back c year mi)
                  ++ [Clicked (DayCell day)]))
    else Exn TimeoutException
           (Session (Calendar year mi true (decorated c) (picked c))
              (tr ++ [Clicked Input]
                  ++ repeat (Clicked Prev) (months_back c year mi)
                  ++ [Logged ErrorSelectDate])).
Proof.
  intros Hmi Hmonth Hm Hyear Hy Hreach Hday Hfuel.
  destruct (plain_day (Calendar year mi true (decorated c) (picked c)) day) eqn:Hplain.
  - apply select_date_backward_commits; assumption.
  - unfold Datepicker.select_date.
    rewrite (select_date_opened _ _ _ _ _ _ _ _ _ Input
               (Calendar (shown_year c) (shown_month c) true (decorated c) (picked c))
               (header (shown_year c) (shown_month c))).
    2:{ destruct c. repeat split; try reflexivity; eexists; try split; reflexivity. }
    cbn [world trace].
    assert (1000 <= shown_year c) as Hlow
      by (unfold reachable_backward in Hreach; lia).
    rewrite header_year by lia.
    pose proof (align_back
                  (Calendar (shown_year c) (shown_month c) true (decorated c) (picked c))
                  month year mi fuel (tr ++ [Clicked Input])
                  (lower (header (shown_year c) (shown_month c)))
                  eq_refl Hmi Hmonth Hm Hyear Hy Hreach Hfuel eq_refl) as Halign.
    cbn [shown_year shown_month decorated picked] in Halign.
    unfold try_except, DatePickerUtil.month_then_day.
    rewrite <- bind_assoc, (bind_ok _ _ _ _ _ Halign).
    unfold bind, until. cbn [world trace drv_until driver].
    rewrite locate_day_none by (reflexivity || assumption).
    unfold log, raise. cbn [world trace]. unfold months_back.
    cbn [shown_year shown_month]. rewrite <- !app_assoc. reflexivity.
Qed.

End datepicker_edges.

Section select_date_aligned.
Context {W E : Type} `{WebDriver W E}.
Variables (day : Z) (month : string) (year : Z).
Variables (input_datapicker_xpath datepicker_container_class_name
           datepicker_switch_xpath prev_button_xpath : string).

(** X3.  For every browser: when the header read after opening the widget
    contains the month (whatever the case of either, and so for an empty
    month name too) and its year is the target year or it shows no
    four-digit year, [select_date] does not look for the previous-control:
    its only clicks are the one on the input and the one on the day cell. *)
Theorem select_date_already_aligned (fuel : nat) (s : session W E) (input : E)
    (w1 : W) (t : string) (day_element : E) (w2 : W) :
  DatePickerUtil.opens input_datapicker_xpath datepicker_container_class_name
    datepicker_switch_xpath s input w1 t ->
  DatePickerUtil.year_in (Text.lower t) = Some year
  \/ DatePickerUtil.year_in (Text.lower t) = None ->
  Text.str_in (Text.lower month) (Text.lower t) = true ->
  drv_until element_to_be_clickable (XPATH, DatePickerUtil.day_xpath day) w1
    = Some day_element ->
  drv_click day_element w1 = inr w2 ->
  DatePickerUtil.select_date day month year input_datapicker_xpath
    datepicker_container_class_name datepicker_switch_xpath prev_button_xpath fuel s
  = Ok tt (Session w2 (trace s ++ [Clicked input] ++ [Clicked day_element])).
Proof.
  intros Hopen Hyear Hmonth Hday Hclick.
  rewrite (select_date_opened _ _ _ _ _ _ _ _ _ _ _ _ Hopen).
  assert (match DatePickerUtil.year_in (Text.lower t) with
          | Some y => y
          | None => year
          end = year) as -> by (destruct Hyear as [-> | ->]; reflexivity).
  apply try_except_ok.
  rewrite (bind_ok _ _ _ _ _ (year_loop_same _ _ _ _ _ _)). cbn [fst snd].
  unfold DatePickerUtil.month_then_day.
  rewrite (bind_ok _ _ _ _ _ (month_loop_found _ _ _ _ _ _ Hmonth)).
  unfold bind, until, click. cbn [world trace]. rewrite Hday.
  cbn [world trace]. rewrite Hclick, <- app_assoc. reflexivity.
Qed.

End select_date_aligned.

(** ** Extraction against pages that misbehave *)

Section extraction_edges.
Import Text Dom DataSelectionService.

Ltac dom_run Hp :=
  repeat (progress
            (cbn [world trace drv_find_element drv_until drv_get_attribute
                  drv_is_selected drv_click drv_sleep drv_text drv_find_elements
                  driver press holds String.eqb Ascii.eqb Bool.eqb];
             unfold of_element, lookup_element; rewrite ?Hp)).

Lemma page_loop_stalls (nx tx : string) (p : page) (e c : element) :
  p !! (XPATH, tx) = Some e -> p !! (XPATH, nx) = Some c ->
  str_in "disabled" (el_class c) = false ->
  el_selected c = true \/ el_click c = NoEffect \/ el_click c = NextPage ->
  forall (fuel : nat) (data : list (list string)) (tr : list (event handle)),
    page_loop fuel nx tx data (Session [p] tr) = OutOfFuel.
Proof.
  intros He Hc Hdis Hstay. induction fuel as [|fuel IH]; intros data tr; [reflexivity|].
  cbn [page_loop]. rewrite (read_page tx p [] tr data e) by exact He.
  unfold bind. rewrite (next_page_present nx p [] _ c) by exact Hc. rewrite Hdis.
  destruct (el_selected c); [apply IH|].
  destruct Hstay as [Hsel | [-> | ->]]; [discriminate | apply IH | apply IH].
Qed.

(** X4.  On a last page whose next-page control is still there without
    [disabled] in its class, and whose click changes nothing (or which
    reports itself selected, so that it is not clicked), the page loop never
    ends: no number of iterations suffices, and nothing is handed over. *)
Theorem stalled_pagination_never_ends (self : t) (nx tx : string) (p : page)
    (e c : element) (fuel : nat) (tr : list (event handle)) :
  p !! (XPATH, tx) = Some e -> p !! (XPATH, nx) = Some c ->
  str_in "disabled" (el_class c) = false ->
  el_selected c = true \/ el_click c = NoEffect \/ el_click c = NextPage ->
  table_contents fuel nx tx (Session [p] tr) = OutOfFuel
  /\ _extract_table self fuel nx tx (Session [p] tr) = OutOfFuel.
Proof.
  intros He Hc Hdis Hstay.
  assert (table_contents fuel nx tx (Session [p] tr) = OutOfFuel) as Hrun.
  { rewrite (table_contents_headers fuel nx tx p [] tr e He). unfold bind.
    rewrite (page_loop_stalls nx tx p e c He Hc Hdis Hstay). reflexivity. }
  split; [exact Hrun|]. unfold _extract_table, bind. rewrite Hrun. reflexivity.
Qed.

Lemma page_loop_missing_table (nx tx : string) (ps : list page) :
  forall (bad : page) (rest : browser) (fuel : nat) (data : list (list string))
         (tr : list (event handle)),
    Forall (has_table tx) ps ->
    Forall (fun p => advances nx p = true) ps ->
    bad !! (XPATH, tx) = None ->
    (length ps < fuel)%nat ->
    page_loop fuel nx tx data (Session (ps ++ bad :: rest) tr)
    = Exn TimeoutException
        (Session (bad :: rest)
           (tr ++ repeat (Clicked (Located (XPATH, nx))) (length ps))).
Proof.
  induction ps as [|p ps IH]; intros bad rest fuel data tr Htab Hadv Hbad Hfuel;
    (destruct fuel as [|fuel]; [cbn in Hfuel; lia|]).
  - cbn [app page_loop length repeat]. rewrite app_nil_r.
    apply bind_exn. unfold until. dom_run Hbad. reflexivity.
  - apply Forall_cons in Htab as [[e He] Htab].
    apply Forall_cons in Hadv as [Hp Hadv].
    cbn [app page_loop]. rewrite (read_page tx p _ tr data e) by exact He.
    unfold advances in Hp. destruct (p !! (XPATH, nx)) as [c|] eqn:Hc; [|discriminate].
    destruct (andb_prop _ _ Hp) as [Hds Hclick].
    destruct (andb_prop _ _ Hds) as [Hdis Hsel].
    apply negb_true_iff in Hdis, Hsel.
    unfold bind. rewrite (next_page_present nx p _ _ c) by exact Hc.
    rewrite Hdis, Hsel. destruct (el_click c); try discriminate.
    destruct (ps ++ bad :: rest) as [|q qs] eqn:Hq; [destruct ps; discriminate|].
    rewrite <- Hq. rewrite IH by (assumption || (cbn in Hfuel; lia)).
    cbn [length]. rewrite repeat_snoc. reflexivity.
Qed.

(** X5.  When a page of the sequence has no element at the table locator,
    the wait for the table times out there: [_extract_table] raises
    [TimeoutException] after the clicks that led to that page, the rows read
    on the pages before are dropped, and nothing is handed over to be
    saved. *)
Theorem missing_table_aborts_extraction (self : t) (nx tx : string)
    (ps : list page) (bad : page) (rest : browser) (fuel : nat)
    (tr : list (event handle)) :
  Forall (has_table tx) ps ->
  Forall (fun p => advances nx p = true) ps ->
  bad !! (XPATH, tx) = None ->
  (length ps < fuel)%nat ->
  _extract_table self fuel nx tx (Session (ps ++ bad :: rest) tr)
  = Exn TimeoutException
      (Session (bad :: rest)
         (tr ++ repeat (Clicked (Located (XPATH, nx))) (length ps))).
Proof.
  intros Htab Hadv Hbad Hfuel.
  unfold _extract_table. apply bind_exn.
  destruct ps as [|p ps].
  - cbn [app length repeat]. rewrite app_nil_r. unfold table_contents.
    apply bind_exn. unfold until. dom_run Hbad. reflexivity.
  - pose proof Htab as Htab'. apply Forall_cons in Htab' as [[e He] _].
    cbn [app]. rewrite (table_contents_headers fuel nx tx p _ tr e He).
    apply bind_exn.
    apply (page_loop_missing_table nx tx (p :: ps) bad rest fuel [] tr);
      assumption.
Qed.

(** A table whose rows all have [n] cells gives a frame of [n] columns. *)
Lemma frame_width_rectangular (n : nat) (rows : list (list string)) :
  Forall (fun row => length row = n) rows ->
  frame_width (map (map strip) rows) = match rows with [] => 0%nat | _ => n end.
Proof.
  induction 1 as [|row rows Hrow Hrows IH]; [reflexivity|].
  cbn [map frame_width foldr]. fold (frame_width (map (map strip) rows)).
  rewrite IH, length_map, Hrow. destruct rows; lia.
Qed.

Lemma stripped_nonempty_length (texts : list string) :
  (length (stripped_nonempty texts) <= length texts)%nat.
Proof.
  unfold stripped_nonempty. rewrite <- (length_map strip texts).
  apply filter_length_le.
Qed.

(** The header comprehension keeps every cell exactly when every cell has
    a text, and none exactly when none has. *)
Lemma stripped_nonempty_all (texts : list string) :
  Nat.eqb (length (stripped_nonempty texts)) (length texts)
  = forallb (fun t => truthy (strip t)) texts.
Proof.
  induction texts as [|t texts IH]; [reflexivity|].
  pose proof (stripped_nonempty_length texts) as Hle.
  unfold stripped_nonempty in *. cbn [map List.filter forallb length].
  destruct (truthy (strip t)); cbn [length andb]; [exact IH|].
  apply Nat.eqb_neq. lia.
Qed.

Lemma stripped_nonempty_none (texts : list string) :
  stripped_nonempty texts = [] ->
  existsb (fun t => truthy (strip t)) texts = false.
Proof.
  induction texts as [|t texts IH]; [reflexivity|].
  unfold stripped_nonempty in *. cbn [map List.filter existsb].
  destruct (truthy (strip t)); [discriminate|]. exact IH.
Qed.

Lemma stripped_nonempty_some (texts : list string) :
  stripped_nonempty texts <> [] ->
  existsb (fun t => truthy (strip t)) texts = true.
Proof.
  induction texts as [|t texts IH]; [intros Hnil; contradiction Hnil; reflexivity|].
  unfold stripped_nonempty in *. cbn [map List.filter existsb].
  destruct (truthy (strip t)); [reflexivity|]. exact IH.
Qed.

(** X17.  On a one-page table every row of which has as many cells as the
    header row, with at least one row: the table is handed over to be saved
    exactly when every header cell has a text or none has.  When some
    header cell is blank and some is not, the blank ones are dropped from
    the column names, [pd.DataFrame] is given fewer names than the rows
    have cells, and [_extract_table] raises [ValueError] with nothing
    saved. *)
Theorem blank_header_cell_loses_the_table (self : t) (nx tx : string) (p : page)
    (rest : browser) (fuel : nat) (tr : list (event handle)) (e : element) :
  p !! (XPATH, tx) = Some e -> absent nx p -> (0 < fuel)%nat ->
  el_rows e <> [] ->
  Forall (fun row => length row = length (el_th e)) (el_rows e) ->
  _extract_table self fuel nx tx (Session (p :: rest) tr)
  = if forallb (fun t => truthy (strip t)) (el_th e)
       || negb (existsb (fun t => truthy (strip t)) (el_th e))
    then Ok tt
           (Session (p :: rest)
              (tr ++ [ToExcel (file_name self)
                        (match headers_at tx p with
                         | [] => None
                         | _ => Some (headers_at tx p)
                         end)
                        (rows_at tx p)]))
    else Exn ValueError (Session (p :: rest) tr).
Proof.
  intros He Habs Hfuel Hrows Hrect.
  unfold _extract_table.
  rewrite (bind_ok _ _ _ _ _
             (single_page_contents nx tx p rest fuel tr (ex_intro _ e He) Habs Hfuel)).
  cbn [fst snd]. unfold headers_at, rows_at. rewrite He.
  pose proof (frame_width_rectangular _ _ Hrect) as Hwidth.
  pose proof (stripped_nonempty_all (el_th e)) as Hall.
  destruct (stripped_nonempty (el_th e)) as [|h hs] eqn:Hhs.
  - rewrite (stripped_nonempty_none _ Hhs), orb_true_r. reflexivity.
  - rewrite (stripped_nonempty_some (el_th e)) by (rewrite Hhs; discriminate).
    rewrite orb_false_r, <- Hall.
    destruct (el_rows e) as [|row rows]; [contradiction Hrows; reflexivity|].
    unfold data_frame. cbn [map]. cbn [map] in Hwidth. rewrite Hwidth.
    destruct (Nat.eqb (length (h :: hs)) (length (el_th e))); reflexivity.
Qed.

End extraction_edges.

(** ** Toggling check boxes *)

Section panel_facts.
Import Text Dom Panel DataSelectionService.

Ltac dom_run Hp :=
  repeat (progress
            (cbn [world trace drv_find_element drv_until drv_get_attribute
                  drv_is_selected drv_click drv_sleep drv_text drv_find_elements
                  driver press holds String.eqb Ascii.eqb Bool.eqb];
             unfold of_element, lookup_element; rewrite ?Hp)).

Lemma only_ticks_refl (p : page) : only_ticks p p.
Proof. intros k. left. reflexivity. Qed.

Lemma only_ticks_trans (p p1 p2 : page) :
  only_ticks p p1 -> only_ticks p1 p2 -> only_ticks p p2.
Proof.
  intros H1 H2 k. destruct (H1 k) as [Hsame | (e & He & Hsel & Hclick & Hk1)].
  - destruct (H2 k) as [Hsame2 | (e & He & Hsel & Hclick & Hk2)].
    + left. congruence.
    + right. exists e. rewrite <- Hsame. auto.
  - destruct (H2 k) as [Hsame2 | (e2 & He2 & Hsel2 & Hclick2 & Hk2)].
    + right. exists e. rewrite Hsame2. auto.
    + rewrite Hk1 in He2. injection He2 as <-. cbn in Hsel2.
      rewrite Hsel in Hsel2. discriminate.
Qed.

Lemma only_ticks_toggles (p p' : page) (x : string) :
  only_ticks p p' -> toggles p x -> toggles p' x.
Proof.
  intros Hgrow (e & He & Hclick).
  destruct (Hgrow (XPATH, x)) as [Hsame | (e' & He' & _ & _ & Hk)].
  - exists e. rewrite Hsame. auto.
  - exists (toggled e'). split; [exact Hk|].
    rewrite He in He'. injection He' as <-. exact Hclick.
Qed.

Lemma only_ticks_ticked (p p' : page) (x : string) :
  only_ticks p p' -> ticked p x -> ticked p' x.
Proof.
  intros Hgrow (e & He & Hclick & Hsel).
  destruct (Hgrow (XPATH, x)) as [Hsame | (e' & He' & Hsel' & _ & _)].
  - exists e. rewrite Hsame. auto.
  - rewrite He in He'. injection He' as <-. congruence.
Qed.

(** [checked_click] on a check box of the page shown. *)
Lemma checked_click_checkbox (l : locator) (p : page) (rest : browser)
    (tr : list (event handle)) (e : element) :
  p !! l = Some e -> el_click e = Toggle ->
  checked_click (Located l) (Session (p :: rest) tr)
  = if el_selected e then Ok tt (Session (p :: rest) tr)
    else Ok tt (Session (<[l := toggled e]> p :: rest) (tr ++ [Clicked (Located l)])).
Proof.
  intros He Hclick.
  unfold checked_click, try_except, bind, is_selected, click, observe, ret.
  dom_run He. destruct (el_selected e); [reflexivity|].
  dom_run He. rewrite Hclick. reflexivity.
Qed.

(** One name of the loop of [_select_elements], on a check box. *)
Lemma select_element_checkbox (self : t) (by_typology : gmap string (gmap string string))
    (table : gmap string string) (name x : string) (p : page) (rest : browser)
    (tr : list (event handle)) (e : element) :
  typology_dict self !! typology_key self = Some by_typology ->
  by_typology !! "Elements" = Some table ->
  resolves table name x ->
  p !! (XPATH, x) = Some e -> el_click e = Toggle ->
  select_element self name (Session (p :: rest) tr)
  = if el_selected e then Ok tt (Session (p :: rest) tr)
    else Ok tt (Session (<[(XPATH, x) := toggled e]> p :: rest)
                  (tr ++ [Clicked (Located (XPATH, x))])).
Proof.
  intros Hkey Htable [Hname Hx] He Hclick.
  unfold select_element, getitem. rewrite Hkey.
  rewrite (bind_ok _ _ _ by_typology (Session (p :: rest) tr)) by reflexivity.
  rewrite Htable.
  rewrite (bind_ok _ _ _ table (Session (p :: rest) tr)) by reflexivity.
  rewrite Hname. change (default "" (Some x)) with x.
  cbn [not_xpath]. rewrite Hx. cbn [negb].
  rewrite (bind_ok _ _ _ (Located (XPATH, x)) (Session (p :: rest) tr)).
  2:{ unfold until. dom_run He. reflexivity. }
  unfold bind. rewrite (checked_click_checkbox _ p rest tr e He Hclick).
  destruct (el_selected e); reflexivity.
Qed.

Lemma select_elements_tick (self : t) (by_typology : gmap string (gmap string string))
    (table : gmap string string) (rest : browser) (names : list string) :
  typology_dict self !! typology_key self = Some by_typology ->
  by_typology !! "Elements" = Some table ->
  forall (p : page) (tr : list (event handle)),
    (forall name, In name names -> exists x, resolves table name x /\ toggles p x) ->
    exists (p' : page) (tr' : list (event handle)),
      for_each names (select_element self) (Session (p :: rest) tr)
      = Ok tt (Session (p' :: rest) tr')
      /\ only_ticks p p'
      /\ (forall name, In name names -> exists x, resolves table name x /\ ticked p' x).
Proof.
  intros Hkey Htable. induction names as [|name names IH]; intros p tr Hall.
  - exists p, tr. split; [reflexivity|]. split; [apply only_ticks_refl|].
    intros name [].
  - destruct (Hall name (or_introl eq_refl)) as (x & Hres & e & He & Hclick).
    pose proof (select_element_checkbox self by_typology table name x p rest tr e
                  Hkey Htable Hres He Hclick) as Hstep.
    assert (exists (p1 : page) (tr1 : list (event handle)),
               select_element self name (Session (p :: rest) tr)
               = Ok tt (Session (p1 :: rest) tr1)
               /\ only_ticks p p1 /\ ticked p1 x) as (p1 & tr1 & Hrun & Hgrow & Hticked).
    { destruct (el_selected e) eqn:Hsel.
      - exists p, tr. split; [exact Hstep|]. split; [apply only_ticks_refl|].
        exists e. auto.
      - exists (<[(XPATH, x) := toggled e]> p), (tr ++ [Clicked (Located (XPATH, x))]).
        split; [exact Hstep|]. split.
        + intros k. destruct (decide (k = (XPATH, x))) as [->|Hne].
          * right. exists e. rewrite lookup_insert_eq. auto.
          * left. apply lookup_insert_ne. congruence.
        + exists (toggled e). rewrite lookup_insert_eq. cbn. rewrite Hsel. auto. }
    destruct (IH p1 tr1) as (p' & tr' & Hrest & Hgrow' & Hticked').
    { intros name' Hin. destruct (Hall name' (or_intror Hin)) as (x' & Hres' & Htog).
      exists x'. split; [exact Hres'|]. apply (only_ticks_toggles p p1); assumption. }
    exists p', tr'. split; [|split].
    + cbn [for_each]. unfold bind. rewrite Hrun. exact Hrest.
    + apply (only_ticks_trans p p1 p'); assumption.
    + intros name' [<- | Hin]; [|apply Hticked'; exact Hin].
      exists x. split; [exact Hres|]. apply (only_ticks_ticked p1 p'); assumption.
Qed.

Lemma select_elements_ticked (self : t) (by_typology : gmap string (gmap string string))
    (table : gmap string string) (p : page) (rest : browser) (names : list string) :
  typology_dict self !! typology_key self = Some by_typology ->
  by_typology !! "Elements" = Some table ->
  (forall name, In name names -> exists x, resolves table name x /\ ticked p x) ->
  forall tr : list (event handle),
    for_each names (select_element self) (Session (p :: rest) tr)
    = Ok tt (Session (p :: rest) tr).
Proof.
  intros Hkey Htable. induction names as [|name names IH]; intros Hall tr; [reflexivity|].
  destruct (Hall name (or_introl eq_refl)) as (x & Hres & e & He & Hclick & Hsel).
  cbn [for_each]. unfold bind.
  rewrite (select_element_checkbox self by_typology table name x p rest tr e
             Hkey Htable Hres He Hclick), Hsel.
  apply IH. intros name' Hin. apply Hall. right. exact Hin.
Qed.

(** X6.  When every configured element name resolves to a check box of the
    page, [_select_elements] returns with every one of them ticked, whatever
    was ticked before; it only ever ticks: every element of the page is left
    as it was or is a check box that went from unticked to ticked.  Run
    again on the page it leaves, it clicks nothing and changes nothing. *)
Theorem select_elements_ticks_check_boxes (self : t)
    (by_typology : gmap string (gmap string string)) (table : gmap string string)
    (p : page) (rest : browser) (tr : list (event handle)) :
  typology_dict self !! typology_key self = Some by_typology ->
  by_typology !! "Elements" = Some table ->
  (forall name, In name (elements self) ->
     exists x, resolves table name x /\ toggles p x) ->
  exists (p' : page) (tr' : list (event handle)),
    _select_elements self (Session (p :: rest) tr) = Ok tt (Session (p' :: rest) tr')
    /\ (forall name, In name (elements self) ->
          exists x, resolves table name x /\ ticked p' x)
    /\ only_ticks p p'
    /\ _select_elements self (Session (p' :: rest) tr') = Ok tt (Session (p' :: rest) tr').
Proof.
  intros Hkey Htable Hall.
  destruct (select_elements_tick self by_typology table rest (elements self)
              Hkey Htable p tr Hall) as (p' & tr' & Hrun & Hgrow & Hticked).
  exists p', tr'. rewrite !select_elements_for_each.
  split; [exact Hrun|]. split; [exact Hticked|]. split; [exact Hgrow|].
  apply (select_elements_ticked self by_typology table); assumption.
Qed.

(** One name of the loop of [_select_parameters], on a check box. *)
Lemma select_parameter_checkbox (self : t) (by_typology : gmap string (gmap string string))
    (table : gmap string string) (name x : string) (p : page) (rest : browser)
    (tr : list (event handle)) (e : element) :
  typology_dict self !! typology_key self = Some by_typology ->
  by_typology !! "Parameters" = Some table ->
  resolves table name x ->
  p !! (XPATH, x) = Some e -> el_click e = Toggle ->
  select_parameter self name (Session (p :: rest) tr)
  = if el_selected e then Ok tt (Session (p :: rest) tr)
    else Ok tt (Session (<[(XPATH, x) := toggled e]> p :: rest)
                  (tr ++ [Clicked (Located (XPATH, x))])).
Proof.
  intros Hkey Htable [Hname Hx] He Hclick.
  unfold select_parameter, getitem. rewrite Hkey.
  rewrite (bind_ok _ _ _ by_typology (Session (p :: rest) tr)) by reflexivity.
  rewrite Htable.
  rewrite (bind_ok _ _ _ table (Session (p :: rest) tr)) by reflexivity.
  rewrite Hname. change (default "" (Some x)) with x.
  cbn [not_xpath]. rewrite Hx. cbn [negb].
  rewrite (bind_ok _ _ _ (Located (XPATH, x)) (Session (p :: rest) tr)).
  2:{ unfold until. dom_run He. reflexivity. }
  unfold bind. rewrite (checked_click_checkbox _ p rest tr e He Hclick).
  destruct (el_selected e); reflexivity.
Qed.

Lemma resolves_or_not (table : gmap string string) (name : string) :
  not_xpath (table !! name) = false -> exists x : string, resolves table name x.
Proof.
  unfold resolves. destruct (table !! name) as [x|]; cbn [not_xpath]; [|discriminate].
  intros Hx. exists x. split; [reflexivity|]. apply negb_false_iff. exact Hx.
Qed.

Lemma resolves_not (table : gmap string string) (name x : string) :
  resolves table name x -> not_xpath (table !! name) = false.
Proof. intros [-> Hx]. cbn [not_xpath]. rewrite Hx. reflexivity. Qed.

(** A toggling loop whose names resolve to check boxes of the page or do
    not resolve at all. *)
Lemma toggle_loop (step : string -> M browser handle unit) (warn : string -> log_record)
    (table : gmap string string) (rest : browser) :
  (forall (name : string) (s : session browser handle),
      not_xpath (table !! name) = true -> step name s = log (warn name) s) ->
  (forall (name x : string) (p : page) (tr : list (event handle)) (e : element),
      resolves table name x -> p !! (XPATH, x) = Some e -> el_click e = Toggle ->
      step name (Session (p :: rest) tr)
      = if el_selected e then Ok tt (Session (p :: rest) tr)
        else Ok tt (Session (<[(XPATH, x) := toggled e]> p :: rest)
                      (tr ++ [Clicked (Located (XPATH, x))]))) ->
  forall (names : list string) (p : page) (tr : list (event handle)),
    (forall name x : string, In name names -> resolves table name x -> toggles p x) ->
    exists (p' : page) (tr' : list (event handle)),
      for_each names step (Session (p :: rest) tr) = Ok tt (Session (p' :: rest) (tr ++ tr'))
      /\ logged tr' = map warn (unresolved table names)
      /\ (forall h : handle,
            In h (clicked tr') ->
            exists name x : string,
              In name names /\ resolves table name x /\ h = Located (XPATH, x))
      /\ (forall name x : string,
            In name names -> resolves table name x -> ticked p' x)
      /\ only_ticks p p'.
Proof.
  intros Hskip Htoggle. induction names as [|name names IH]; intros p tr Hall.
  - exists p, []. rewrite app_nil_r. split; [reflexivity|]. split; [reflexivity|].
    split; [intros h []|]. split; [intros name x []|]. apply only_ticks_refl.
  - unfold unresolved. cbn [for_each List.filter].
    destruct (not_xpath (table !! name)) eqn:Hnot.
    + destruct (IH p (tr ++ [Logged (warn name)])) as (p' & tr' & Hrun & Hlog & Hclk & Htick & Hgrow).
      { intros n x Hin. apply Hall. right. exact Hin. }
      exists p', (Logged (warn name) :: tr'). split; [|split; [|split; [|split]]].
      * unfold bind. rewrite (Hskip name _ Hnot). unfold log. cbn [world trace].
        rewrite <- app_assoc in Hrun. exact Hrun.
      * cbn [logged flat_map map app]. f_equal. exact Hlog.
      * intros h Hh. destruct (Hclk h Hh) as (n & x & Hin & Hres & ->).
        exists n, x. split; [right; exact Hin|]. split; [exact Hres | reflexivity].
      * intros n x [<- | Hin] Hres.
        -- rewrite (resolves_not table name x Hres) in Hnot. discriminate.
        -- apply (Htick n x); assumption.
      * exact Hgrow.
    + destruct (resolves_or_not table name Hnot) as [x Hres].
      destruct (Hall name x (or_introl eq_refl) Hres) as (e & He & Hclick).
      pose proof (Htoggle name x p tr e Hres He Hclick) as Hstep.
      assert (exists (p1 : page) (tr1 : list (event handle)),
                 step name (Session (p :: rest) tr) = Ok tt (Session (p1 :: rest) (tr ++ tr1))
                 /\ logged tr1 = []
                 /\ (forall h : handle, In h (clicked tr1) -> h = Located (XPATH, x))
                 /\ only_ticks p p1 /\ ticked p1 x)
        as (p1 & tr1 & Hrun1 & Hlog1 & Hclk1 & Hgrow1 & Htick1).
      { destruct (el_selected e) eqn:Hsel.
        - exists p, []. rewrite app_nil_r. split; [exact Hstep|]. split; [reflexivity|].
          split; [intros h []|]. split; [apply only_ticks_refl|]. exists e. auto.
        - exists (<[(XPATH, x) := toggled e]> p), [Clicked (Located (XPATH, x))].
          split; [exact Hstep|]. split; [reflexivity|]. split; [|split].
          + intros h [<- | []]. reflexivity.
          + intros k. destruct (decide (k = (XPATH, x))) as [->|Hne].
            * right. exists e. rewrite lookup_insert_eq. auto.
            * left. apply lookup_insert_ne. congruence.
          + exists (toggled e). rewrite lookup_insert_eq. cbn. rewrite Hsel. auto. }
      destruct (IH p1 (tr ++ tr1)) as (p' & tr' & Hrun & Hlog & Hclk & Htick & Hgrow).
      { intros n x' Hin Hres'. apply (only_ticks_toggles p p1); [exact Hgrow1|].
        apply (Hall n x'); [right; exact Hin | exact Hres']. }
      exists p', (tr1 ++ tr'). split; [|split; [|split; [|split]]].
      * unfold bind. rewrite Hrun1. rewrite <- app_assoc in Hrun. exact Hrun.
      * unfold logged. rewrite flat_map_app. fold (logged tr1). fold (logged tr').
        rewrite Hlog1, Hlog. reflexivity.
      * intros h Hh. unfold clicked in Hh. rewrite flat_map_app in Hh.
        apply in_app_or in Hh as [Hh | Hh].
        -- exists name, x. split; [left; reflexivity|]. split; [exact Hres|].
           apply Hclk1. exact Hh.
        -- destruct (Hclk h Hh) as (n & x' & Hin & Hres' & ->).
           exists n, x'. split; [right; exact Hin|]. split; [exact Hres' | reflexivity].
      * intros n x' [<- | Hin] Hres'.
        -- destruct Hres as [Hl _], Hres' as [Hl' _]. rewrite Hl in Hl'.
           injection Hl' as <-. apply (only_ticks_ticked p1 p'); assumption.
        -- apply (Htick n x'); assumption.
      * apply (only_ticks_trans p p1 p'); assumption.
Qed.

(** C6.  A name whose XPath lookup yields nothing ([None] or the empty
    string) is skipped with a warning, whatever the browser: the loop does
    with the names before it and the names after it what it does without
    it, and no exception comes from it.  On a page where the names that do
    resolve are check boxes, [_select_elements] returns, every name that
    resolves ends ticked (the names after an unresolved one too), the log
    holds one warning for each unresolved name, in order, and nothing else,
    every click is on the check box of a configured name, and the page
    changes by ticks only.  The same holds for [_select_parameters]. *)
Theorem unresolved_name_is_skipped (self : t)
    (by_typology : gmap string (gmap string string)) :
  typology_dict self !! typology_key self = Some by_typology ->
  (forall table : gmap string string,
      by_typology !! "Elements" = Some table ->
      (forall (W E : Type) (driver : WebDriver W E) (pre post : list string)
              (bad : string) (s : session W E),
          not_xpath (table !! bad) = true ->
          _select_elements (with_elements self (pre ++ bad :: post)) s
          = bind (_select_elements (with_elements self pre)) (fun _ =>
            bind (log (WarnNoXPathElement bad)) (fun _ =>
            _select_elements (with_elements self post))) s)
      /\ (forall (p : page) (rest : browser) (tr : list (event handle)),
            (forall name x : string,
                In name (elements self) -> resolves table name x -> toggles p x) ->
            exists (p' : page) (tr' : list (event handle)),
              _select_elements self (Session (p :: rest) tr)
              = Ok tt (Session (p' :: rest) (tr ++ tr'))
              /\ logged tr' = map WarnNoXPathElement (unresolved table (elements self))
              /\ (forall h : handle,
                    In h (clicked tr') ->
                    exists name x : string,
                      In name (elements self) /\ resolves table name x
                      /\ h = Located (XPATH, x))
              /\ (forall name x : string,
                    In name (elements self) -> resolves table name x -> ticked p' x)
              /\ only_ticks p p'))
  /\ (forall table : gmap string string,
        by_typology !! "Parameters" = Some table ->
        (forall (W E : Type) (driver : WebDriver W E) (pre post : list string)
                (bad : string) (s : session W E),
            not_xpath (table !! bad) = true ->
            _select_parameters (with_parameters self (pre ++ bad :: post)) s
            = bind (_select_parameters (with_parameters self pre)) (fun _ =>
              bind (log (WarnNoXPathParameter bad)) (fun _ =>
              _select_parameters (with_parameters self post))) s)
        /\ (forall (p : page) (rest : browser) (tr : list (event handle)),
              (forall name x : string,
                  In name (parameters self) -> resolves table name x -> toggles p x) ->
              exists (p' : page) (tr' : list (event handle)),
                _select_parameters self (Session (p :: rest) tr)
                = Ok tt (Session (p' :: rest) (tr ++ tr'))
                /\ logged tr'
                   = map WarnNoXPathParameter (unresolved table (parameters self))
                /\ (forall h : handle,
                      In h (clicked tr') ->
                      exists name x : string,
                        In name (parameters self) /\ resolves table name x
                        /\ h = Located (XPATH, x))
                /\ (forall name x : string,
                      In name (parameters self) -> resolves table name x -> ticked p' x)
                /\ only_ticks p p')).
Proof.
  intros Hkey. split; intros table Htable; split.
  - intros W E driver pre post bad s Hnot.
    destruct (unresolved_name_costs_a_warning self by_typology pre bad post s Hkey)
      as [Helements _].
    apply (Helements table); assumption.
  - intros p rest tr Hall. rewrite select_elements_for_each.
    apply (toggle_loop (select_element self) WarnNoXPathElement table rest).
    + intros name s Hnot.
      apply (select_element_unresolved self by_typology table); assumption.
    + intros name x p0 tr0 e Hres He Hclick.
      apply (select_element_checkbox self by_typology table); assumption.
    + exact Hall.
  - intros W E driver pre post bad s Hnot.
    destruct (unresolved_name_costs_a_warning self by_typology pre bad post s Hkey)
      as [_ Hparameters].
    apply (Hparameters table); assumption.
  - intros p rest tr Hall. rewrite select_parameters_for_each.
    apply (toggle_loop (select_parameter self) WarnNoXPathParameter table rest).
    + intros name s Hnot.
      apply (select_parameter_unresolved self by_typology table); assumption.
    + intros name x p0 tr0 e Hres He Hclick.
      apply (select_parameter_checkbox self by_typology table); assumption.
    + exact Hall.
Qed.

End panel_facts.

(** ** The end of [select_data], and tables missing from the dictionary *)

Section selection_edges.
Context {W E : Type} `{WebDriver W E}.
Import DataSelectionService.

(** The last step of [select_data]: whatever the wait for the confirmation
    control and the click on it do, the step returns. *)
Lemma confirm_step_returns (self : t) (s2 : session W E) :
  exists s3 : session W E,
    try_except
      (bind (until element_to_be_clickable (XPATH, confirm_button_xpath (config self)))
         (fun confirm_button => checked_click confirm_button))
      (fun _ => log InfoNoConfirmButton) s2
    = Ok tt s3.
Proof.
  unfold try_except, bind, until, checked_click, try_except, bind, is_selected,
    click, observe, log, raise, ret.
  destruct (drv_until _ _ (world s2)) as [confirm_button|]; [|eauto].
  destruct (drv_is_selected confirm_button (world s2)) as [e|[|]]; [eauto|eauto|].
  destruct (drv_click confirm_button (world s2)); eauto.
Qed.

(** X7.  For every browser: once the table has been extracted,
    [select_data_finish] returns whatever becomes of the final confirmation.
    A confirmation control that never becomes clickable, or whose click
    raises, is not an error of the run; when the control is missing the only
    trace of it is one information record in the log. *)
Theorem confirmation_is_best_effort (self : t) (fuel : nat) (s s2 : session W E) :
  bind (until element_to_be_clickable (XPATH, next_button_xpath (config self)))
    (fun next_button =>
       bind (checked_click next_button) (fun _ =>
       bind (sleep 2000) (fun _ =>
       _extract_table self fuel (table_xpath (config self))
         (pagination_next_xpath (config self))))) s
  = Ok tt s2 ->
  (exists s3 : session W E, select_data_finish self fuel s = Ok tt s3)
  /\ (drv_until element_to_be_clickable (XPATH, confirm_button_xpath (config self))
        (world s2) = None ->
      select_data_finish self fuel s
      = Ok tt (Session (world s2) (trace s2 ++ [Logged InfoNoConfirmButton]))).
Proof.
  intros Hrun.
  assert (select_data_finish self fuel s
          = try_except
              (bind (until element_to_be_clickable
                       (XPATH, confirm_button_xpath (config self)))
                 (fun confirm_button => checked_click confirm_button))
              (fun _ => log InfoNoConfirmButton) s2) as ->.
  { unfold select_data_finish. unfold bind at 1 2 3 4. unfold bind at 1 2 3 in Hrun.
    destruct (until _ _ s) as [next_button s0| |]; try discriminate.
    destruct (checked_click next_button s0) as [[] s1| |]; try discriminate.
    destruct (sleep 2000 s1) as [[] s1'| |]; try discriminate.
    rewrite Hrun. reflexivity. }
  split; [apply confirm_step_returns|].
  intros Hnone. unfold try_except, bind, until. rewrite Hnone. reflexivity.
Qed.

(** X8.  For every browser: a typology that is in the dictionary without an
    ['Elements'] table makes [_select_elements] raise [KeyError] for
    ['Elements'] at the first configured name, before any wait or click;
    likewise [_select_parameters] for ['Parameters'].  With no name
    configured neither looks the table up. *)
Theorem missing_table_of_typology (self : t)
    (by_typology : gmap string (gmap string string)) (s : session W E) :
  typology_dict self !! typology_key self = Some by_typology ->
  (by_typology !! "Elements" = None ->
   _select_elements self s
   = match elements self with
     | [] => Ok tt s
     | _ => Exn (KeyError "Elements") s
     end)
  /\ (by_typology !! "Parameters" = None ->
      _select_parameters self s
      = match parameters self with
        | [] => Ok tt s
        | _ => Exn (KeyError "Parameters") s
        end).
Proof.
  intros Hkey. split; intros Hnone.
  - rewrite select_elements_for_each.
    destruct (elements self) as [|name names]; [reflexivity|].
    cbn [for_each]. unfold bind at 1. unfold select_element, getitem, bind.
    rewrite Hkey. cbn [ret]. rewrite Hnone. reflexivity.
  - rewrite select_parameters_for_each.
    destruct (parameters self) as [|name names]; [reflexivity|].
    cbn [for_each]. unfold bind at 1. unfold select_parameter, getitem, bind.
    rewrite Hkey. cbn [ret]. rewrite Hnone. reflexivity.
Qed.

End selection_edges.

(** ** Polling, naming and renaming the download *)

Section download_edges.
Context {W E : Type} `{WebDriver W E}.
Import Text DownloadService Template Disk.

Lemma poll_inversion (host : Host) (path : string) (remaining : nat) :
  forall elapsed : nat,
    match poll host path remaining elapsed with
    | inr (Some p) =>
        p = path
        /\ exists t : nat,
             (elapsed <= t < elapsed + remaining)%nat
             /\ host_disk host path t = Released
             /\ forall u : nat, (elapsed <= u < t)%nat -> busy host path u
    | inr None =>
        forall u : nat, (elapsed <= u < elapsed + remaining)%nat -> busy host path u
    | inl e =>
        exists t : nat,
          (elapsed <= t < elapsed + remaining)%nat
          /\ host_disk host path t = Unopenable e
          /\ forall u : nat, (elapsed <= u < t)%nat -> busy host path u
    end.
Proof.
  induction remaining as [|remaining IH]; intros elapsed; cbn [poll].
  - intros u Hu. lia.
  - specialize (IH (S elapsed)).
    destruct (host_disk host path elapsed) eqn:Hnow.
    + destruct (poll host path remaining (S elapsed)) as [e|[p|]].
      * destruct IH as (t & Ht & Hdisk & Hbusy). exists t. split; [lia|]. split; [exact Hdisk|].
        intros u Hu. destruct (Nat.eq_dec u elapsed) as [->|]; [left; exact Hnow|].
        apply Hbusy. lia.
      * destruct IH as (-> & t & Ht & Hdisk & Hbusy). split; [reflexivity|].
        exists t. split; [lia|]. split; [exact Hdisk|].
        intros u Hu. destruct (Nat.eq_dec u elapsed) as [->|]; [left; exact Hnow|].
        apply Hbusy. lia.
      * intros u Hu. destruct (Nat.eq_dec u elapsed) as [->|]; [left; exact Hnow|].
        apply IH. lia.
    + destruct (poll host path remaining (S elapsed)) as [e|[p|]].
      * destruct IH as (t & Ht & Hdisk & Hbusy). exists t. split; [lia|]. split; [exact Hdisk|].
        intros u Hu. destruct (Nat.eq_dec u elapsed) as [->|]; [right; exact Hnow|].
        apply Hbusy. lia.
      * destruct IH as (-> & t & Ht & Hdisk & Hbusy). split; [reflexivity|].
        exists t. split; [lia|]. split; [exact Hdisk|].
        intros u Hu. destruct (Nat.eq_dec u elapsed) as [->|]; [right; exact Hnow|].
        apply Hbusy. lia.
      * intros u Hu. destruct (Nat.eq_dec u elapsed) as [->|]; [right; exact Hnow|].
        apply IH. lia.
    + split; [reflexivity|]. exists elapsed. split; [lia|]. split; [exact Hnow|].
      intros u Hu. lia.
    + exists elapsed. split; [lia|]. split; [exact Hnow|]. intros u Hu. lia.
Qed.

Lemma settled_poll_is_unique (host : Host) (path : string) (t t' : nat) :
  first_settled host path t -> first_settled host path t' ->
  ~ busy host path t -> ~ busy host path t' -> t = t'.
Proof.
  intros Ht Ht' Hn Hn'.
  destruct (Nat.lt_trichotomy t t') as [Hlt | [Heq | Hgt]]; [|exact Heq|].
  - exfalso. apply Hn. apply Ht'. exact Hlt.
  - exfalso. apply Hn'. apply Ht. exact Hgt.
Qed.

(** X9.  What [_wait_for_downloaded_file] returns is decided by the first
    poll, among those made before the timeout, that finds the file neither
    absent nor locked: it returns a path exactly when that poll can open
    the file, and the path is the expected one in the download directory;
    it raises exactly when that poll's [open] raises something else than
    [PermissionError], and then raises that; it returns [None] exactly when
    there is no such poll. *)
Theorem wait_is_decided_by_first_settled_poll (host : Host) (config : DownloadConfig)
    (filename : string) (timeout : Z) :
  let path := Path.join (download_dir host config) filename in
  let result := _wait_for_downloaded_file host config filename timeout in
  (forall p : string,
      result = inr (Some p)
      <-> p = path
          /\ exists t : nat,
               (t < Z.to_nat timeout)%nat /\ first_settled host path t
               /\ host_disk host path t = Released)
  /\ (forall e : exn,
        result = inl e
        <-> exists t : nat,
              (t < Z.to_nat timeout)%nat /\ first_settled host path t
              /\ host_disk host path t = Unopenable e)
  /\ (result = inr None
      <-> forall t : nat, (t < Z.to_nat timeout)%nat -> busy host path t).
Proof.
  intros path result.
  pose proof (poll_inversion host path (Z.to_nat timeout) 0) as Hinv.
  fold path in Hinv. unfold result, _wait_for_downloaded_file. fold path.
  unfold first_settled.
  destruct (poll host path (Z.to_nat timeout) 0) as [e|[p|]].
  - destruct Hinv as (t & Ht & Hdisk & Hbusy).
    assert (first_settled host path t) as Hfirst by (intros u Hu; apply Hbusy; lia).
    assert (~ busy host path t) as Hnot by (unfold busy; rewrite Hdisk; intros [|]; discriminate).
    split; [|split].
    + intros p. split; [discriminate|]. intros (_ & t' & Ht' & Hfirst' & Hdisk').
      assert (t = t') as <-.
      { apply (settled_poll_is_unique host path); try assumption.
        unfold busy. rewrite Hdisk'. intros [|]; discriminate. }
      congruence.
    + intros e'. split.
      * intros [= <-]. exists t. split; [lia|]. auto.
      * intros (t' & Ht' & Hfirst' & Hdisk').
        assert (t = t') as <-.
        { apply (settled_poll_is_unique host path); try assumption.
          unfold busy. rewrite Hdisk'. intros [|]; discriminate. }
        congruence.
    + split; [discriminate|]. intros Hall. exfalso. apply Hnot. apply Hall. lia.
  - destruct Hinv as (-> & t & Ht & Hdisk & Hbusy).
    assert (first_settled host path t) as Hfirst by (intros u Hu; apply Hbusy; lia).
    assert (~ busy host path t) as Hnot by (unfold busy; rewrite Hdisk; intros [|]; discriminate).
    split; [|split].
    + intros p. split.
      * intros [= <-]. split; [reflexivity|]. exists t. split; [lia|]. auto.
      * intros (-> & _). reflexivity.
    + intros e'. split; [discriminate|]. intros (t' & Ht' & Hfirst' & Hdisk').
      assert (t = t') as <-.
      { apply (settled_poll_is_unique host path); try assumption.
        unfold busy. rewrite Hdisk'. intros [|]; discriminate. }
      congruence.
    + split; [discriminate|]. intros Hall. exfalso. apply Hnot. apply Hall. lia.
  - split; [|split].
    + intros p. split; [discriminate|]. intros (_ & t & Ht & _ & Hdisk).
      exfalso. destruct (Hinv t ltac:(lia)) as [Hb|Hb]; congruence.
    + intros e. split; [discriminate|]. intros (t & Ht & _ & Hdisk).
      exfalso. destruct (Hinv t ltac:(lia)) as [Hb|Hb]; congruence.
    + split; [|reflexivity]. intros _ t Ht. apply Hinv. lia.
Qed.

(** X10.  With [max_download_wait] zero or negative the disk is never looked
    at: [download_data] presses the button and raises [FileNotFoundError],
    also when the file is there and ready. *)
Theorem zero_timeout_never_polls (host : Host) (config : DownloadConfig)
    (day month year : option string) (s s1 : session W E) :
  max_download_wait config <= 0 ->
  press_download config s = Ok tt s1 ->
  _wait_for_downloaded_file host config (default_filename config)
    (max_download_wait config) = inr None
  /\ download_data host config day month year s
     = Exn FileNotFoundError
         (Session (world s1) (trace s1 ++ [Logged ErrorDownloadData])).
Proof.
  intros Hzero Hpress.
  assert (_wait_for_downloaded_file host config (default_filename config)
            (max_download_wait config) = inr None) as Hwait.
  { unfold _wait_for_downloaded_file.
    replace (Z.to_nat (max_download_wait config)) with 0%nat by lia. reflexivity. }
  split; [exact Hwait|].
  unfold download_data, try_except, bind. rewrite Hpress, Hwait. reflexivity.
Qed.

End download_edges.

Section naming_facts.
Context {W E : Type} `{WebDriver W E}.
Import Text DownloadService Template.

Lemma no_brace_prefix (c : ascii) (rest : string) (b : ascii) (sub : string) :
  no_brace c = true -> (b = "{" \/ b = "}")%char ->
  String.prefix (String b sub) (String c rest) = false.
Proof.
  intros Hc Hb. rewrite prefix_cons. unfold no_brace in Hc.
  apply negb_true_iff, orb_false_iff in Hc as [Hopen Hclose].
  destruct Hb as [-> | ->]; rewrite Ascii.eqb_sym; [rewrite Hopen | rewrite Hclose];
    reflexivity.
Qed.

(** A literal in front of a pattern is copied. *)
Lemma format_literal (day month year l p : string) :
  literal l ->
  format day month year 0 (l +:+ p)
  = match format day month year 0 p with
    | inr r => inr (l +:+ r)
    | inl e => inl e
    end.
Proof.
  unfold literal. induction l as [|c l IH]; intros Hl.
  - change (EmptyString +:+ p) with p.
    destruct (format day month year 0 p); reflexivity.
  - cbn [all_chars] in Hl. apply andb_true_iff in Hl as [Hc Hl].
    change (String c l +:+ p) with (String c (l +:+ p)).
    cbn [format].
    rewrite !(no_brace_prefix c (l +:+ p)) by (assumption || auto).
    unfold no_brace in Hc. apply negb_true_iff in Hc. rewrite Hc.
    rewrite (IH Hl). destruct (format day month year 0 p); reflexivity.
Qed.

Lemma format_plain (day month year l : string) :
  literal l -> format day month year 0 l = inr l.
Proof.
  unfold literal. induction l as [|c l IH]; intros Hl; [reflexivity|].
  cbn [all_chars] in Hl. apply andb_true_iff in Hl as [Hc Hl].
  cbn [format].
  rewrite !(no_brace_prefix c l) by (assumption || auto).
  unfold no_brace in Hc. apply negb_true_iff in Hc. rewrite Hc.
  rewrite (IH Hl). reflexivity.
Qed.

Lemma prefix_nil (p : string) : String.prefix EmptyString p = true.
Proof. destruct p; reflexivity. Qed.

Lemma format_day (day month year p : string) :
  format day month year 0 ("{day}" +:+ p)
  = match format day month year 0 p with
    | inr r => inr (day +:+ r)
    | inl e => inl e
    end.
Proof.
  change ("{day}" +:+ p) with (String "{" (String "d" (String "a" (String "y" (String "}" p))))).
  cbn [format]. rewrite !prefix_cons.
  cbn [Ascii.eqb Bool.eqb andb]. rewrite prefix_nil. reflexivity.
Qed.

Lemma format_month (day month year p : string) :
  format day month year 0 ("{month}" +:+ p)
  = match format day month year 0 p with
    | inr r => inr (month +:+ r)
    | inl e => inl e
    end.
Proof.
  change ("{month}" +:+ p) with (String "{" (String "m" (String "o" (String "n" (String "t" (String "h" (String "}" p))))))).
  cbn [format]. rewrite !prefix_cons.
  cbn [Ascii.eqb Bool.eqb andb]. rewrite prefix_nil. reflexivity.
Qed.

Lemma format_year (day month year p : string) :
  format day month year 0 ("{year}" +:+ p)
  = match format day month year 0 p with
    | inr r => inr (year +:+ r)
    | inl e => inl e
    end.
Proof.
  change ("{year}" +:+ p) with (String "{" (String "y" (String "e" (String "a" (String "r" (String "}" p)))))).
  cbn [format]. rewrite !prefix_cons.
  cbn [Ascii.eqb Bool.eqb andb]. rewrite prefix_nil. reflexivity.
Qed.

(** X11.  For a pattern made of literals around the fields [{day}],
    [{month}] and [{year}], in this order, [_generate_filename] returns the
    literals with the three values in the places of the fields, each value
    being the argument or, when the argument is [None] or empty, the
    current date's; the values are copied as they are, braces in them
    included. *)
Theorem generate_filename_fills_the_fields (host : Host) (config : DownloadConfig)
    (day month year : option string) (a b c d : string) :
  literal a -> literal b -> literal c -> literal d ->
  renamed_filename_pattern config
  = a +:+ "{day}" +:+ b +:+ "{month}" +:+ c +:+ "{year}" +:+ d ->
  _generate_filename host config day month year
  = inr (a +:+ or_else day (strftime_d host)
           +:+ b +:+ or_else month (strftime_B host)
           +:+ c +:+ or_else year (strftime_Y host) +:+ d).
Proof.
  intros Ha Hb Hc Hd Hpattern. unfold _generate_filename. rewrite Hpattern.
  rewrite (format_literal _ _ _ a) by exact Ha. rewrite format_day.
  rewrite (format_literal _ _ _ b) by exact Hb. rewrite format_month.
  rewrite (format_literal _ _ _ c) by exact Hc. rewrite format_year.
  rewrite (format_plain _ _ _ d) by exact Hd. reflexivity.
Qed.

Lemma isabs_append (d x : string) :
  Path.isabs d = true -> Path.isabs (d +:+ x) = true.
Proof.
  unfold Path.isabs. destruct d as [|c d]; [discriminate|].
  change (String c d +:+ x) with (String c (d +:+ x)).
  rewrite !prefix_cons. destruct (Ascii.eqb "/" c); [|discriminate].
  intros _. destruct (d +:+ x); reflexivity.
Qed.

Lemma isabs_join (d f : string) :
  Path.isabs d = true -> Path.isabs (Path.join d f) = true.
Proof.
  intros Hd. unfold Path.join. destruct (Path.isabs f) eqn:Hf; [exact Hf|].
  destruct (negb (truthy d) || Path.ends_with_slash d); apply isabs_append; exact Hd.
Qed.

Lemma join_absolute (d p : string) : Path.isabs p = true -> Path.join d p = p.
Proof. intros Hp. unfold Path.join. rewrite Hp. reflexivity. Qed.

Lemma isabs_relative_append (d x : string) :
  Path.isabs d = false -> truthy d = true -> Path.isabs (d +:+ x) = false.
Proof.
  unfold Path.isabs. destruct d as [|c d]; [discriminate|]. intros Hd _.
  change (String c d +:+ x) with (String c (d +:+ x)).
  rewrite prefix_cons in *. destruct (Ascii.eqb "/" c); [|reflexivity].
  destruct d; discriminate.
Qed.

Lemma join_relative (d f : string) :
  truthy d = true -> Path.ends_with_slash d = false -> Path.isabs f = false ->
  Path.join d f = d +:+ "/" +:+ f.
Proof.
  intros Hd Hslash Hf. unfold Path.join. rewrite Hf, Hd, Hslash. reflexivity.
Qed.

(** The end of [download_data], once the file is found and named. *)
Lemma download_data_found (host : Host) (config : DownloadConfig)
    (day month year : option string) (s s1 : session W E) (path final : string) :
  press_download config s = Ok tt s1 ->
  _wait_for_downloaded_file host config (default_filename config)
    (max_download_wait config) = inr (Some path) ->
  truthy path = true ->
  _generate_filename host config day month year = inr final ->
  download_data host config day month year s
  = try_except
      (FileManagerUtil.rename_file host path final (download_directory config))
      (fun e => bind (log ErrorDownloadData) (fun _ => raise e)) s1.
Proof.
  intros Hpress Hwait Hpath Hname.
  unfold download_data, try_except, bind. rewrite Hpress, Hwait.
  cbn [lift ret not_file]. rewrite Hpath. cbn [negb]. rewrite Hname. reflexivity.
Qed.

(** X12.  [download_data] hands the full path of the file it found to
    [rename_file], which joins it to the directory once more.  With an
    absolute download directory the path renamed is the path found.  With a
    relative one (and a relative file name) the directory comes twice: the
    path given to [os.rename] is not the path that was polled, and what
    [os.rename] raises for it is what [download_data] raises. *)
Theorem rename_joins_the_directory_again (host : Host) (config : DownloadConfig)
    (day month year : option string) (s s1 : session W E) (d final : string) :
  download_directory config = Some d -> truthy d = true ->
  press_download config s = Ok tt s1 ->
  _wait_for_downloaded_file host config (default_filename config)
    (max_download_wait config)
  = inr (Some (Path.join d (default_filename config))) ->
  _generate_filename host config day month year = inr final ->
  Path.isabs final = false ->
  let outcome_for (source : string) :=
    match host_rename host source (Path.join d final) with
    | None => Ok tt s1
    | Some e =>
        Exn e (Session (world s1)
                 (trace s1 ++ [Logged ErrorRenameFile] ++ [Logged ErrorDownloadData]))
    end in
  (Path.isabs d = true ->
   download_data host config day month year s
   = outcome_for (Path.join d (default_filename config)))
  /\ (Path.isabs d = false -> Path.ends_with_slash d = false ->
      Path.isabs (default_filename config) = false ->
      Path.join d (default_filename config) = d +:+ "/" +:+ default_filename config
      /\ download_data host config day month year s
         = outcome_for (d +:+ "/" +:+ d +:+ "/" +:+ default_filename config)).
Proof.
  intros Hdir Hd Hpress Hwait Hname Hfinal outcome_for.
  assert (truthy (Path.join d (default_filename config)) = true) as Hpath.
  { unfold Path.join. destruct d as [|c d]; [discriminate|].
    destruct (Path.isabs (default_filename config)) eqn:Hf.
    - destruct (default_filename config); [discriminate | reflexivity].
    - destruct (negb _ || _); reflexivity. }
  pose proof (download_data_found host config day month year s s1 _ final
                Hpress Hwait Hpath Hname) as Hrun.
  assert (forall source : string,
             Path.join d (Path.join d (default_filename config)) = source ->
             download_data host config day month year s = outcome_for source) as Hsource.
  { intros source Hjoin. rewrite Hrun.
    unfold FileManagerUtil.rename_file, try_except, outcome_for.
    rewrite Hdir, Hfinal, Hjoin.
    destruct (host_rename host source (Path.join d final)); [|reflexivity].
    unfold bind, log, raise. cbn [world trace]. rewrite <- app_assoc. reflexivity. }
  split.
  - intros Habs. apply Hsource. apply join_absolute, isabs_join. exact Habs.
  - intros Hrel Hslash Hfile.
    rewrite (join_relative d (default_filename config)) by assumption.
    split; [reflexivity|]. apply Hsource.
    rewrite (join_relative d (default_filename config)) by assumption.
    apply join_relative; try assumption.
    apply isabs_relative_append; assumption.
Qed.

End naming_facts.

(** ** Starting and closing the browser *)

Section manager_facts.
Context {D : Type}.
Variable env : WebDriverManager.Machine D.
Import Text WebDriverManager.

(** X13.  The browser name is compared after lower-casing and stripping.
    When what is left is none of [edge], [chrome] and [firefox],
    [init_driver] raises [ValueError] with that name, logs one error, starts
    no browser and leaves the manager without a driver; used in a [with]
    statement, the manager runs neither the body nor a quit. *)
Theorem unsupported_browser_starts_nothing (browser : string) (headless : bool)
    (driver_path : option string) (body : option D -> list (event D)) :
  let self := init env browser headless driver_path in
  strip (lower browser) <> "edge" ->
  strip (lower browser) <> "chrome" ->
  strip (lower browser) <> "firefox" ->
  init_driver env self
  = (self, [Logged ErrorUnexpected], inl (ValueError (strip (lower browser))))
  /\ driver self = None
  /\ with_manager env self body = (self, [Logged ErrorUnexpected]).
Proof.
  intros self Hedge Hchrome Hfirefox.
  apply String.eqb_neq in Hedge, Hchrome, Hfirefox.
  assert (init_driver env self
          = (self, [Logged ErrorUnexpected], inl (ValueError (strip (lower browser)))))
    as Hinit.
  { unfold init_driver, _create_driver, self, init. cbn [WebDriverManager.browser].
    rewrite Hedge, Hchrome, Hfirefox. reflexivity. }
  split; [exact Hinit|]. split; [reflexivity|].
  unfold with_manager, __enter__. rewrite Hinit. reflexivity.
Qed.

(** X14.  The executable path of a service is the configured
    [driver_path] whenever one is configured (not [None], not empty),
    whatever the machine.  When none is configured, the Edge service never
    has a path, and off Jetson neither have the Chrome and Firefox
    services; on Jetson the Chrome and Firefox services have the first of
    their two known locations, in the order [/usr/bin], [/usr/local/bin],
    that exists and is executable, and no path when neither does. *)
Theorem service_path_is_configured_or_checked (self : t D) :
  (forall p : string,
      driver_path self = Some p -> truthy p = true ->
      _create_edge_service self = Some p
      /\ _create_chrome_service env self = Some p
      /\ _create_firefox_service env self = Some p)
  /\ (given (driver_path self) = false ->
      _create_edge_service self = None
      /\ (_is_jetson self = false ->
          _create_chrome_service env self = None
          /\ _create_firefox_service env self = None)
      /\ (_is_jetson self = true ->
          _create_chrome_service env self
          = (if executable env "/usr/bin/chromedriver"
             then Some "/usr/bin/chromedriver"
             else if executable env "/usr/local/bin/chromedriver"
                  then Some "/usr/local/bin/chromedriver"
                  else None)
          /\ _create_firefox_service env self
             = (if executable env "/usr/bin/geckodriver"
                then Some "/usr/bin/geckodriver"
                else if executable env "/usr/local/bin/geckodriver"
                     then Some "/usr/local/bin/geckodriver"
                     else None))).
Proof.
  split.
  - intros p Hp Htruthy.
    unfold _create_edge_service, _create_chrome_service, _create_firefox_service.
    rewrite Hp. cbn [given]. rewrite Htruthy. cbn [negb andb given].
    rewrite Htruthy. auto.
  - intros Hnone. split; [|split].
    + unfold _create_edge_service. rewrite Hnone. reflexivity.
    + intros Hjetson.
      unfold _create_chrome_service, _create_firefox_service.
      rewrite Hnone, Hjetson. cbn [negb andb]. rewrite Hnone. auto.
    + intros Hjetson.
      unfold _create_chrome_service, _create_firefox_service, search.
      rewrite Hnone, Hjetson. cbn [negb andb List.find].
      split.
      * destruct (executable env "/usr/bin/chromedriver"); [reflexivity|].
        destruct (executable env "/usr/local/bin/chromedriver"); [reflexivity|].
        rewrite Hnone. reflexivity.
      * destruct (executable env "/usr/bin/geckodriver"); [reflexivity|].
        destruct (executable env "/usr/local/bin/geckodriver"); [reflexivity|].
        rewrite Hnone. reflexivity.
Qed.

(** The record [init_driver] logs for an exception. *)
Lemma init_driver_failure (self : t D) (events : list (event D)) (e : error) :
  _create_driver env self = (events, inl e) ->
  init_driver env self
  = (self,
     events ++ [Logged match e with
                       | SessionNotCreatedException => ErrorSessionNotCreated
                       | WebDriverException => ErrorWebDriver
                       | _ => ErrorUnexpected
                       end],
     inl e).
Proof. intros Hcreate. unfold init_driver. rewrite Hcreate. destruct e; reflexivity. Qed.

(** X15.  In a [with] statement the manager quits the driver it started
    exactly once, after the body, and is left without a driver.  When the
    browser does not start, the exception is logged once (a session that
    could not be created with its own record, not that of the other driver
    errors), the body does not run, nothing is quit and the manager is
    unchanged. *)
Theorem with_statement_quits_what_it_started (self : t D)
    (body : option D -> list (event D)) (events : list (event D)) :
  (forall d : D,
      _create_driver env self = (events, inr d) ->
      with_manager env self body
      = (Manager (browser self) (headless self) (driver_path self) (_is_jetson self) None,
         events ++ body (Some d) ++ [Quit d]))
  /\ (forall e : error,
        _create_driver env self = (events, inl e) ->
        with_manager env self body
        = (self,
           events ++ [Logged match e with
                             | SessionNotCreatedException => ErrorSessionNotCreated
                             | WebDriverException => ErrorWebDriver
                             | _ => ErrorUnexpected
                             end])).
Proof.
  split.
  - intros d Hcreate. unfold with_manager, __enter__, init_driver.
    rewrite Hcreate. reflexivity.
  - intros e Hcreate. unfold with_manager, __enter__.
    rewrite (init_driver_failure self events e Hcreate). reflexivity.
Qed.

(** X16.  [close_driver] quits the driver the manager holds, once, and
    leaves the manager without one; on a manager without a driver (never
    started, already closed, or whose [init_driver] failed) it quits
    nothing and changes nothing.  So two calls in a row quit the driver
    held exactly once. *)
Theorem close_driver_is_idempotent (self : t D) :
  (forall d : D,
      driver self = Some d ->
      close_driver self
      = (Manager (browser self) (headless self) (driver_path self) (_is_jetson self) None,
         [Quit d]))
  /\ (driver self = None -> close_driver self = (self, []))
  /\ driver (fst (close_driver self)) = None
  /\ close_driver (fst (close_driver self)) = (fst (close_driver self), [])
  /\ snd (close_driver self) ++ snd (close_driver (fst (close_driver self)))
     = match driver self with
       | Some d => [Quit d]
       | None => []
       end
  /\ (forall (events : list (event D)) (e : error),
        driver self = None ->
        _create_driver env self = (events, inl e) ->
        close_driver (fst (fst (init_driver env self))) = (self, [])).
Proof.
  split; [|split; [|split; [|split; [|split]]]].
  - intros d Hd. unfold close_driver. rewrite Hd. reflexivity.
  - intros Hnone. unfold close_driver. rewrite Hnone. reflexivity.
  - unfold close_driver. destruct (driver self) eqn:Hd; cbn [fst driver];
      [reflexivity | exact Hd].
  - unfold close_driver. destruct (driver self) eqn:Hd; cbn [fst driver];
      [reflexivity | rewrite Hd; reflexivity].
  - unfold close_driver. destruct (driver self) eqn:Hd; cbn [fst snd driver];
      [reflexivity | rewrite Hd; reflexivity].
  - intros events e Hnone Hcreate.
    rewrite (init_driver_failure self events e Hcreate). cbn [fst].
    unfold close_driver. rewrite Hnone. reflexivity.
Qed.

End manager_facts.

(** ** The further properties on concrete runs *)

Section further_runs.
Import Fixtures Cases.

(** From March 2025 back to 15 February 2024. *)
Lemma select_date_backward_terminates_witness :
  Datepicker.select_date 15 "Febrero" 2024 240 (Session calendar_march_2025 [])
  = Ok tt
      (Session (Datepicker.Calendar 2024 1 false [] (Some (2024, 1%nat, 15)))
         ([] ++ [Clicked Datepicker.Input]
             ++ repeat (Clicked Datepicker.Prev) 13
             ++ [Clicked (Datepicker.DayCell 15)])).
Proof.
  apply (select_date_backward_terminates calendar_march_2025 15 "Febrero" 2024 1 240 []).
  - lia.
  - reflexivity.
  - simpl. lia.
  - lia.
  - simpl. lia.
  - left. simpl. lia.
  - lia.
  - vm_compute. lia.
Defined.

(** Against C3 as stated: 15 March 2025 is one month back from April 2025,
    but it is the day the widget marks as today, so its cell has a class
    besides [day]; [select_date] goes back the month, clicks no day and
    raises.  So does a target day the month does not have. *)
Lemma select_date_backward_without_day_cell :
  let today := Datepicker.select_date 15 "marzo" 2025 240
                 (Session calendar_april_2025_today []) in
  let short := Datepicker.select_date 31 "abril" 2025 240
                 (Session calendar_may_2025 []) in
  Datepicker.reachable_backward calendar_april_2025_today 2025 2
  /\ verdict_of today = Raised TimeoutException
  /\ trace_of today
     = [Clicked Datepicker.Input; Clicked Datepicker.Prev; Logged ErrorSelectDate]
  /\ Datepicker.reachable_backward calendar_may_2025 2025 3
  /\ verdict_of short = Raised TimeoutException
  /\ trace_of short
     = [Clicked Datepicker.Input; Clicked Datepicker.Prev; Logged ErrorSelectDate].
Proof.
  repeat split; try (vm_compute; reflexivity); right; split; (reflexivity || simpl; lia).
Qed.

(** From February 2025 the target March 2025 is in the same year and later:
    eleven activations lead to March 2024.  From January 2024 the target
    29 February 2024 leads to February 2023, which has no 29th. *)
Lemma select_date_wraps_to_previous_year_witness :
  Datepicker.select_date 15 "marzo" 2025 240 (Session calendar_february_2025 [])
  = Ok tt
      (Session (Datepicker.Calendar 2024 2 false [] (Some (2024, 2%nat, 15)))
         ([] ++ [Clicked Datepicker.Input]
             ++ repeat (Clicked Datepicker.Prev) 11
             ++ [Clicked (Datepicker.DayCell 15)]))
  /\ Datepicker.select_date 29 "febrero" 2024 240 (Session calendar_january_2024 [])
     = Exn TimeoutException
         (Session (Datepicker.Calendar 2023 1 true [] None)
            ([] ++ [Clicked Datepicker.Input]
                ++ repeat (Clicked Datepicker.Prev) 11
                ++ [Logged ErrorSelectDate])).
Proof.
  split.
  - apply (select_date_wraps_to_previous_year calendar_february_2025 15 "marzo" 2 240 []).
    + lia.
    + reflexivity.
    + simpl. lia.
    + simpl. lia.
    + lia.
    + simpl. lia.
  - apply (select_date_wraps_to_previous_year calendar_january_2024 29 "febrero" 1 240 []).
    + lia.
    + reflexivity.
    + simpl. lia.
    + simpl. lia.
    + lia.
    + simpl. lia.
Defined.

(** There is no 31 February. *)
Lemma select_date_day_unavailable_witness :
  Datepicker.select_date 31 "febrero" 2025 240 (Session calendar_march_2025 [])
  = Exn TimeoutException
      (Session (Datepicker.Calendar 2025 1 true [] None)
         ([] ++ [Clicked Datepicker.Input]
             ++ repeat (Clicked Datepicker.Prev) 1
             ++ [Logged ErrorSelectDate])).
Proof.
  apply (select_date_day_unavailable calendar_march_2025 31 "febrero" 2025 1 240 []).
  - lia.
  - reflexivity.
  - simpl. lia.
  - lia.
  - simpl. lia.
  - right. split; [reflexivity | simpl; lia].
  - lia.
  - reflexivity.
  - vm_compute. lia.
Defined.

Lemma select_date_already_aligned_witness :
  Datepicker.select_date 10 "MARZO" 2025 0 (Session calendar_march_2025 [])
  = Ok tt
      (Session (Datepicker.Calendar 2025 2 false [] (Some (2025, 2%nat, 10)))
         ([] ++ [Clicked Datepicker.Input] ++ [Clicked (Datepicker.DayCell 10)])).
Proof.
  unfold Datepicker.select_date.
  apply (select_date_already_aligned 10 "MARZO" 2025
           DatePickerUtil.input_datapicker_xpath_default
           DatePickerUtil.datepicker_container_class_name_default
           DatePickerUtil.datepicker_switch_xpath_default
           DatePickerUtil.prev_button_xpath_default 0
           (Session calendar_march_2025 []) Datepicker.Input
           (Datepicker.Calendar 2025 2 true [] None) "Marzo 2025"
           (Datepicker.DayCell 10)).
  - split; [reflexivity|]. split; [reflexivity|].
    split; [eexists; reflexivity | eexists; split; reflexivity].
  - left. reflexivity.
  - reflexivity.
  - reflexivity.
  - reflexivity.
Defined.

(** Scenario D: the name in the middle is unknown; the names around it are
    ticked, and the log holds the one warning. *)
Lemma unresolved_name_is_skipped_witness :
  exists (p' : Dom.page) (tr' : list (event Dom.handle)),
    DataSelectionService._select_elements service (Session (analysis_page :: []) [])
    = Ok tt (Session (p' :: []) ([] ++ tr'))
    /\ Panel.logged tr'
       = map WarnNoXPathElement
           (Panel.unresolved inversor_elements (DataSelectionService.elements service))
    /\ (forall h : Dom.handle,
          In h (Panel.clicked tr') ->
          exists name x : string,
            In name (DataSelectionService.elements service)
            /\ Panel.resolves inversor_elements name x
            /\ h = Dom.Located (XPATH, x))
    /\ (forall name x : string,
          In name (DataSelectionService.elements service) ->
          Panel.resolves inversor_elements name x -> Panel.ticked p' x)
    /\ Panel.only_ticks analysis_page p'.
Proof.
  destruct (unresolved_name_is_skipped service inversor_tables) as [Helements _].
  - vm_compute. reflexivity.
  - destruct (Helements inversor_elements) as [_ Hpage].
    + vm_compute. reflexivity.
    + apply (Hpage analysis_page [] []).
      intros name x [<- | [<- | [<- | []]]] [Hname _]; vm_compute in Hname;
        try discriminate; injection Hname as <-;
        eexists; split; vm_compute; reflexivity.
Defined.

(** A single page whose next-page control is never disabled. *)
Lemma stalled_pagination_never_ends_witness :
  DataSelectionService.table_contents 50 "//next" "//table" (Session [results_2] [])
  = OutOfFuel
  /\ DataSelectionService._extract_table service 50 "//next" "//table"
       (Session [results_2] [])
     = OutOfFuel.
Proof.
  apply (stalled_pagination_never_ends service "//next" "//table" results_2
           (Dom.table ["Fecha"; "Potencia"] [["1"; " 2"]; ["4"; "5"; "6"]])
           (Dom.next_link "page-link") 50 []).
  - vm_compute. reflexivity.
  - vm_compute. reflexivity.
  - reflexivity.
  - right. right. reflexivity.
Defined.

(** The second of three header cells is blank: two column names for rows of
    three cells. *)
Lemma blank_header_cell_loses_the_table_witness :
  DataSelectionService._extract_table service 5 "//next" "//table"
    (Session (results_blank_header :: []) [])
  = Exn ValueError (Session (results_blank_header :: []) []).
Proof.
  apply (blank_header_cell_loses_the_table service "//next" "//table"
           results_blank_header [] 5 []
           (Dom.table ["Fecha"; " "; "Potencia"]
              [["00:00"; "x"; "0"]; ["00:15"; ""; "1"]])).
  - vm_compute. reflexivity.
  - vm_compute. reflexivity.
  - lia.
  - simpl. discriminate.
  - repeat constructor.
Defined.

(** The page after the first has no table. *)
Lemma missing_table_aborts_extraction_witness :
  DataSelectionService._extract_table service 5 "//next" "//table"
    (Session ([results_1] ++ panel :: []) [])
  = Exn TimeoutException
      (Session (panel :: [])
         ([] ++ repeat (Clicked (Dom.Located (XPATH, "//next"))) (length [results_1]))).
Proof.
  apply (missing_table_aborts_extraction service "//next" "//table" [results_1] panel [] 5 []).
  - repeat constructor; eexists; vm_compute; reflexivity.
  - repeat constructor; vm_compute; reflexivity.
  - vm_compute. reflexivity.
  - simpl. lia.
Defined.

Lemma select_elements_ticks_check_boxes_witness :
  exists (p' : Dom.page) (tr' : list (event Dom.handle)),
    DataSelectionService._select_elements
      (DataSelectionService.with_elements service
         ["UP1 INV1.1-01"; "UP1 INV1.1-02"; "UP1 INV1.1-01"])
      (Session (analysis_page :: []) [])
    = Ok tt (Session (p' :: []) tr')
    /\ (forall name : string,
          In name ["UP1 INV1.1-01"; "UP1 INV1.1-02"; "UP1 INV1.1-01"] ->
          exists x : string, Panel.resolves inversor_elements name x /\ Panel.ticked p' x)
    /\ Panel.only_ticks analysis_page p'
    /\ DataSelectionService._select_elements
         (DataSelectionService.with_elements service
            ["UP1 INV1.1-01"; "UP1 INV1.1-02"; "UP1 INV1.1-01"])
         (Session (p' :: []) tr')
       = Ok tt (Session (p' :: []) tr').
Proof.
  apply (select_elements_ticks_check_boxes
           (DataSelectionService.with_elements service
              ["UP1 INV1.1-01"; "UP1 INV1.1-02"; "UP1 INV1.1-01"])
           inversor_tables inversor_elements analysis_page [] []).
  - vm_compute. reflexivity.
  - vm_compute. reflexivity.
  - intros name [<-|[<-|[<-|[]]]]; eexists; (split; [split|eexists; split]);
      vm_compute; reflexivity.
Defined.

(** The page has no confirmation control. *)
Lemma confirmation_is_best_effort_witness :
  DataSelectionService.select_data_finish service 5
    (Session [analysis_page_without_table] [])
  = Ok tt
      (Session [analysis_page_without_table]
         ([Clicked (Dom.Located (XPATH, "//ok"));
           ToExcel "Data_Inversor - (INVERSOR)_15_febrero_2025.xlsx" None []]
            ++ [Logged InfoNoConfirmButton])).
Proof.
  destruct (confirmation_is_best_effort service 5
              (Session [analysis_page_without_table] [])
              (Session [analysis_page_without_table]
                 [Clicked (Dom.Located (XPATH, "//ok"));
                  ToExcel "Data_Inversor - (INVERSOR)_15_febrero_2025.xlsx" None []]))
    as [_ Hmissing].
  - reflexivity.
  - apply Hmissing. reflexivity.
Defined.

Lemma missing_table_of_typology_witness :
  DataSelectionService._select_elements service_without_elements
    (Session [analysis_page] [])
  = Exn (KeyError "Elements") (Session [analysis_page] []).
Proof.
  destruct (missing_table_of_typology service_without_elements
              {[ "Parameters" := {[ "POTENCIA DC" := "//potencia" ]} ]}
              (Session [analysis_page] [])) as [Helements _].
  - vm_compute. reflexivity.
  - apply Helements. vm_compute. reflexivity.
Defined.

(** The poll of the fifth second is the first to find the file released. *)
Lemma wait_is_decided_by_first_settled_poll_witness :
  DownloadService._wait_for_downloaded_file host_with_slow_file download_config
    "QuickAnalysis.xlsx" 60
  = inr (Some "/home/user/Downloads/QuickAnalysis.xlsx").
Proof.
  destruct (wait_is_decided_by_first_settled_poll host_with_slow_file download_config
              "QuickAnalysis.xlsx" 60) as [Hfound _].
  apply Hfound. split; [reflexivity|]. exists 5%nat.
  split; [simpl; lia|]. split; [|reflexivity].
  intros u Hu. unfold Disk.busy.
  destruct u as [|[|[|[|[|u]]]]];
    [left; reflexivity | left; reflexivity | left; reflexivity
     | right; reflexivity | right; reflexivity | lia].
Defined.

(** The file is ready, and is not looked for. *)
Lemma zero_timeout_never_polls_witness :
  DownloadService._wait_for_downloaded_file host_with_ready_file download_config_no_wait
    "QuickAnalysis.xlsx" 0 = inr None
  /\ DownloadService.download_data host_with_ready_file download_config_no_wait
       None None None (Session [download_page] [])
     = Exn FileNotFoundError
         (Session [download_page]
            ([Clicked (Dom.Located (XPATH, "//download"))] ++ [Logged ErrorDownloadData])).
Proof.
  apply (zero_timeout_never_polls host_with_ready_file download_config_no_wait
           None None None (Session [download_page] [])
           (Session [download_page] [Clicked (Dom.Located (XPATH, "//download"))])).
  - simpl. lia.
  - reflexivity.
Defined.

(** The month is not given and the year is empty: both are today's. *)
Lemma generate_filename_fills_the_fields_witness :
  DownloadService._generate_filename host_with_slow_file download_config
    (Some "15") None (Some "")
  = inr "QuickAnalysis_15_November_2026.xlsx".
Proof.
  apply (generate_filename_fills_the_fields host_with_slow_file download_config
           (Some "15") None (Some "") "QuickAnalysis_" "_" "_" ".xlsx");
    reflexivity.
Defined.

(** The file polled and found is [descargas/QuickAnalysis.xlsx]; the file
    [os.rename] is asked to rename is
    [descargas/descargas/QuickAnalysis.xlsx], which is not there. *)
Lemma rename_joins_the_directory_again_witness :
  DownloadService._wait_for_downloaded_file host_with_one_file download_config_relative
    "QuickAnalysis.xlsx" 60
  = inr (Some "descargas/QuickAnalysis.xlsx")
  /\ DownloadService.download_data host_with_one_file download_config_relative
       (Some "15") (Some "marzo") (Some "2025") (Session [download_page] [])
     = Exn FileNotFoundError
         (Session [download_page]
            ([Clicked (Dom.Located (XPATH, "//download"))]
               ++ [Logged ErrorRenameFile] ++ [Logged ErrorDownloadData])).
Proof.
  split; [reflexivity|].
  destruct (rename_joins_the_directory_again host_with_one_file download_config_relative
              (Some "15") (Some "marzo") (Some "2025") (Session [download_page] [])
              (Session [download_page] [Clicked (Dom.Located (XPATH, "//download"))])
              "descargas" "QuickAnalysis_15_marzo_2025.xlsx") as [_ Hrelative].
  - reflexivity.
  - reflexivity.
  - reflexivity.
  - reflexivity.
  - reflexivity.
  - reflexivity.
  - destruct Hrelative as [_ Hrun].
    + reflexivity.
    + reflexivity.
    + reflexivity.
    + exact Hrun.
Defined.

(** Safari, however it is written, is not supported. *)
Lemma unsupported_browser_starts_nothing_witness :
  WebDriverManager.init_driver jetson (WebDriverManager.init jetson "  Safari " true None)
  = (WebDriverManager.init jetson "  Safari " true None,
     [WebDriverManager.Logged WebDriverManager.ErrorUnexpected],
     inl (WebDriverManager.ValueError "safari"))
  /\ WebDriverManager.driver (WebDriverManager.init jetson "  Safari " true None) = None
  /\ WebDriverManager.with_manager jetson
       (WebDriverManager.init jetson "  Safari " true None) (fun _ => [])
     = (WebDriverManager.init jetson "  Safari " true None,
        [WebDriverManager.Logged WebDriverManager.ErrorUnexpected]).
Proof.
  apply (unsupported_browser_starts_nothing jetson "  Safari " true None (fun _ => []));
    vm_compute; discriminate.
Defined.

(** On the Jetson board, Firefox without a configured path gets the
    geckodriver of [/usr/local/bin], the one of [/usr/bin] not being there;
    there is no chromedriver, and Chrome gets no path. *)
Lemma service_path_is_configured_or_checked_witness :
  WebDriverManager._create_chrome_service jetson
    (WebDriverManager.init jetson "firefox" false None)
  = None
  /\ WebDriverManager._create_firefox_service jetson
       (WebDriverManager.init jetson "firefox" false None)
     = Some "/usr/local/bin/geckodriver".
Proof.
  destruct (service_path_is_configured_or_checked jetson
              (WebDriverManager.init jetson "firefox" false None)) as [_ Hsearch].
  destruct Hsearch as (_ & _ & Hjetson).
  - reflexivity.
  - apply Hjetson. reflexivity.
Defined.

(** Firefox on the Jetson board, in a [with] statement whose body does
    nothing. *)
Lemma with_statement_quits_what_it_started_witness :
  WebDriverManager.with_manager jetson
    (WebDriverManager.init jetson "Firefox" true None) (fun _ => [])
  = (WebDriverManager.Manager "firefox" true None true None,
     [WebDriverManager.Started
        (WebDriverManager.Launch WebDriverManager.Firefox [] true
           (Some "/usr/local/bin/geckodriver"))]
       ++ [] ++ [WebDriverManager.Quit 7%nat]).
Proof.
  destruct (with_statement_quits_what_it_started jetson
              (WebDriverManager.init jetson "Firefox" true None) (fun _ => [])
              [WebDriverManager.Started
                 (WebDriverManager.Launch WebDriverManager.Firefox [] true
                    (Some "/usr/local/bin/geckodriver"))]) as [Hstarted _].
  apply (Hstarted 7%nat). reflexivity.
Defined.

(** Firefox has started on the Jetson board: the first [close_driver]
    quits it, the second quits nothing.  On the desktop Chrome does not
    start, and there is nothing to quit afterwards. *)
Lemma close_driver_is_idempotent_witness :
  WebDriverManager.close_driver
    (WebDriverManager.Manager "firefox" true None true (Some 7%nat))
  = (WebDriverManager.Manager "firefox" true None true None,
     [WebDriverManager.Quit 7%nat])
  /\ WebDriverManager.close_driver
       (WebDriverManager.Manager "firefox" true None true (None : option nat))
     = (WebDriverManager.Manager "firefox" true None true None, [])
  /\ WebDriverManager.close_driver
       (fst (fst (WebDriverManager.init_driver desktop_without_browser
                    (WebDriverManager.init desktop_without_browser "chrome" false None))))
     = (WebDriverManager.init desktop_without_browser "chrome" false None, []).
Proof.
  split; [|split].
  - destruct (close_driver_is_idempotent jetson
                (WebDriverManager.Manager "firefox" true None true (Some 7%nat)))
      as [Hheld _].
    apply (Hheld 7%nat). reflexivity.
  - destruct (close_driver_is_idempotent jetson
                (WebDriverManager.Manager "firefox" true None true (None : option nat)))
      as (_ & Hnone & _).
    apply Hnone. reflexivity.
  - destruct (close_driver_is_idempotent desktop_without_browser
                (WebDriverManager.init desktop_without_browser "chrome" false None))
      as (_ & _ & _ & _ & _ & Hfailed).
    apply (Hfailed
             [WebDriverManager.Started
                (WebDriverManager.Launch WebDriverManager.Chrome [] false None)]
             WebDriverManager.SessionNotCreatedException).
    + reflexivity.
    + reflexivity.
Defined.

End further_runs.
